(** * Taskbook: the task list, the editing surface and the action layer

    A shallow embedding of the taskbook package:
    - [TaskModel], the task entities (classes [TaskModel],
      [DataintegrationTaskModel], [NotebookcellTaskModel]);
    - [TaskList], the undo-aware list of task entities (class [TaskList]);
    - [ContentFactory], the entity factory of [TaskbookModel];
    - [Taskbook], the editing surface of [taskbook/src/widget.ts];
    - [TaskbookActions], the action layer of [taskbook/src/actions.ts].

    JS numbers that are list indices are [Z] ([-1] is the usual sentinel),
    JS strings are [string], objects that are mutated through several
    references (task entities, task widgets) live in an explicit store and
    are named by their address.  Signals are synchronous: emitting one runs
    the connected slot before the emitting statement returns.  DOM focus,
    scrolling, CSS classes and posted update requests carry no state the
    functions below read, and are left out. *)

From Stdlib Require Import ZArith Lia Ascii String.
From stdpp Require Import base option list gmap strings pretty.

Local Open Scope Z_scope.
#[local] Set Warnings "-register-all".

(** ** JSON values and JS arrays *)

(** [JSONValue] of [@phosphor/coreutils]; objects keep their keys in
    insertion order. *)
Inductive JSONValue : Type :=
  | JNull
  | JBool (b : bool)
  | JNumber (n : Z)
  | JString (s : string)
  | JArray (l : list JSONValue)
  | JObject (o : list (string * JSONValue)).

(** Property read [o[k]]: [None] is JS [undefined]. *)
Fixpoint obj_get (k : string) (o : list (string * JSONValue)) : option JSONValue :=
  match o with
  | [] => None
  | (k', v) :: o' => if String.eqb k k' then Some v else obj_get k o'
  end.

(** Property write [o[k] = v]: an existing key keeps its position. *)
Fixpoint obj_set (k : string) (v : JSONValue) (o : list (string * JSONValue))
  : list (string * JSONValue) :=
  match o with
  | [] => [(k, v)]
  | (k', v') :: o' =>
      if String.eqb k k' then (k, v) :: o' else (k', v') :: obj_set k v o'
  end.

(** [delete o[k]]. *)
Fixpoint obj_delete (k : string) (o : list (string * JSONValue))
  : list (string * JSONValue) :=
  match o with
  | [] => []
  | (k', v') :: o' =>
      if String.eqb k k' then obj_delete k o' else (k', v') :: obj_delete k o'
  end.

(** Property read on a value that may not be an object. *)
Definition prop (k : string) (v : JSONValue) : option JSONValue :=
  match v with
  | JObject o => obj_get k o
  | _ => None
  end.

(** JS truthiness, as used by [!!x] and [x || y]. *)
Definition truthy (v : option JSONValue) : bool :=
  match v with
  | None | Some JNull => false
  | Some (JBool b) => b
  | Some (JNumber n) => negb (n =? 0)
  | Some (JString s) => negb (String.eqb s "")
  | Some (JArray _) | Some (JObject _) => true
  end.

(** [a.length] as a JS number. *)
Definition len {A} (l : list A) : Z := Z.of_nat (length l).

(** [a[i]]: [undefined] outside the array. *)
Definition at_index {A} (l : list A) (i : Z) : option A :=
  if i <? 0 then None else l !! Z.to_nat i.

(** [ArrayExt.insert] at a position already clamped to [0 .. length]. *)
Definition insert_at {A} (i : nat) (x : A) (l : list A) : list A :=
  take i l ++ x :: drop i l.

(** [ArrayExt.move]: take the element out and put it back at [j]. *)
Definition move_to {A} (i j : nat) (l : list A) : list A :=
  match l !! i with
  | Some x => insert_at j x (delete i l)
  | None => l
  end.

(** Clamp of an insertion index to [0 .. length]. *)
Definition clamp_index (i : Z) (n : nat) : nat :=
  Z.to_nat (Z.max 0 (Z.min i (Z.of_nat n))).

(** [ArrayExt.findFirstIndex]: the index of the first value that passes
    the test, [-1] when there is none. *)
Fixpoint findFirstIndex_from {A} (f : A -> bool) (i : Z) (l : list A) : Z :=
  match l with
  | [] => -1
  | x :: l' => if f x then i else findFirstIndex_from f (i + 1) l'
  end.

Definition findFirstIndex {A} (f : A -> bool) (l : list A) : Z :=
  findFirstIndex_from f 0 l.

(** ** OrderedStore *)

(** Modelled from the spec: the observable undoable list of ids that
    [TaskList] keeps in [_taskOrder] (IObservableUndoableList of
    [@jupyterlab/observables], section 4.1 "OrderedStore"); its source is
    not part of the package.  Every structural edit yields one change
    record; edits made between [beginCompoundOperation] and the matching
    [endCompoundOperation] form one undo step, nested pairs collapse to the
    outermost one; [undo] and [redo] replay a step through the same edits,
    which therefore yield change records like forward edits do. *)
Module OrderedStore.

Inductive ChangeType : Type := Add | Remove | Set_ | Move.

(** [IObservableList.IChangedArgs<T>]. *)
Record IChangedArgs (T : Type) : Type := ChangedArgs {
  type : ChangeType;
  oldIndex : Z;
  newIndex : Z;
  oldValues : list T;
  newValues : list T
}.
Arguments ChangedArgs {T}.
Arguments type {T}.
Arguments oldIndex {T}.
Arguments newIndex {T}.
Arguments oldValues {T}.
Arguments newValues {T}.

Definition Change : Type := IChangedArgs string.

Record t : Type := Store {
  items : list string;
  (** finished undo steps, most recent first; a step lists its changes
      in the order they were made *)
  undoStack : list (list Change);
  redoStack : list (list Change);
  (** number of compound operations currently open *)
  depth : nat;
  (** false while replaying, and inside a compound operation opened
      with [isUndoAble = false] *)
  isUndoable : bool;
  madeCompoundChange : bool
}.

Definition empty : t := Store [] [] [] 0 true false.

Definition with_items (l : list string) (s : t) : t :=
  Store l (undoStack s) (redoStack s) (depth s) (isUndoable s)
        (madeCompoundChange s).

Definition with_undoable (b : bool) (s : t) : t :=
  Store (items s) (undoStack s) (redoStack s) (depth s) b
        (madeCompoundChange s).

(** The structural edits. *)
Inductive Edit : Type :=
  | Insert (i : Z) (v : string)
  | SetAt (i : Z) (v : string)
  | RemoveAt (i : Z)
  | MoveTo (i j : Z)
  | Push (v : string)
  | Clear.

Definition in_range (i : Z) (l : list string) : bool :=
  (0 <=? i) && (i <? len l).

(** One edit on the array: the new array and the change it signals, if
    any.  [Insert] clamps its index to the bounds of the list; the other
    edits do nothing on an index out of range. *)
Definition apply (e : Edit) (l : list string) : list string * option Change :=
  match e with
  | Insert i v =>
      let j := clamp_index i (length l) in
      (insert_at j v l, Some (ChangedArgs Add (-1) (Z.of_nat j) [] [v]))
  | Push v =>
      (l ++ [v], Some (ChangedArgs Add (-1) (len l) [] [v]))
  | SetAt i v =>
      match at_index l i with
      | Some old =>
          (<[Z.to_nat i := v]> l, Some (ChangedArgs Set_ i i [old] [v]))
      | None => (l, None)
      end
  | RemoveAt i =>
      match at_index l i with
      | Some old =>
          (delete (Z.to_nat i) l, Some (ChangedArgs Remove i (-1) [old] []))
      | None => (l, None)
      end
  | MoveTo i j =>
      match at_index l i with
      | Some v =>
          if in_range j l && negb (i =? j)
          then (move_to (Z.to_nat i) (Z.to_nat j) l,
                Some (ChangedArgs Move i j [v] [v]))
          else (l, None)
      | None => (l, None)
      end
  | Clear => ([], Some (ChangedArgs Remove 0 0 l []))
  end.

(** The store's own listener: file a change into the undo history.
    Inside a compound operation the changes after the first one join
    the step the first one opened; a new step discards the redo
    history. *)
Definition record (c : Change) (s : t) : t :=
  if negb (isUndoable s) then s
  else if (0 <? depth s)%nat && madeCompoundChange s then
    match undoStack s with
    | step :: rest =>
        Store (items s) ((step ++ [c]) :: rest) (redoStack s) (depth s)
              (isUndoable s) true
    | [] => Store (items s) [[c]] [] (depth s) (isUndoable s) true
    end
  else
    Store (items s) ([c] :: undoStack s) [] (depth s) (isUndoable s)
          (0 <? depth s)%nat.

(** [beginCompoundOperation(isUndoAble)]: only the outermost call
    decides whether the step is recorded. *)
Definition beginCompoundOperation (isUndoAble : bool) (s : t) : t :=
  match depth s with
  | O => Store (items s) (undoStack s) (redoStack s) 1 isUndoAble false
  | S n => Store (items s) (undoStack s) (redoStack s) (S (S n))
                 (isUndoable s) (madeCompoundChange s)
  end.

(** [endCompoundOperation()]: the outermost call closes the step. *)
Definition endCompoundOperation (s : t) : t :=
  match depth s with
  | O => s
  | S O => Store (items s) (undoStack s) (redoStack s) 0 true false
  | S n => Store (items s) (undoStack s) (redoStack s) n
                 (isUndoable s) (madeCompoundChange s)
  end.

Definition canUndo (s : t) : bool :=
  match undoStack s with [] => false | _ => true end.

Definition canRedo (s : t) : bool :=
  match redoStack s with [] => false | _ => true end.

Definition clearUndo (s : t) : t :=
  Store (items s) [] [] (depth s) (isUndoable s) (madeCompoundChange s).

(** [n, n+1, ...] paired with the values, for edits that walk a list of
    values from a start index. *)
Fixpoint indexed (i : Z) (vs : list string) : list (Z * string) :=
  match vs with
  | [] => []
  | v :: vs' => (i, v) :: indexed (i + 1) vs'
  end.

(** The edits that take one change back. *)
Definition undoChange (c : Change) : list Edit :=
  match type c with
  | Add => (fun _ => RemoveAt (newIndex c)) <$> newValues c
  | Set_ => (fun p => SetAt (fst p) (snd p)) <$> indexed (oldIndex c) (oldValues c)
  | Remove => (fun p => Insert (fst p) (snd p)) <$> indexed (oldIndex c) (oldValues c)
  | Move => [MoveTo (newIndex c) (oldIndex c)]
  end.

(** The edits that make one change again. *)
Definition redoChange (c : Change) : list Edit :=
  match type c with
  | Add => (fun p => Insert (fst p) (snd p)) <$> indexed (newIndex c) (newValues c)
  | Set_ => (fun p => SetAt (fst p) (snd p)) <$> indexed (newIndex c) (newValues c)
  | Remove => (fun _ => RemoveAt (oldIndex c)) <$> oldValues c
  | Move => [MoveTo (oldIndex c) (newIndex c)]
  end.

(** The edits of [undo()]: the changes of the latest step, last one
    first. *)
Definition undoPlan (step : list Change) : list Edit :=
  concat (undoChange <$> reverse step).

(** The edits of [redo()]: the changes of the step in their order. *)
Definition redoPlan (step : list Change) : list Edit :=
  concat (redoChange <$> step).

End OrderedStore.

(** ** Task entities *)

(** [tbformat.TaskType]. *)
Inductive TaskType : Type := Dataintegration | Notebookcell.

Definition TaskType_eqb (a b : TaskType) : bool :=
  match a, b with
  | Dataintegration, Dataintegration | Notebookcell, Notebookcell => true
  | _, _ => false
  end.

(** The string a task type is written as. *)
Definition type_name (ty : TaskType) : string :=
  match ty with
  | Dataintegration => "Dataintegration"
  | Notebookcell => "Notebookcell"
  end.

(** Address of a task entity in the store of entities. *)
Abbreviation loc := nat (only parsing).

(** [TaskModel], [NotebookcellTaskModel] and [DataintegrationTaskModel].
    The fields are the values the entity keeps in its model database
    view; [executionCount] and [outputs] are only read on executable
    tasks. *)
Module TaskModel.

Record t : Type := Build {
  id : string;
  type : TaskType;
  text : string;
  trusted : bool;
  metadata : list (string * JSONValue);
  executionCount : option Z;
  outputs : list JSONValue;
  isDisposed : bool
}.

Definition with_text (s : string) (e : t) : t :=
  Build (id e) (type e) s (trusted e) (metadata e) (executionCount e)
        (outputs e) (isDisposed e).

(** The [trusted] setter. *)
Definition with_trusted (b : bool) (e : t) : t :=
  Build (id e) (type e) (text e) b (metadata e) (executionCount e)
        (outputs e) (isDisposed e).

(** The [executionCount] setter stores [newValue || null]. *)
Definition with_executionCount (n : option Z) (e : t) : t :=
  let n' := match n with
            | Some k => if k =? 0 then None else Some k
            | None => None
            end in
  Build (id e) (type e) (text e) (trusted e) (metadata e) n'
        (outputs e) (isDisposed e).

(** [outputs.clear()]. *)
Definition clear_outputs (e : t) : t :=
  Build (id e) (type e) (text e) (trusted e) (metadata e) (executionCount e)
        [] (isDisposed e).

Definition dispose (e : t) : t :=
  Build (id e) (type e) (text e) (trusted e) (metadata e) (executionCount e)
        (outputs e) true.

(** [task.source], a string or an array of lines. *)
Definition source_text (v : option JSONValue) : string :=
  match v with
  | Some (JString s) => s
  | Some (JArray l) =>
      fold_right (fun x acc =>
                    match x with JString s => s +:+ acc | _ => acc end) "" l
  | _ => ""
  end.

Definition record_metadata (tk : JSONValue) : list (string * JSONValue) :=
  match prop "metadata" tk with
  | Some (JObject o) => o
  | _ => []
  end.

(** The constructors.  Without a source record the entity is blank and
    untrusted.  With one, [trusted] is read from the record's metadata
    and taken out of it, the text is the record's source and the rest of
    the metadata is copied.  An executable task takes its execution
    count and outputs from the record only when the record's
    [Task_type] property is ['code']. *)
Definition construct (ty : TaskType) (task : option JSONValue) (i : string) : t :=
  match task with
  | None => Build i ty "" false [] None [] false
  | Some tk =>
      let md := record_metadata tk in
      let is_code :=
        match prop "Task_type" tk with
        | Some (JString s) => String.eqb s "code"
        | _ => false
        end in
      let count :=
        match ty, is_code, prop "execution_count" tk with
        | Dataintegration, true, Some (JNumber n) =>
            if n =? 0 then None else Some n
        | _, _, _ => None
        end in
      let outs :=
        match ty, is_code, prop "outputs" tk with
        | Dataintegration, true, Some (JArray l) => l
        | _, _, _ => []
        end in
      Build i ty (source_text (prop "source" tk))
            (truthy (obj_get "trusted" md)) (obj_delete "trusted" md)
            count outs false
  end.

(** [toJSON()]: [trusted] is written into the metadata only when it is
    true; an executable task adds its execution count and outputs. *)
Definition toJSON (e : t) : JSONValue :=
  let md := if trusted e
            then obj_set "trusted" (JBool true) (metadata e)
            else metadata e in
  let base := [("task_type", JString (type_name (type e)));
               ("source", JString (text e));
               ("metadata", JObject md)] in
  match type e with
  | Notebookcell => JObject base
  | Dataintegration =>
      JObject (base ++
               [("execution_count",
                 match executionCount e with
                 | Some n => if n =? 0 then JNull else JNumber n
                 | None => JNull
                 end);
                ("outputs", JArray (outputs e))])
  end.

End TaskModel.

(** ** The type guards of the task format *)

Module tbformat.

(** [isDataintegration(task)]: the guard compares the [cell_type]
    property of the record with the type name. *)
Definition isDataintegration (task : JSONValue) : bool :=
  match prop "cell_type" task with
  | Some (JString s) => String.eqb s "Dataintegration"
  | _ => false
  end.

(** [isNotebookcell(task)]. *)
Definition isNotebookcell (task : JSONValue) : bool :=
  match prop "cell_type" task with
  | Some (JString s) => String.eqb s "Notebookcell"
  | _ => false
  end.

End tbformat.

(** ** The document model: task list, entity store and factory database *)

(** What [TaskbookModel] owns and what its [TaskList] and content factory
    share: the order store [_taskOrder], the map [_taskMap] from ids to
    entities, the store of entities allocated so far, the per-id type
    markers the entities write into the model database under
    [<id>.type], and the number of ids [uuid()] has handed out.  A map
    entry whose value is [None] holds JS [undefined].  The map and the
    model database are objects of the observables package: the map is
    taken to behave as a JS [Map], and the database as a key-value store
    in which [createValue(k).get()] reads what was last set under [k]
    and is [undefined] when nothing was. *)
Record Model : Type := MkModel {
  _taskOrder : OrderedStore.t;
  _taskMap : gmap string (option loc);
  heap : list TaskModel.t;
  modelDB : gmap string string;
  uuids : nat
}.

Definition with_order (s : OrderedStore.t) (m : Model) : Model :=
  MkModel s (_taskMap m) (heap m) (modelDB m) (uuids m).

Definition with_map (tm : gmap string (option loc)) (m : Model) : Model :=
  MkModel (_taskOrder m) tm (heap m) (modelDB m) (uuids m).

Definition with_heap (h : list TaskModel.t) (m : Model) : Model :=
  MkModel (_taskOrder m) (_taskMap m) h (modelDB m) (uuids m).

(** Update of the entity at an address. *)
Definition update (l : loc) (f : TaskModel.t -> TaskModel.t) (m : Model) : Model :=
  with_heap (alter f l (heap m)) m.

Definition empty_model : Model :=
  MkModel OrderedStore.empty ∅ [] ∅ 0.

(** [uuid()]: the n-th call returns the n-th id, and no id comes twice. *)
Definition uuid (n : nat) : string := "uuid-" +:+ pretty n.

(** Key of the type marker of an id in the model database. *)
Definition type_key (i : string) : string := i +:+ ".type".

(** [TaskbookModel.ContentFactory]. *)
Module ContentFactory.

(** [TaskModel.IOptions]. *)
Record IOptions : Type := Options {
  task : option JSONValue;
  id : option string
}.

(** Common part of the two [create...Task] methods: the factory has a
    model database, so an entity without an id gets a fresh one; the
    entity's constructor writes its type under [<id>.type]. *)
Definition create (ty : TaskType) (o : IOptions) (m : Model) : loc * Model :=
  let fresh := match id o with
               | Some i => String.eqb i ""
               | None => true
               end in
  let i := match id o with
           | Some i => if String.eqb i "" then uuid (uuids m) else i
           | None => uuid (uuids m)
           end in
  let e := TaskModel.construct ty (task o) i in
  (length (heap m),
   MkModel (_taskOrder m) (_taskMap m) (heap m ++ [e])
           (<[type_key i := type_name ty]> (modelDB m))
           (if fresh then S (uuids m) else uuids m)).

Definition createDataintegrationTask := create Dataintegration.
Definition createNotebookcellTask := create Notebookcell.

End ContentFactory.

(** ** TaskList *)

Module TaskList.

Import OrderedStore.

Definition length (m : Model) : Z := len (items (_taskOrder m)).

(** [_taskMap.has(id)]. *)
Definition has (i : string) (m : Model) : bool :=
  match _taskMap m !! i with Some _ => true | None => false end.

(** [_taskMap.get(id)]. *)
Definition map_get (i : string) (m : Model) : option loc :=
  match _taskMap m !! i with Some v => v | None => None end.

(** [get(index)]. *)
Definition get (index : Z) (m : Model) : option loc :=
  match at_index (items (_taskOrder m)) index with
  | Some i => map_get i m
  | None => None
  end.

(** Body of the first loop of [_onOrderChanged] for one id: an id that
    is not cached is created from its type marker; a marker that is
    neither of the two type names leaves [task] unassigned, and that is
    what goes into the map. *)
Definition materialize (i : string) (m : Model) : Model :=
  if has i m then m
  else
    let marker := modelDB m !! type_key i in
    let created :=
      match marker with
      | Some s =>
          if String.eqb s "Dataintegration" then
            Some (ContentFactory.createDataintegrationTask
                    (ContentFactory.Options None (Some i)) m)
          else if String.eqb s "Notebookcell" then
            Some (ContentFactory.createNotebookcellTask
                    (ContentFactory.Options None (Some i)) m)
          else None
      | None => None
      end in
    match created with
    | Some (l, m') => with_map (<[i := Some l]> (_taskMap m')) m'
    | None => with_map (<[i := None]> (_taskMap m)) m
    end.

Section Signals.

(** State of whatever listens to [changed], and the slots connected
    to it; a slot sees the list as it is when the signal is emitted. *)
Context {L : Type}.
Variable changed : IChangedArgs (option loc) -> Model -> L -> L.

Definition _onOrderChanged (c : Change) (st : Model * L) : Model * L :=
  let m := fst st in
  let m1 := match type c with
            | Add | Set_ => foldl (fun a i => materialize i a) m (newValues c)
            | _ => m
            end in
  let args := ChangedArgs (type c) (oldIndex c) (newIndex c)
                ((fun i => map_get i m1) <$> oldValues c)
                ((fun i => map_get i m1) <$> newValues c) in
  (m1, changed args m1 (snd st)).

(** An edit of [_taskOrder] and the signal it raises: the store files
    the change, then [_onOrderChanged] runs. *)
Definition edit (e : Edit) (st : Model * L) : Model * L :=
  let m := fst st in
  let r := apply e (items (_taskOrder m)) in
  match snd r with
  | Some c =>
      _onOrderChanged c
        (with_order (record c (with_items (fst r) (_taskOrder m))) m, snd st)
  | None => st
  end.

Definition edits (es : list Edit) (st : Model * L) : Model * L :=
  foldl (fun a e => edit e a) st es.

(** [_taskMap.set(task.id, task)]. *)
Definition cache (l : loc) (m : Model) : option (string * Model) :=
  match heap m !! l with
  | Some e =>
      Some (TaskModel.id e,
            with_map (<[TaskModel.id e := Some l]> (_taskMap m)) m)
  | None => None
  end.

Definition set (index : Z) (task : loc) (st : Model * L) : Model * L :=
  match cache task (fst st) with
  | Some (i, m) => edit (SetAt index i) (m, snd st)
  | None => st
  end.

Definition push (task : loc) (st : Model * L) : Model * L :=
  match cache task (fst st) with
  | Some (i, m) => edit (Push i) (m, snd st)
  | None => st
  end.

Definition insert (index : Z) (task : loc) (st : Model * L) : Model * L :=
  match cache task (fst st) with
  | Some (i, m) => edit (Insert index i) (m, snd st)
  | None => st
  end.

Definition remove (index : Z) (st : Model * L) : Model * L :=
  edit (RemoveAt index) st.

Definition clear (st : Model * L) : Model * L := edit Clear st.

Definition move (fromIndex toIndex : Z) (st : Model * L) : Model * L :=
  edit (MoveTo fromIndex toIndex) st.

Definition pushAll (ts : list loc) (st : Model * L) : Model * L :=
  foldl (fun a l => push l a) st ts.

Definition beginCompoundOperation (isUndoAble : bool) (st : Model * L)
  : Model * L :=
  (with_order (OrderedStore.beginCompoundOperation isUndoAble
                 (_taskOrder (fst st))) (fst st), snd st).

Definition endCompoundOperation (st : Model * L) : Model * L :=
  (with_order (OrderedStore.endCompoundOperation (_taskOrder (fst st)))
              (fst st), snd st).

(** Replay of a step's edits with the history switched off. *)
Definition replay (es : list Edit) (st : Model * L) : Model * L :=
  let m := fst st in
  let st1 := edits es (with_order (with_undoable false (_taskOrder m)) m,
                       snd st) in
  (with_order (with_undoable true (_taskOrder (fst st1))) (fst st1), snd st1).

Definition undo (st : Model * L) : Model * L :=
  let s := _taskOrder (fst st) in
  match undoStack s with
  | step :: rest =>
      let st1 := replay (undoPlan step) st in
      let s1 := _taskOrder (fst st1) in
      (with_order (Store (items s1) rest (step :: redoStack s1) (depth s1)
                         (isUndoable s1) (madeCompoundChange s1)) (fst st1),
       snd st1)
  | [] => st
  end.

Definition redo (st : Model * L) : Model * L :=
  let s := _taskOrder (fst st) in
  match redoStack s with
  | step :: rest =>
      let st1 := replay (redoPlan step) st in
      let s1 := _taskOrder (fst st1) in
      (with_order (Store (items s1) (step :: undoStack s1) rest (depth s1)
                         (isUndoable s1) (madeCompoundChange s1)) (fst st1),
       snd st1)
  | [] => st
  end.

(** [removeValue(task)]: the first index whose cached entity is the task
    ([-1] when there is none) goes to [remove]; the index is returned. *)
Definition removeValue (task : loc) (st : Model * L) : Z * (Model * L) :=
  let m := fst st in
  let index :=
    findFirstIndex
      (fun i => match map_get i m with
                | Some l => Nat.eqb l task
                | None => false
                end) (items (_taskOrder m)) in
  (index, remove index st).

(** [insertAll(index, tasks)]: every task is cached and then inserted
    inside a compound operation of its own, at [index], [index + 1],
    ... *)
Fixpoint insertAll (index : Z) (ts : list loc) (st : Model * L) : Model * L :=
  match ts with
  | [] => st
  | l :: rest =>
      match cache l (fst st) with
      | Some (i, m) =>
          insertAll (index + 1) rest
            (endCompoundOperation
               (edit (Insert index i)
                  (beginCompoundOperation true (m, snd st))))
      | None => st
      end
  end.

End Signals.

(** Keys of the map whose id is not in the current order. *)
Definition stale (m : Model) : gmap string (option loc) :=
  filter (fun kv => kv.1 ∉ items (_taskOrder m)) (_taskMap m).

(** [clearUndo()]: every cached entity whose id is not in the current
    order is disposed and dropped from the map, then the history goes. *)
Definition clearUndo (m : Model) : Model :=
  let gone := omap id (snd <$> map_to_list (stale m)) in
  MkModel (OrderedStore.clearUndo (_taskOrder m))
          (filter (fun kv => kv.1 ∈ items (_taskOrder m)) (_taskMap m))
          (foldr (fun l h => alter TaskModel.dispose l h) (heap m) gone)
          (modelDB m) (uuids m).

(** [isEmpty]. *)
Definition isEmpty (m : Model) : bool := length m =? 0.

(** [iter()]: the array the iterator walks, the cached entity of every
    id of the order. *)
Definition iter (m : Model) : list (option loc) :=
  (fun i => map_get i m) <$> items (_taskOrder m).

Definition canUndo (m : Model) : bool := OrderedStore.canUndo (_taskOrder m).

Definition canRedo (m : Model) : bool := OrderedStore.canRedo (_taskOrder m).

End TaskList.

(** ** Task widgets *)

(** [Task], [DataintegrationTask] and [NotebookcellTask] of
    [taskbook/src/widget.ts] (the cell widgets): the entity shown, the
    attached [selected] property of the surface, the [inputHidden] and
    [rendered] view flags and the editor's cursor as an offset into the
    text.  [wid] is the identity of the widget object, which is what
    [===] compares. *)
Module Task.

Record t : Type := Build {
  wid : nat;
  model : loc;
  selected : bool;
  inputHidden : bool;
  rendered : bool;
  cursor : nat
}.

Definition with_selected (b : bool) (c : t) : t :=
  Build (wid c) (model c) b (inputHidden c) (rendered c) (cursor c).

Definition with_inputHidden (b : bool) (c : t) : t :=
  Build (wid c) (model c) (selected c) b (rendered c) (cursor c).

Definition with_rendered (b : bool) (c : t) : t :=
  Build (wid c) (model c) (selected c) (inputHidden c) b (cursor c).

(** A widget as its constructor leaves it. *)
Definition create (w : nat) (l : loc) : t := Build w l false false true 0.

End Task.

(** ** The editing surface *)

Inductive TaskbookMode : Type := command | edit.

Definition TaskbookMode_eqb (a b : TaskbookMode) : bool :=
  match a, b with
  | command, command | edit, edit => true
  | _, _ => false
  end.

Module Taskbook.

(** The fields of [StaticTaskbook] and [Taskbook] other than the model:
    the child widgets of the layout, the active index and widget, the
    mode, the armed drag gesture, and the number of widgets created so
    far (the next widget identity). *)
Record Surface : Type := MkSurface {
  widgets : list Task.t;
  _activeTaskIndex : Z;
  _activeTask : option nat;
  _mode : TaskbookMode;
  _dragData : option (Z * Z * Z);
  isDisposed : bool;
  wids : nat
}.

Definition with_widgets (ws : list Task.t) (s : Surface) : Surface :=
  MkSurface ws (_activeTaskIndex s) (_activeTask s) (_mode s) (_dragData s)
            (isDisposed s) (wids s).

Definition initial : Surface := MkSurface [] (-1) None command None false 0.

(** The [activeTaskIndex] getter. *)
Definition activeTaskIndex (m : option Model) (s : Surface) : Z :=
  match m with
  | None => -1
  | Some md => if TaskList.length md =? 0 then -1 else _activeTaskIndex s
  end.

(** The [activeTaskIndex] setter: the value is clamped to the bounds of
    the model's task list, and the active widget becomes the child at
    that index. *)
Definition set_activeTaskIndex (m : option Model) (v : Z) (s : Surface)
  : Surface :=
  let newValue :=
    match m with
    | None => -1
    | Some md =>
        if TaskList.length md =? 0 then -1
        else Z.min (Z.max v 0) (TaskList.length md - 1)
    end in
  MkSurface (widgets s) newValue (Task.wid <$> at_index (widgets s) newValue)
            (_mode s) (_dragData s) (isDisposed s) (wids s).

(** [activeTask !== null]. *)
Definition hasActiveTask (s : Surface) : bool :=
  match _activeTask s with Some _ => true | None => false end.

Definition is_active (s : Surface) (c : Task.t) : bool :=
  match _activeTask s with
  | Some a => Nat.eqb a (Task.wid c)
  | None => false
  end.

(** Update of the widget objects with a given identity. *)
Definition update_widget (w : nat) (f : Task.t -> Task.t) (s : Surface)
  : Surface :=
  with_widgets
    ((fun c => if Nat.eqb (Task.wid c) w then f c else c) <$> widgets s) s.

Definition select (c : Task.t) (s : Surface) : Surface :=
  update_widget (Task.wid c) (Task.with_selected true) s.

Definition deselect (c : Task.t) (s : Surface) : Surface :=
  update_widget (Task.wid c) (Task.with_selected false) s.

(** [isSelected]: the active widget or a widget marked selected. *)
Definition isSelected (s : Surface) (c : Task.t) : bool :=
  is_active s c || Task.selected c.

(** [deselectAll]: unmark every child, then reassign the active index
    to itself so that it is valid. *)
Definition deselectAll (m : option Model) (s : Surface) : Surface :=
  let s1 := with_widgets (Task.with_selected false <$> widgets s) s in
  set_activeTaskIndex m (activeTaskIndex m s1) s1.

(** The [mode] setter: without an active task the mode is [command];
    entering [edit] unmarks every child and shows the active task's
    input. *)
Definition set_mode (newValue : TaskbookMode) (s : Surface) : Surface :=
  let newValue := if hasActiveTask s then newValue else command in
  if TaskbookMode_eqb newValue (_mode s) then s
  else
    let s1 := MkSurface (widgets s) (_activeTaskIndex s) (_activeTask s)
                        newValue (_dragData s) (isDisposed s) (wids s) in
    match newValue with
    | edit =>
        let s2 := with_widgets (Task.with_selected false <$> widgets s1) s1 in
        match _activeTask s2 with
        | Some a => update_widget a (Task.with_inputHidden false) s2
        | None => s2
        end
    | command => s1
    end.

(** [onTaskInserted]. *)
Definition onTaskInserted (m : option Model) (index : Z) (s : Surface)
  : Surface :=
  set_activeTaskIndex m
    (if index <=? activeTaskIndex m s
     then activeTaskIndex m s + 1 else activeTaskIndex m s) s.

(** [onTaskMoved]. *)
Definition onTaskMoved (m : option Model) (fromIndex toIndex : Z)
  (s : Surface) : Surface :=
  if fromIndex =? activeTaskIndex m s
  then set_activeTaskIndex m toIndex s else s.

(** [onTaskRemoved]. *)
Definition onTaskRemoved (m : option Model) (index : Z) (s : Surface)
  : Surface :=
  set_activeTaskIndex m
    (if index <=? activeTaskIndex m s
     then activeTaskIndex m s - 1 else activeTaskIndex m s) s.

(** [_insertTask]: a new widget for the entity goes into the layout at
    the index, clamped to the layout's bounds. *)
Definition _insertTask (m : option Model) (index : Z) (cell : loc)
  (s : Surface) : Surface :=
  let widget := Task.create (wids s) cell in
  let s1 := MkSurface
              (insert_at (clamp_index index (length (widgets s))) widget
                         (widgets s))
              (_activeTaskIndex s) (_activeTask s) (_mode s) (_dragData s)
              (isDisposed s) (S (wids s)) in
  onTaskInserted m index s1.

(** [_removeTask]: the child at the index leaves the layout; without
    such a child the statement [widget.parent = null] throws and the
    slot ends there. *)
Definition _removeTask (m : option Model) (index : Z) (s : Surface)
  : option Surface :=
  match at_index (widgets s) index with
  | Some _ =>
      Some (onTaskRemoved m index
              (with_widgets (delete (Z.to_nat index) (widgets s)) s))
  | None => None
  end.

(** [_moveTask]: [insertWidget] of a child of the layout moves it; the
    target is clamped and a target at the end means the last place. *)
Definition _moveTask (m : option Model) (fromIndex toIndex : Z)
  (s : Surface) : option Surface :=
  match at_index (widgets s) fromIndex with
  | Some _ =>
      let n := length (widgets s) in
      let j := clamp_index toIndex n in
      let j := if Nat.eqb j n then Nat.pred j else j in
      Some (onTaskMoved m fromIndex toIndex
              (with_widgets (move_to (Z.to_nat fromIndex) j (widgets s)) s))
  | None => None
  end.

(** The loops of [_onTasksChanged].  An [undefined] entity makes
    [_insertTask] throw on [cell.type], which ends the slot. *)
Fixpoint insertTasks (m : option Model) (index : Z) (vs : list (option loc))
  (s : Surface) : Surface :=
  match vs with
  | [] => s
  | None :: _ => s
  | Some l :: vs' => insertTasks m (index + 1) vs' (_insertTask m index l s)
  end.

Fixpoint removeTasks (m : option Model) (index : Z) (vs : list (option loc))
  (s : Surface) : Surface :=
  match vs with
  | [] => s
  | _ :: vs' =>
      match _removeTask m index s with
      | Some s1 => removeTasks m index vs' s1
      | None => s
      end
  end.

(** For a [set] the new widget is inserted before the old one is
    removed. *)
Fixpoint setTasks (m : option Model) (index : Z) (vs : list (option loc))
  (s : Surface) : Surface :=
  match vs with
  | [] => s
  | None :: _ => s
  | Some l :: vs' =>
      let s1 := _insertTask m index l s in
      match _removeTask m (index + 1) s1 with
      | Some s2 => setTasks m (index + 1) vs' s2
      | None => s1
      end
  end.

(** [_onTasksChanged], the slot the surface connects to the [changed]
    signal of the model's task list. *)
Definition _onTasksChanged (args : OrderedStore.IChangedArgs (option loc))
  (md : Model) (s : Surface) : Surface :=
  let m := Some md in
  match OrderedStore.type args with
  | OrderedStore.Add =>
      insertTasks m (OrderedStore.newIndex args) (OrderedStore.newValues args) s
  | OrderedStore.Move =>
      match _moveTask m (OrderedStore.oldIndex args)
                        (OrderedStore.newIndex args) s with
      | Some s1 => s1
      | None => s
      end
  | OrderedStore.Remove =>
      removeTasks m (OrderedStore.oldIndex args) (OrderedStore.oldValues args) s
  | OrderedStore.Set_ =>
      setTasks m (OrderedStore.newIndex args) (OrderedStore.newValues args) s
  end.

(** A surface and the model it shows ([null] when there is none). *)
Record t : Type := Build {
  model : option Model;
  ui : Surface
}.

(** A statement on the surface alone. *)
Definition on_ui (f : option Model -> Surface -> Surface) (w : t) : t :=
  Build (model w) (f (model w) (ui w)).

(** A statement on [widget.model.tasks]; the surface listens. *)
Definition on_tasks (f : Model * Surface -> Model * Surface) (w : t) : t :=
  match model w with
  | Some m => let r := f (m, ui w) in Build (Some (fst r)) (snd r)
  | None => w
  end.

(** A statement on the model's entities. *)
Definition on_model (f : Model -> Model) (w : t) : t :=
  Build (f <$> model w) (ui w).

(** The loop [while (layout.widgets.length) this._removeTask(0)]: the
    layout loses one child per turn, so it takes as many turns as there
    are children. *)
Fixpoint removeAll (m : option Model) (turns : nat) (s : Surface) : Surface :=
  match turns with
  | O => s
  | S n =>
      match _removeTask m 0 s with
      | Some s1 => removeAll m n s1
      | None => s
      end
  end.

Definition is_defined {A} (v : option A) : bool :=
  match v with Some _ => true | None => false end.

(** [StaticTaskbook._onModelChanged]; the surface's model is already the
    new one when it runs.  The children of an old model are removed, and
    the tasks of the new model get a child each; an [undefined] task makes
    [_insertTask] throw, and the exception leaves the setter ([None]). *)
Definition _onModelChanged (oldValue newValue : option Model) (s : Surface)
  : option Surface :=
  let s1 := match oldValue with
            | Some _ => removeAll newValue (length (widgets s)) s
            | None => s
            end in
  match newValue with
  | None => Some s1
  | Some m =>
      if forallb is_defined (TaskList.iter m)
      then Some (insertTasks newValue 0 (TaskList.iter m) s1)
      else None
  end.

(** [Taskbook.onModelChanged]. *)
Definition onModelChanged (newValue : option Model) (s : Surface) : Surface :=
  set_activeTaskIndex newValue 0 s.

(** The [model] setter, for a new value that is not the model object the
    surface has ([null] is the same as [null]). *)
Definition set_model (newValue : option Model) (w : t) : option t :=
  match model w, newValue with
  | None, None => Some w
  | oldValue, _ =>
      match _onModelChanged oldValue newValue (ui w) with
      | Some s => Some (Build newValue (onModelChanged newValue s))
      | None => None
      end
  end.

End Taskbook.

(** The task list of a model that a surface shows: the [changed] signal
    of the list runs the surface's slot.  (The model's own slot on the
    same signal only follows the content of the tasks and schedules the
    refill of an emptied list for a later turn.) *)
Module Tasks.
Definition set := TaskList.set Taskbook._onTasksChanged.
Definition push := TaskList.push Taskbook._onTasksChanged.
Definition insert := TaskList.insert Taskbook._onTasksChanged.
Definition remove := TaskList.remove Taskbook._onTasksChanged.
Definition move := TaskList.move Taskbook._onTasksChanged.
Definition clear := TaskList.clear Taskbook._onTasksChanged.
Definition undo := TaskList.undo Taskbook._onTasksChanged.
Definition redo := TaskList.redo Taskbook._onTasksChanged.
Definition edit := TaskList.edit Taskbook._onTasksChanged.
Definition beginCompoundOperation :=
  @TaskList.beginCompoundOperation Taskbook.Surface.
Definition endCompoundOperation :=
  @TaskList.endCompoundOperation Taskbook.Surface.
End Tasks.

(** [TaskbookModel.fromJSON], the part that loads the tasks: one entity
    per record whose [task_type] is a task type, then the list is replaced
    inside one compound operation. *)
Module TaskbookModel.

Fixpoint fromJSON_create (records : list JSONValue) (m : Model)
  : list loc * Model :=
  match records with
  | [] => ([], m)
  | task :: rest =>
      let made :=
        match prop "task_type" task with
        | Some (JString s) =>
            if String.eqb s "Dataintegration" then
              Some (ContentFactory.createDataintegrationTask
                      (ContentFactory.Options (Some task) None) m)
            else if String.eqb s "Notebookcell" then
              Some (ContentFactory.createNotebookcellTask
                      (ContentFactory.Options (Some task) None) m)
            else None
        | _ => None
        end in
      match made with
      | Some (l, m1) =>
          let r := fromJSON_create rest m1 in (l :: fst r, snd r)
      | None => fromJSON_create rest m
      end
  end.

Definition fromJSON {L : Type}
  (changed : OrderedStore.IChangedArgs (option loc) -> Model -> L -> L)
  (records : list JSONValue) (st : Model * L) : Model * L :=
  let r := fromJSON_create records (fst st) in
  TaskList.endCompoundOperation
    (TaskList.pushAll changed (fst r)
       (TaskList.clear changed
          (TaskList.beginCompoundOperation true (snd r, snd st)))).

(** The records of a document as [toJSON] writes them and [fromJSON]
    reads them ([tbformat.ITaskbookContent]; [cells] is always empty). *)
Module Content.
Record t : Type := Build {
  metadata : list (string * JSONValue);
  nbformat_minor : Z;
  nbformat : Z;
  tasks : list JSONValue
}.
End Content.

(** What a [TaskbookModel] keeps besides its task list: the document
    metadata, the format version, the [dirty] flag, the disposed flag, and
    the callbacks handed to [requestAnimationFrame] that have not run yet
    (all of them are the refill of [_onTasksChanged]). *)
Record Rest : Type := MkRest {
  metadata : list (string * JSONValue);
  _nbformat : Z;
  _nbformatMinor : Z;
  dirty : bool;
  frames : nat;
  isDisposed : bool
}.

Definition with_metadata (md : list (string * JSONValue)) (d : Rest) : Rest :=
  MkRest md (_nbformat d) (_nbformatMinor d) (dirty d) (frames d) (isDisposed d).

(** [metadata.has(key)]. *)
Definition has_key (k : string) (o : list (string * JSONValue)) : bool :=
  match obj_get k o with Some _ => true | None => false end.

(** [_ensureMetadata]. *)
Definition _ensureMetadata (md : list (string * JSONValue))
  : list (string * JSONValue) :=
  let md1 := if has_key "language_info" md then md
             else obj_set "language_info" (JObject [("name", JString "")]) md in
  if has_key "kernelspec" md1 then md1
  else obj_set "kernelspec"
         (JObject [("name", JString ""); ("display_name", JString "")]) md1.

(** Modelled from the spec: [triggerContentChange] of the document model
    base class, which announces a content change; every content mutation
    marks the document dirty (section 4.3). *)
Definition triggerContentChange (d : Rest) : Rest :=
  MkRest (metadata d) (_nbformat d) (_nbformatMinor d) true (frames d)
         (isDisposed d).

(** [requestAnimationFrame(callback)]. *)
Definition schedule (d : Rest) : Rest :=
  MkRest (metadata d) (_nbformat d) (_nbformatMinor d) (dirty d)
         (S (frames d)) (isDisposed d).

(** [TaskbookModel._onTasksChanged], the model's slot on the [changed]
    signal of its task list.  A [move] returns at once.  For an [add] or a
    [set] the new tasks are connected first, and an [undefined] one makes
    that throw, which ends the slot.  Otherwise an empty list gets a
    refill scheduled, and the content change is announced. *)
Definition _onTasksChanged (change : OrderedStore.IChangedArgs (option loc))
  (m : Model) (d : Rest) : Rest :=
  let settle :=
    triggerContentChange (if TaskList.length m =? 0 then schedule d else d) in
  match OrderedStore.type change with
  | OrderedStore.Move => d
  | OrderedStore.Remove => settle
  | OrderedStore.Add | OrderedStore.Set_ =>
      if forallb Taskbook.is_defined (OrderedStore.newValues change)
      then settle else d
  end.

(** The callback of the refill: a default executable task is pushed when
    the model is not disposed and the list is still empty. *)
Definition refill (st : Model * Rest) : Model * Rest :=
  if negb (isDisposed (snd st)) && (TaskList.length (fst st) =? 0) then
    let r := ContentFactory.createDataintegrationTask
               (ContentFactory.Options None None) (fst st) in
    TaskList.push _onTasksChanged (fst r) (snd r, snd st)
  else st.

(** The next animation frame: the callbacks scheduled so far run, in the
    order they were scheduled. *)
Definition animationFrame (st : Model * Rest) : Model * Rest :=
  let d := snd st in
  Nat.iter (frames d) refill
    (fst st, MkRest (metadata d) (_nbformat d) (_nbformatMinor d) (dirty d) 0
                    (isDisposed d)).

(** The tasks of [toJSON()]: [tasks.get(i).toJSON()] for every index; an
    [undefined] task makes that throw ([None]). *)
Definition toJSON_tasks (m : Model) : option (list JSONValue) :=
  mapM (fun v => match v with
                 | Some l => TaskModel.toJSON <$> heap m !! l
                 | None => None
                 end) (TaskList.iter m).

(** [toJSON()]: the tasks, then the metadata after [_ensureMetadata] has
    completed it (in the model, too), and the format version.  The
    constructor connects the metadata map to [triggerContentChange], so a
    field that [_ensureMetadata] has to add here announces a content
    change. *)
Definition toJSON (st : Model * Rest) : option (Content.t * Rest) :=
  match toJSON_tasks (fst st) with
  | Some ts =>
      let md := metadata (snd st) in
      let d0 := with_metadata (_ensureMetadata md) (snd st) in
      let d := if has_key "language_info" md && has_key "kernelspec" md
               then d0 else triggerContentChange d0 in
      Some (Content.Build (metadata d) (_nbformatMinor d) (_nbformat d) ts, d)
  | None => None
  end.

Section Versions.

(** [nbformat.MAJOR_VERSION] and [nbformat.MINOR_VERSION] of the
    coreutils package. *)
Variables MAJOR_VERSION MINOR_VERSION : Z.

(** The fields of a new model. *)
Definition create (languagePreference : string) : Rest :=
  MkRest (_ensureMetadata
            [("language_info", JObject [("name", JString languagePreference)])])
         MAJOR_VERSION MINOR_VERSION false 0 false.

(** The loop of [fromJSON] over the incoming metadata. *)
Definition load_metadata (incoming : list (string * JSONValue))
  : list (string * JSONValue) :=
  foldl (fun acc kv => if String.eqb (fst kv) "orig_nbformat" then acc
                       else obj_set (fst kv) (snd kv) acc) [] incoming.

(** [fromJSON(value)] as a whole: the tasks, the format version, the
    metadata and the dirty flag. *)
Definition fromJSON_value (value : Content.t) (st : Model * Rest)
  : Model * Rest :=
  let st1 := fromJSON _onTasksChanged (Content.tasks value) st in
  let d := snd st1 in
  let major := if Content.nbformat value =? MAJOR_VERSION
               then MAJOR_VERSION else Content.nbformat value in
  let minor := if MINOR_VERSION <? Content.nbformat_minor value
               then Content.nbformat_minor value else MINOR_VERSION in
  (fst st1,
   MkRest (_ensureMetadata (load_metadata (Content.metadata value)))
          major minor true (frames d) (isDisposed d)).

End Versions.

End TaskbookModel.

(** ** Strings *)







(** Characters that [String.prototype.trim] removes. *)
Definition is_space (c : ascii) : bool :=
  let n := nat_of_ascii c in
  (Nat.leb 9 n && Nat.leb n 13) || Nat.eqb n 32.

(** [!s.trim()]. *)
Fixpoint is_blank (s : string) : bool :=
  match s with
  | String c s' => is_space c && is_blank s'
  | EmptyString => true
  end.

(** [Array(level + 1).join('#')]. *)
Fixpoint hashes (level : nat) : string :=
  match level with
  | O => EmptyString
  | S n => String "#" (hashes n)
  end.

Fixpoint drop_hashes (s : string) : string :=
  match s with
  | String c s' => if Ascii.eqb c "#" then drop_hashes s' else s
  | EmptyString => EmptyString
  end.

Fixpoint drop_spaces (s : string) : string :=
  match s with
  | String c s' => if is_space c then drop_spaces s' else s
  | EmptyString => EmptyString
  end.

(** [source.slice(matches[0].length)] for the match of the regular
    expression of [setMarkdownHeader], which always matches at the start:
    a run of ['#'] and the white space after it when the text starts with
    ['#'], the leading white space otherwise. *)
Definition strip_header (s : string) : string :=
  match s with
  | String c _ =>
      if Ascii.eqb c "#" then drop_spaces (drop_hashes s) else drop_spaces s
  | EmptyString => EmptyString
  end.

(** ** The action layer *)

(** What the execution of a task is waiting for when [runTask] returns:
    nothing ([Settled], the promise is already resolved with the flag), the
    continuation of an execution that was not sent to the kernel
    ([NoReply]), or the reply of the kernel ([Submitted]). *)
Inductive Submission : Type :=
  | Settled (b : bool)
  | NoReply (child : nat)
  | Submitted (child : nat) (cell : loc).

(** [IClientSession], as far as [execute] reads it. *)
Record Session : Type := MkSession { kernel : bool }.


Module TaskbookActions.

Import Taskbook.

(** The guard every action starts with: a model and an active task. *)
Definition ready (w : t) : bool :=
  match model w with
  | Some _ => hasActiveTask (ui w)
  | None => false
  end.


Definition set_active (v : Z) (w : t) : t :=
  on_ui (fun m s => set_activeTaskIndex m v s) w.

Definition active (w : t) : Z := activeTaskIndex (model w) (ui w).


(** [child.model.metadata.get('deletable') !== false]. *)
Definition deletable (m : Model) (c : Task.t) : bool :=
  match heap m !! Task.model c with
  | Some e =>
      match obj_get "deletable" (TaskModel.metadata e) with
      | Some (JBool false) => false
      | _ => true
      end
  | None => true
  end.

(** Indices of the children that satisfy a test, in document order. *)
Fixpoint indices_where (f : Task.t -> bool) (i : Z) (ws : list Task.t)
  : list Z :=
  match ws with
  | [] => []
  | c :: ws' =>
      if f c then i :: indices_where f (i + 1) ws'
      else indices_where f (i + 1) ws'
  end.

Definition blank : ContentFactory.IOptions := ContentFactory.Options None None.

(** [Private.deleteTasks].  [toDelete.reverse()] reverses the array in
    place, so the later read [toDelete[0]] is from the reversed array. *)
Definition Private_deleteTasks (w : t) : t :=
  match model w with
  | None => w
  | Some m =>
      let w0 := on_ui (fun _ => set_mode command) w in
      let toDelete :=
        indices_where
          (fun c => isSelected (ui w0) c && deletable m c) 0 (widgets (ui w0)) in
      let w1 :=
        match reverse toDelete with
        | [] => w0
        | (first :: _) as reversed =>
            let w2 := on_tasks (Tasks.beginCompoundOperation true) w0 in
            let w3 := foldl (fun a i => on_tasks (Tasks.remove i) a) w2 reversed in
            let w4 :=
              match model w3 with
              | Some m3 =>
                  if TaskList.length m3 =? 0 then
                    let r := ContentFactory.createDataintegrationTask blank m3 in
                    on_tasks (Tasks.push (fst r)) (Build (Some (snd r)) (ui w3))
                  else w3
              | None => w3
              end in
            let w5 := on_tasks Tasks.endCompoundOperation w4 in
            set_active first w5
        end in
      on_ui deselectAll w1
  end.

Definition deleteTasks (w : t) : t :=
  if negb (ready w) then w else Private_deleteTasks w.

(** Body of the loop of [Private.changeTaskType] at index [i]; the
    child is read from the layout as it is when the loop gets there. *)
Definition changeTaskType_at (value : TaskType) (w : t) (i : Z) : t :=
  match model w, at_index (widgets (ui w)) i with
  | Some m, Some child =>
      if negb (isSelected (ui w) child) then w
      else
        match heap m !! Task.model child with
        | Some e =>
            if TaskType_eqb (TaskModel.type e) value then w
            else
              let r := ContentFactory.create value
                         (ContentFactory.Options (Some (TaskModel.toJSON e)) None)
                         m in
              let m1 :=
                match value, TaskModel.type e with
                | Notebookcell, Dataintegration =>
                    update (fst r) (TaskModel.with_trusted false) (snd r)
                | _, _ => snd r
                end in
              on_tasks (Tasks.set i (fst r)) (Build (Some m1) (ui w))
        | None => w
        end
  | _, _ => w
  end.

(** [Private.changeTaskType]; a set keeps the number of children, so
    the loop visits the indices below the initial length. *)
Definition Private_changeTaskType (value : TaskType) (w : t) : t :=
  let w1 := on_tasks (Tasks.beginCompoundOperation true) w in
  let w2 := foldl (changeTaskType_at value) w1
              (Z.of_nat <$> seq 0 (length (widgets (ui w1)))) in
  let w3 := on_tasks Tasks.endCompoundOperation w2 in
  on_ui deselectAll w3.

Definition changeTaskType (value : TaskType) (w : t) : t :=
  if negb (ready w) then w else Private_changeTaskType value w.

(** The serialized records of the selected children, in document
    order. *)
Definition selected_records (m : Model) (s : Surface) : list JSONValue :=
  omap (fun c => if isSelected s c
                 then TaskModel.toJSON <$> heap m !! Task.model c
                 else None) (widgets s).

(** [Private.copyOrCut]; the clipboard is the application's, its
    content under the task MIME type is [None] when there is none. *)
Definition copyOrCut (cut : bool) (cw : option (list JSONValue) * t)
  : option (list JSONValue) * t :=
  let w := snd cw in
  match model w with
  | Some m =>
      if negb (hasActiveTask (ui w)) then cw
      else
        let w1 := on_ui (fun _ => set_mode command) w in
        let data := selected_records m (ui w1) in
        (Some data,
         if cut then Private_deleteTasks w1 else on_ui deselectAll w1)
  | None => cw
  end.

Definition copy := copyOrCut false.
Definition cut := copyOrCut true.

(** The loop of [paste] that builds the new entities: the switch is on
    the record's [Task_type] property. *)
Fixpoint paste_create (values : list JSONValue) (m : Model)
  : list loc * Model :=
  match values with
  | [] => ([], m)
  | task :: rest =>
      let made :=
        match prop "Task_type" task with
        | Some (JString s) =>
            if String.eqb s "Dataintegration" then
              Some (ContentFactory.createDataintegrationTask
                      (ContentFactory.Options (Some task) None) m)
            else if String.eqb s "Notebookcell" then
              Some (ContentFactory.createNotebookcellTask blank m)
            else None
        | _ => None
        end in
      match made with
      | Some (l, m1) =>
          let r := paste_create rest m1 in (l :: fst r, snd r)
      | None => paste_create rest m
      end
  end.

(** The loop [tasks.insert(++index, Task)]. *)
Fixpoint insert_run (index : Z) (ls : list loc) (st : Model * Surface)
  : Model * Surface :=
  match ls with
  | [] => st
  | l :: ls' => insert_run (index + 1) ls' (Tasks.insert (index + 1) l st)
  end.

Definition paste (cw : option (list JSONValue) * t)
  : option (list JSONValue) * t :=
  let w := snd cw in
  match model w, fst cw with
  | Some m, Some values =>
      if negb (hasActiveTask (ui w)) then cw
      else
        let w1 := on_ui (fun _ => set_mode command) w in
        let r := paste_create values m in
        let w2 := Build (Some (snd r)) (ui w1) in
        let index := active w2 in
        let w3 :=
          on_tasks
            (fun st =>
               Tasks.endCompoundOperation
                 (insert_run index (fst r)
                    (Tasks.beginCompoundOperation true st))) w2 in
        let w4 := set_active (active w3 + len (fst r)) w3 in
        (fst cw, on_ui deselectAll w4)
  | _, _ => cw
  end.

Definition undo (w : t) : t :=
  if negb (ready w) then w
  else
    let w1 := on_ui (fun _ => set_mode command) w in
    let w2 := on_tasks Tasks.undo w1 in
    on_ui deselectAll w2.

Definition redo (w : t) : t :=
  if negb (ready w) then w
  else
    let w1 := on_ui (fun _ => set_mode command) w in
    let w2 := on_tasks Tasks.redo w1 in
    on_ui deselectAll w2.

(** [DataintegrationTask.execute] up to the point where it returns its
    promise. *)
Definition execute (child : Task.t) (session : Session) (w : t)
  : t * Submission :=
  match model w with
  | Some m =>
      match heap m !! Task.model child with
      | Some e =>
          if is_blank (TaskModel.text e) || negb (kernel session) then
            (on_model
               (update (Task.model child)
                  (fun x => TaskModel.clear_outputs
                              (TaskModel.with_executionCount None x))) w,
             NoReply (Task.wid child))
          else
            (on_model
               (update (Task.model child)
                  (fun x => TaskModel.with_trusted true
                              (TaskModel.with_executionCount None x))) w,
             Submitted (Task.wid child) (Task.model child))
      | None => (w, Settled true)
      end
  | None => (w, Settled true)
  end.

(** [runTask] up to the point where it returns its promise. *)
Definition runTask (session : option Session) (w : t) (child : Task.t)
  : t * Submission :=
  match model w with
  | Some m =>
      match TaskModel.type <$> heap m !! Task.model child with
      | Some Notebookcell =>
          (on_ui (fun _ =>
                    update_widget (Task.wid child)
                      (fun c => Task.with_inputHidden false
                                  (Task.with_rendered true c))) w,
           Settled true)
      | Some Dataintegration =>
          match session with
          | Some s => execute child s w
          | None =>
              (on_model
                 (update (Task.model child)
                    (TaskModel.with_executionCount None)) w,
               Settled true)
          end
      | None => (w, Settled true)
      end
  | None => (w, Settled true)
  end.

(** Index of the last selected child, [lastIndex] of [runSelected]. *)
Definition last_selected (s : Surface) (start : Z) : Z :=
  List.last (indices_where (isSelected s) 0 (widgets s)) start.

Fixpoint runTasks (session : option Session) (cs : list Task.t) (w : t)
  : t * list Submission :=
  match cs with
  | [] => (w, [])
  | c :: cs' =>
      let r := runTask session w c in
      let r' := runTasks session cs' (fst r) in
      (fst r', snd r :: snd r')
  end.

(** [Private.runSelected] up to [Promise.all]: every selected task has
    been handed to [runTask] when it returns. *)
Definition runSelected (session : option Session) (w : t)
  : t * list Submission :=
  let w1 := on_ui (fun _ => set_mode command) w in
  let selected := filter (fun c => isSelected (ui w1) c = true) (widgets (ui w1)) in
  let lastIndex := last_selected (ui w1) (active w1) in
  let w2 := set_active lastIndex w1 in
  let w3 := on_ui deselectAll w2 in
  runTasks session selected w3.


(** The promise an action returns: already resolved, or the
    [Promise.all] of the submissions. *)
Inductive RunPromise : Type :=
  | Resolved (b : bool)
  | All (subs : list Submission).



Definition runAll (session : option Session) (w : t) : t * RunPromise :=
  if negb (ready w) then (w, Resolved false)
  else
    let w1 := on_ui (fun _ s =>
                       with_widgets (Task.with_selected true <$> widgets s) s) w in
    let r := runSelected session w1 in (fst r, All (snd r)).

(** [insertAbove]: a new executable task goes in at the active index and
    becomes the active task. *)
Definition insertAbove (w : t) : t :=
  if negb (ready w) then w
  else
    match model w with
    | Some m =>
        let r := ContentFactory.createDataintegrationTask blank m in
        let w1 := Build (Some (snd r)) (ui w) in
        let index := active w1 in
        let w2 := on_tasks (Tasks.insert index (fst r)) w1 in
        on_ui deselectAll (set_active index w2)
    | None => w
    end.

(** [insertBelow]: a new executable task goes in after the active task
    and becomes the active task. *)
Definition insertBelow (w : t) : t :=
  if negb (ready w) then w
  else
    match model w with
    | Some m =>
        let r := ContentFactory.createDataintegrationTask blank m in
        let w1 := Build (Some (snd r)) (ui w) in
        let w2 := on_tasks (Tasks.insert (active w1 + 1) (fst r)) w1 in
        on_ui deselectAll (set_active (active w2 + 1) w2)
    | None => w
    end.

Definition selectAbove (w : t) : t :=
  if negb (ready w) then w
  else if active w =? 0 then w
  else on_ui deselectAll (set_active (active w - 1) w).

Definition selectBelow (w : t) : t :=
  if negb (ready w) then w
  else if active w =? len (widgets (ui w)) - 1 then w
  else on_ui deselectAll (set_active (active w + 1) w).

(** [widget.select(current)] and [widget.deselect(current)] for the
    active widget object, which is known by its identity. *)
Definition mark (b : bool) (x : nat) (w : t) : t :=
  on_ui (fun _ => update_widget x (Task.with_selected b)) w.

(** [extendSelectionAbove].  A child that is read from the layout and is
    not there is [undefined], and [isSelected(undefined)] throws: the
    action ends where it is. *)
Definition extendSelectionAbove (w : t) : t :=
  if negb (ready w) then w
  else if active w =? 0 then w
  else
    let w1 := on_ui (fun _ => set_mode command) w in
    match _activeTask (ui w1), at_index (widgets (ui w1)) (active w1 - 1) with
    | Some current, Some prev =>
        if isSelected (ui w1) prev then
          let w2 := mark false current w1 in
          if 1 <? active w2 then
            match at_index (widgets (ui w2)) (active w2 - 2) with
            | Some prevPrev =>
                let w3 := if negb (isSelected (ui w2) prevPrev)
                          then mark false (Task.wid prev) w2 else w2 in
                set_active (active w3 - 1) w3
            | None => w2
            end
          else set_active (active w2 - 1) w2
        else
          let w2 := mark true current w1 in
          set_active (active w2 - 1) w2
    | _, _ => w1
    end.

(** [extendSelectionBelow]. *)
Definition extendSelectionBelow (w : t) : t :=
  if negb (ready w) then w
  else if active w =? len (widgets (ui w)) - 1 then w
  else
    let w1 := on_ui (fun _ => set_mode command) w in
    match model w1, _activeTask (ui w1),
          at_index (widgets (ui w1)) (active w1 + 1) with
    | Some m, Some current, Some next =>
        if isSelected (ui w1) next then
          let w2 := mark false current w1 in
          if active w2 <? TaskList.length m - 2 then
            match at_index (widgets (ui w2)) (active w2 + 2) with
            | Some nextNext =>
                let w3 := if negb (isSelected (ui w2) nextNext)
                          then mark false (Task.wid next) w2 else w2 in
                set_active (active w3 + 1) w3
            | None => w2
            end
          else set_active (active w2 + 1) w2
        else
          let w2 := mark true current w1 in
          set_active (active w2 + 1) w2
    | _, _, _ => w1
    end.

(** What [trust] shows. *)
Inductive TrustDialog : Type := NoDialog | AlreadyTrusted | Confirm.

(** The loop of [trust] that reads [tasks.get(i).trusted] for every
    index; the read throws on an [undefined] task ([None]). *)
Definition trusted_flags (m : Model) : option (list bool) :=
  mapM (fun v => match v with
                 | Some l => TaskModel.trusted <$> heap m !! l
                 | None => None
                 end) (TaskList.iter m).

(** [trust] up to the dialog. *)
Definition trust_dialog (w : t) : option TrustDialog :=
  match model w with
  | None => Some NoDialog
  | Some m =>
      match trusted_flags m with
      | Some flags => Some (if forallb id flags then AlreadyTrusted else Confirm)
      | None => None
      end
  end.

(** The loop that sets [tasks.get(i).trusted = true] for every index. *)
Fixpoint trust_each (vs : list (option loc)) (m : Model) : option Model :=
  match vs with
  | [] => Some m
  | Some l :: vs' => trust_each vs' (update l (TaskModel.with_trusted true) m)
  | None :: _ => None
  end.

(** What the confirmation dialog's answer does to the task list that
    [trust] was called with. *)
Definition trust_answer (accept : bool) (w : t) : option t :=
  match model w with
  | Some m =>
      if accept then
        match trust_each (TaskList.iter m) m with
        | Some m' => Some (Build (Some m') (ui w))
        | None => None
        end
      else Some w
  | None => Some w
  end.

(** [Private.setMarkdownHeader], on the entity. *)
Definition setMarkdownHeader (level : nat) (e : TaskModel.t) : TaskModel.t :=
  TaskModel.with_text
    (hashes level +:+ " " +:+ strip_header (TaskModel.text e)) e.

(** An entry of the payload of an execute reply, as far as
    [handlePayload] reads it. *)
Module Payload.
Record t : Type := Build {
  source : string;
  text : string;
  replace : bool
}.
End Payload.

(** [handlePayload]: the first [set_next_input] entry either replaces the
    text of the task that ran, or becomes a new executable task right
    after that task (at the end when the task is not in the list). *)
Definition handlePayload (payload : list Payload.t) (child : Task.t) (w : t)
  : t :=
  match List.find (fun p => String.eqb (Payload.source p) "set_next_input")
                  payload with
  | None => w
  | Some p =>
      if Payload.replace p then
        on_model (update (Task.model child)
                    (TaskModel.with_text (Payload.text p))) w
      else
        match model w with
        | Some m =>
            let r := ContentFactory.createDataintegrationTask blank m in
            let m1 := update (fst r) (TaskModel.with_text (Payload.text p))
                             (snd r) in
            let i := findFirstIndex
                       (fun v => match v with
                                 | Some l => Nat.eqb l (Task.model child)
                                 | None => false
                                 end) (TaskList.iter m1) in
            on_tasks (if i =? -1 then Tasks.push (fst r)
                      else Tasks.insert (i + 1) (fst r))
                     (Build (Some m1) (ui w))
        | None => w
        end
  end.

End TaskbookActions.

(** ** Drops *)

(** The [p-drop] handler of the surface, for a drag that started on the
    same surface: [toMove] is the list of widgets the drag carries, and
    [found] is the index of the child the drop landed on, [-1] when it
    landed on none ([_findTask] of the event target). *)
Module TaskbookEvents.

Import Taskbook.

(** The loop for a block that moves towards the end: every call moves
    the task that is then at [fromIndex]. *)
Fixpoint moveLater (count : nat) (fromIndex toIndex : Z)
  (st : Model * Surface) : Model * Surface :=
  match count with
  | O => st
  | S n => moveLater n fromIndex toIndex (Tasks.move fromIndex toIndex st)
  end.

(** The loop for a block that moves towards the start: both indices go
    up by one after every call. *)
Fixpoint moveEarlier (count : nat) (fromIndex toIndex : Z)
  (st : Model * Surface) : Model * Surface :=
  match count with
  | O => st
  | S n =>
      moveEarlier n (fromIndex + 1) (toIndex + 1)
        (Tasks.move fromIndex toIndex st)
  end.

Definition moves (count : nat) (fromIndex toIndex : Z) (st : Model * Surface)
  : Model * Surface :=
  if fromIndex <? toIndex then moveLater count fromIndex toIndex st
  else if toIndex <? fromIndex then moveEarlier count fromIndex toIndex st
  else st.

Definition dropMove (toMove : list Task.t) (found : Z) (w : t) : t :=
  match model w with
  | None => w
  | Some _ =>
      let ws := widgets (ui w) in
      let fromIndex :=
        match toMove with
        | c :: _ => findFirstIndex (fun x => Nat.eqb (Task.wid x) (Task.wid c)) ws
        | [] => -1
        end in
      let toIndex :=
        if negb (found =? -1) && (fromIndex <? found) then found - 1
        else if found =? -1 then len ws - 1
        else found in
      if (fromIndex <=? toIndex) && (toIndex <? fromIndex + len toMove) then w
      else
        on_tasks
          (fun st =>
             Tasks.endCompoundOperation
               (moves (length toMove) fromIndex toIndex
                  (Tasks.beginCompoundOperation true st))) w
  end.

End TaskbookEvents.

(** ** Clicks *)

(** The [mousedown] handler of the surface.  Of the event it reads the
    child the target lies in ([_findTask] of the target, [-1] for none),
    whether the target lies in that child's editor or in its prompt, the
    shift key, the button and the position.  Giving the focus to a node
    of the page is left out. *)
Module TaskbookMouse.

Import Taskbook.

Record MouseEvent : Type := Event {
  found : Z;
  inEditor : bool;
  onPrompt : bool;
  shiftKey : bool;
  button : Z;
  clientX : Z;
  clientY : Z
}.

(** [Private.selectedProperty.set(this.widgets[j], true)]: a child that
    is not there is [undefined], on which the property cannot be set, and
    the exception ends the handler. *)
Definition mark_at (j : Z) (s : Surface) : option Surface :=
  match at_index (widgets s) j with
  | Some c => Some (select c s)
  | None => None
  end.

(** The loop [while (j > activeIndex)] of [_extendSelectionTo]: one
    child is marked per turn and [j] goes down by one. *)
Fixpoint mark_down (turns : nat) (j : Z) (s : Surface) : option Surface :=
  match turns with
  | O => Some s
  | S n =>
      match mark_at j s with
      | Some s1 => mark_down n (j - 1) s1
      | None => None
      end
  end.

(** The loop [while (j < activeIndex)]: [j] goes up by one. *)
Fixpoint mark_up (turns : nat) (j : Z) (s : Surface) : option Surface :=
  match turns with
  | O => Some s
  | S n =>
      match mark_at j s with
      | Some s1 => mark_up n (j + 1) s1
      | None => None
      end
  end.

(** [_extendSelectionTo(index)]: the children from [index] to the active
    one are marked, the active one last. *)
Definition _extendSelectionTo (m : option Model) (index : Z) (s : Surface)
  : option Surface :=
  let activeIndex := activeTaskIndex m s in
  let walked :=
    if activeIndex <? index
    then mark_down (Z.to_nat (index - activeIndex)) index s
    else if index <? activeIndex
    then mark_up (Z.to_nat (activeIndex - index)) index s
    else Some s in
  match walked with
  | Some s1 => mark_at activeIndex s1
  | None => None
  end.

(** [this._dragData = { pressX, pressY, index }]. *)
Definition arm (ev : MouseEvent) (s : Surface) : Surface :=
  MkSurface (widgets s) (_activeTaskIndex s) (_activeTask s) (_mode s)
            (Some (clientX ev, clientY ev, found ev)) (isDisposed s) (wids s).

(** [_evtMouseDown].  A press outside the editor of the child switches
    to command mode, which leaves the children as they are, so the child
    is read after it; a child that is not there makes the read of its
    editor throw.  With the shift key the selection is extended to the
    child; without it a press on a child that is not selected drops the
    selection.  The child becomes the active one, and a press of the
    left button on the prompt arms the drag. *)
Definition _evtMouseDown (ev : MouseEvent) (w : t) : option t :=
  let i := found ev in
  if i =? -1 then Some w
  else
    let w1 := if inEditor ev then w
              else on_ui (fun _ => set_mode command) w in
    match at_index (widgets (ui w1)) i with
    | None => None
    | Some widget =>
        let shouldDrag :=
          negb (inEditor ev) && onPrompt ev && negb (shiftKey ev) in
        let chosen :=
          if shiftKey ev then
            Build (model w1) <$> _extendSelectionTo (model w1) i (ui w1)
          else
            Some (if negb (isSelected (ui w1) widget)
                  then on_ui deselectAll w1 else w1) in
        match chosen with
        | Some w2 =>
            let w3 := on_ui (fun m => set_activeTaskIndex m i) w2 in
            Some (if (button ev =? 0) && shouldDrag
                  then on_ui (fun _ => arm ev) w3 else w3)
        | None => None
        end
    end.

End TaskbookMouse.

(** ** Documents and observations used in the examples *)

Module Examples.

(** A serialized record as [toJSON] writes the common fields. *)
Definition record (ty : TaskType) (source : string) : JSONValue :=
  JObject [("task_type", JString (type_name ty));
           ("source", JString source);
           ("metadata", JObject [])].

(** A new surface showing a new model, into which the records are then
    loaded. *)
Definition open (records : list JSONValue) : Taskbook.t :=
  Taskbook.on_tasks
    (TaskbookModel.fromJSON Taskbook._onTasksChanged records)
    (Taskbook.Build (Some empty_model) Taskbook.initial).

(** [widget.select(widget.widgets[i])]. *)
Definition select (i : Z) (w : Taskbook.t) : Taskbook.t :=
  match at_index (Taskbook.widgets (Taskbook.ui w)) i with
  | Some c => Taskbook.on_ui (fun _ => Taskbook.select c) w
  | None => w
  end.


(** The entity at an index of the task list, [tasks.get(i)] followed
    by the read of the entity. *)
Definition entity (i : Z) (m : Model) : option TaskModel.t :=
  match TaskList.get i m with
  | Some l => heap m !! l
  | None => None
  end.

(** A field of every task, in document order; [None] where the list
    has no entity for an id. *)
Definition column {A} (f : TaskModel.t -> A) (w : Taskbook.t)
  : list (option A) :=
  match Taskbook.model w with
  | Some m =>
      (fun i => match TaskList.map_get i m with
                | Some l => f <$> heap m !! l
                | None => None
                end) <$> OrderedStore.items (_taskOrder m)
  | None => []
  end.

Definition texts := column TaskModel.text.
Definition types := column TaskModel.type.

(** The model a surface shows. *)
Definition model_of (w : Taskbook.t) : Model :=
  match Taskbook.model w with
  | Some m => m
  | None => empty_model
  end.

(** Documents of executable tasks with the given texts. *)
Definition document (sources : list string) : Taskbook.t :=
  open (record Dataintegration <$> sources).

Definition abc : Taskbook.t := document ["a=1"; "b=2"; "c=3"].

(** Number of steps [undo] can take back. *)
Definition undoSteps (w : Taskbook.t) : nat :=
  match Taskbook.model w with
  | Some m => length (OrderedStore.undoStack (_taskOrder m))
  | None => 0
  end.

End Examples.

(** * Vocabulary of the statements *)

(** The value the [activeTaskIndex] setter settles on for a list of
    [n] tasks. *)
Definition clamped (n v : Z) : Z :=
  if n =? 0 then -1 else Z.min (Z.max v 0) (n - 1).

(** The marker of an id names one of the two task types. *)
Definition recognized (marker : option string) : bool :=
  match marker with
  | Some s => String.eqb s "Dataintegration" || String.eqb s "Notebookcell"
  | None => false
  end.



(** The part of the surface that is neither the children nor the
    active index and widget. *)
Definition frame (s : Taskbook.Surface) : TaskbookMode * option (Z * Z * Z) * bool :=
  (Taskbook._mode s, Taskbook._dragData s, Taskbook.isDisposed s).


(** The ids [_onOrderChanged] creates entities for. *)
Definition brought (c : OrderedStore.Change) : list string :=
  match OrderedStore.type c with
  | OrderedStore.Add | OrderedStore.Set_ => OrderedStore.newValues c
  | OrderedStore.Remove | OrderedStore.Move => []
  end.

(** The entity that the factory builds from the serialization of [e]
    when it has handed out [n] ids. *)
Definition loaded_copy (n : nat) (e : TaskModel.t) : TaskModel.t :=
  TaskModel.Build (uuid n) (TaskModel.type e) (TaskModel.text e)
                  (TaskModel.trusted e) (TaskModel.metadata e) None [] false.

(** ** Order and cache *)

Module Coherence.

Import OrderedStore.

(** The ids an edit brings. *)
Definition edit_ids (e : Edit) : list string :=
  match e with
  | Insert _ v | SetAt _ v | Push v => [v]
  | RemoveAt _ | MoveTo _ _ | Clear => []
  end.

Definition change_ids (c : Change) : list string :=
  oldValues c ++ newValues c.

(** The id is held by the store: in the order or in a change of the
    undo or redo history. *)
Definition in_store (k : string) (s : OrderedStore.t) : Prop :=
  k ∈ items s
  \/ exists step c, step ∈ undoStack s ++ redoStack s
                    /\ c ∈ step /\ k ∈ change_ids c.

(** The id has an entity in the map. *)
Definition cached (i : string) (m : Model) : Prop :=
  exists l, _taskMap m !! i = Some (Some l).

(** The entity at an address exists and is not disposed. *)
Definition live (l : loc) (m : Model) : Prop :=
  exists e, heap m !! l = Some e /\ TaskModel.isDisposed e = false.

(** An id that an edit of the order by a collaborator may carry: one
    that is cached, or one for which the collaborator's entity has
    written its type marker. *)
Definition known (i : string) (m : Model) : Prop :=
  cached i m \/ (i <> "" /\ recognized (modelDB m !! type_key i) = true).

(** The map is sound: an entry holds a live entity with the id of its
    key, and never [undefined]. *)
Definition sound (m : Model) : Prop :=
  forall k v, _taskMap m !! k = Some v ->
    exists l e, v = Some l /\ heap m !! l = Some e
                /\ TaskModel.id e = k /\ TaskModel.isDisposed e = false.

(** Every id of the store is cached. *)
Definition covered (m : Model) : Prop :=
  forall k, in_store k (_taskOrder m) -> cached k m.

Definition coherent (m : Model) : Prop := sound m /\ covered m.

Section Operations.

Context {L : Type}.
Variable changed : IChangedArgs (option loc) -> Model -> L -> L.

(** One operation on the task list of a model. *)
Inductive step : Model * L -> Model * L -> Prop :=
  | step_create ty o st :
      step st (snd (ContentFactory.create ty o (fst st)), snd st)
  | step_set i l st :
      live l (fst st) -> step st (TaskList.set changed i l st)
  | step_push l st :
      live l (fst st) -> step st (TaskList.push changed l st)
  | step_insert i l st :
      live l (fst st) -> step st (TaskList.insert changed i l st)
  | step_remove i st : step st (TaskList.remove changed i st)
  | step_move i j st : step st (TaskList.move changed i j st)
  | step_clear st : step st (TaskList.clear changed st)
  | step_begin b st : step st (TaskList.beginCompoundOperation b st)
  | step_end st : step st (TaskList.endCompoundOperation st)
  | step_undo st : step st (TaskList.undo changed st)
  | step_redo st : step st (TaskList.redo changed st)
  | step_clearUndo st : step st (TaskList.clearUndo (fst st), snd st)
  | step_marker i ty st :
      i <> "" ->
      step st (MkModel (_taskOrder (fst st)) (_taskMap (fst st))
                       (heap (fst st))
                       (<[type_key i := type_name ty]> (modelDB (fst st)))
                       (uuids (fst st)), snd st)
  | step_sync e st :
      (forall i, i ∈ edit_ids e -> known i (fst st)) ->
      step st (TaskList.edit changed e st).

Inductive reachable : Model * L -> Prop :=
  | reachable_new x : reachable (empty_model, x)
  | reachable_step st st' : reachable st -> step st st' -> reachable st'.

End Operations.

End Coherence.

(** ** The children of the surface *)

Module Layout.

Import Taskbook.

(** The children show the tasks of the list, one child per task and in
    the order of the list. *)
Definition mirrors (m : Model) (s : Surface) : Prop :=
  TaskList.iter m = (fun c => Some (Task.model c)) <$> widgets s.

(** The children are distinct widget objects, all of them made by this
    surface. *)
Definition distinct (s : Surface) : Prop :=
  NoDup (Task.wid <$> widgets s)
  /\ Forall (fun c => (Task.wid c < wids s)%nat) (widgets s).

(** The active index is [-1] on an empty list and an index of the list
    otherwise. *)
Definition fits (m : Model) (s : Surface) : Prop :=
  _activeTaskIndex s = clamped (TaskList.length m) (_activeTaskIndex s).

Definition settled (m : Model) (s : Surface) : Prop :=
  mirrors m s /\ distinct s /\ fits m s.

(** A task that the caller may hand to the list: a live entity whose id
    is not the id under which the list has cached another entity. *)
Definition admissible (l : loc) (m : Model) : Prop :=
  exists e, heap m !! l = Some e
            /\ TaskModel.isDisposed e = false
            /\ (_taskMap m !! TaskModel.id e = None
                \/ _taskMap m !! TaskModel.id e = Some (Some l)).

(** One call of the task list's interface on a model whose list the
    surface listens to. *)
Inductive step : Model * Surface -> Model * Surface -> Prop :=
  | step_create ty o st :
      step st (snd (ContentFactory.create ty o (fst st)), snd st)
  | step_set i l st : admissible l (fst st) -> step st (Tasks.set i l st)
  | step_push l st : admissible l (fst st) -> step st (Tasks.push l st)
  | step_insert i l st :
      admissible l (fst st) -> step st (Tasks.insert i l st)
  | step_remove i st : step st (Tasks.remove i st)
  | step_move i j st : step st (Tasks.move i j st)
  | step_clear st : step st (Tasks.clear st)
  | step_begin b st : step st (Tasks.beginCompoundOperation b st)
  | step_end st : step st (Tasks.endCompoundOperation st)
  | step_undo st : step st (Tasks.undo st)
  | step_redo st : step st (Tasks.redo st)
  | step_clearUndo st : step st (TaskList.clearUndo (fst st), snd st).

(** The states of a new surface on a new model. *)
Inductive reachable : Model * Surface -> Prop :=
  | reachable_new : reachable (empty_model, initial)
  | reachable_step st st' : reachable st -> step st st' -> reachable st'.

End Layout.

(** ** The selection *)
Module Selection.

Import Taskbook.

(** The active widget is the child at the active index. *)
Definition pointed (s : Surface) : Prop :=
  _activeTask s = Task.wid <$> at_index (widgets s) (_activeTaskIndex s).

(** The children that [isSelected] accepts are those between the
    indices [h] and [a], both included. *)
Definition between (h a : Z) (s : Surface) : Prop :=
  forall i c, at_index (widgets s) i = Some c ->
    isSelected s c = (Z.min h a <=? i) && (i <=? Z.max h a).

(** The surface is in step with the list, the active widget is the child
    at the active index [a], and [sel] gives the marks of the children. *)
Definition marked (m : Model) (a : Z) (sel : Z -> bool) (q : Surface) : Prop :=
  Layout.settled m q /\ pointed q /\ _activeTaskIndex q = a
  /\ forall i c, at_index (widgets q) i = Some c -> Task.selected c = sel i.

End Selection.

(** * Properties *)

(** ** Arrays *)

Section Arrays.

Context {A : Type}.
Implicit Types (l : list A) (x : A) (i j : nat).

Lemma length_insert_at i x l : length (insert_at i x l) = S (length l).
Proof.
  unfold insert_at. rewrite length_app. simpl.
  rewrite length_take, length_drop. lia.
Qed.

Lemma lookup_insert_at_lt i j x l :
  (j < i)%nat -> (i <= length l)%nat -> insert_at i x l !! j = l !! j.
Proof.
  intros Hj Hi. unfold insert_at.
  rewrite lookup_app_l by (rewrite length_take; lia).
  by apply lookup_take_lt.
Qed.

Lemma lookup_insert_at_eq i x l :
  (i <= length l)%nat -> insert_at i x l !! i = Some x.
Proof.
  intros Hi. unfold insert_at.
  rewrite lookup_app_r by (rewrite length_take; lia).
  rewrite length_take. by replace (i - i `min` length l)%nat with 0%nat by lia.
Qed.

Lemma lookup_insert_at_gt i j x l :
  (i <= j)%nat -> (i <= length l)%nat -> insert_at i x l !! S j = l !! j.
Proof.
  intros Hj Hi. unfold insert_at.
  rewrite lookup_app_r by (rewrite length_take; lia).
  rewrite length_take.
  replace (S j - i `min` length l)%nat with (S (j - i)) by lia.
  simpl. rewrite lookup_drop. f_equal. lia.
Qed.

Lemma lookup_delete_before i j l :
  (j < i)%nat -> delete i l !! j = l !! j.
Proof. intros. by apply list_lookup_delete_lt. Qed.

Lemma lookup_delete_after i j l :
  (i <= j)%nat -> delete i l !! j = l !! S j.
Proof. intros. by apply list_lookup_delete_ge. Qed.

Lemma at_index_Some l (z : Z) x :
  at_index l z = Some x <-> 0 <= z /\ l !! Z.to_nat z = Some x.
Proof.
  unfold at_index. destruct (Z.ltb_spec z 0); split.
  - discriminate.
  - intros [? _]. lia.
  - intros. split; [lia | done].
  - by intros [_ ?].
Qed.

Lemma at_index_nat l i : at_index l (Z.of_nat i) = l !! i.
Proof.
  unfold at_index. destruct (Z.ltb_spec (Z.of_nat i) 0); [lia |].
  by rewrite Nat2Z.id.
Qed.

End Arrays.

(** ** The active index *)


Lemma set_activeTaskIndex_index md v s :
  Taskbook._activeTaskIndex (Taskbook.set_activeTaskIndex (Some md) v s)
  = clamped (TaskList.length md) v.
Proof. reflexivity. Qed.

Lemma set_activeTaskIndex_widgets m v s :
  Taskbook.widgets (Taskbook.set_activeTaskIndex m v s) = Taskbook.widgets s.
Proof. reflexivity. Qed.

Lemma clamped_in_range n v : 0 <= v < n -> clamped n v = v.
Proof.
  intros H. unfold clamped. destruct (Z.eqb_spec n 0); lia.
Qed.

Lemma length_nonneg md : 0 <= TaskList.length md.
Proof. unfold TaskList.length, len. lia. Qed.

(** C7.  Assigning any integer [v] to [activeTaskIndex] stores
    [max(0, min(v, length - 1))] when the task list is not empty and [-1]
    when it is empty or there is no model; the getter then returns the
    stored index, and on an empty list (or without a model) the getter
    returns [-1] whatever is stored. *)
Theorem activeTaskIndex_clamp (m : option Model) (v : Z) (s : Taskbook.Surface) :
  let s' := Taskbook.set_activeTaskIndex m v s in
  Taskbook._activeTaskIndex s'
  = match m with
    | Some md =>
        if 0 <? TaskList.length md
        then Z.max 0 (Z.min v (TaskList.length md - 1))
        else -1
    | None => -1
    end
  /\ Taskbook.activeTaskIndex m s' = Taskbook._activeTaskIndex s'
  /\ Taskbook.activeTaskIndex m s
     = match m with
       | Some md =>
           if 0 <? TaskList.length md then Taskbook._activeTaskIndex s else -1
       | None => -1
       end.
Proof.
  destruct m as [md|]; simpl; [| done].
  pose proof (length_nonneg md) as Hn.
  unfold Taskbook.activeTaskIndex. simpl.
  destruct (Z.eqb_spec (TaskList.length md) 0) as [H0|H0],
           (Z.ltb_spec 0 (TaskList.length md)); try lia; repeat split; lia.
Qed.

(** C10, counterexample.  Two tasks, the first one active: the removal
    at index 0 is at an index [<=] the active index, and the active index
    is not decremented. *)
Lemma removal_at_index_zero_not_decremented :
  let w := Examples.open [Examples.record Dataintegration "a";
                          Examples.record Dataintegration "b"] in
  let w' := Taskbook.on_tasks (Tasks.remove 0) w in
  TaskbookActions.active w = 0
  /\ 0 <= TaskbookActions.active w
  /\ TaskbookActions.active w' <> TaskbookActions.active w - 1.
Proof. vm_compute. repeat split; congruence. Qed.

(** C10, as amended.  With [n] children and the active index [a] within
    them: an insertion at [i] makes the active index [a + 1] when
    [i <= a] and leaves it otherwise, and the same widget stays active; a
    removal at [i] makes it [a - 1] when [i < a], leaves it when [a < i],
    both with the same widget active, and at [i = a] it becomes [a - 1]
    clamped to the tasks that remain; a move of the active task makes the
    destination the active index. *)
Theorem active_index_follows_edits
  (s : Taskbook.Surface) (a : Z) (c : Task.t) (i : Z) (cell : loc) (md : Model) :
  Taskbook._activeTaskIndex s = a ->
  at_index (Taskbook.widgets s) a = Some c ->
  Taskbook._activeTask s = Some (Task.wid c) ->
  (TaskList.length md = len (Taskbook.widgets s) + 1 ->
   0 <= i <= len (Taskbook.widgets s) ->
   let s' := Taskbook._insertTask (Some md) i cell s in
   Taskbook._activeTaskIndex s' = (if i <=? a then a + 1 else a)
   /\ at_index (Taskbook.widgets s') (Taskbook._activeTaskIndex s') = Some c
   /\ Taskbook._activeTask s' = Some (Task.wid c))
  /\ (TaskList.length md = len (Taskbook.widgets s) - 1 ->
      0 <= i < len (Taskbook.widgets s) ->
      exists s', Taskbook._removeTask (Some md) i s = Some s'
      /\ Taskbook._activeTaskIndex s'
         = (if i <? a then a - 1
            else if a <? i then a
            else clamped (TaskList.length md) (a - 1))
      /\ (i <> a ->
          at_index (Taskbook.widgets s') (Taskbook._activeTaskIndex s') = Some c
          /\ Taskbook._activeTask s' = Some (Task.wid c)))
  /\ (TaskList.length md = len (Taskbook.widgets s) ->
      0 <= i < len (Taskbook.widgets s) ->
      exists s', Taskbook._moveTask (Some md) a i s = Some s'
      /\ Taskbook._activeTaskIndex s' = i
      /\ (i <> a ->
          at_index (Taskbook.widgets s') i = Some c)).
Proof.
  intros Ha Hc Hact.
  apply at_index_Some in Hc as [Ha0 Hc].
  pose proof (lookup_lt_Some _ _ _ Hc) as Hlt.
  set (ws := Taskbook.widgets s) in *.
  assert (Hgetter : forall k, k <> 0 -> TaskList.length md = k ->
            Taskbook.activeTaskIndex (Some md) s = a).
  { intros k Hk Hlen. unfold Taskbook.activeTaskIndex.
    rewrite Hlen. destruct (Z.eqb_spec k 0); [lia | done]. }
  split; [| split].
  - (* insertion *)
    intros Hlen Hi s'. subst s'.
    unfold Taskbook._insertTask, Taskbook.onTaskInserted.
    unfold Taskbook.activeTaskIndex. simpl.
    rewrite Hlen, Ha. unfold len in *.
    destruct (Z.eqb_spec (Z.of_nat (length ws) + 1) 0) as [|_]; [lia |].
    fold ws.
    assert (Hcl : clamp_index i (length ws) = Z.to_nat i)
      by (unfold clamp_index; f_equal; lia).
    rewrite Hcl.
    destruct (Z.leb_spec i a) as [Hia|Hia].
    + replace (Z.min (Z.max (a + 1) 0) (Z.of_nat (length ws) + 1 - 1))
        with (a + 1) by lia.
      assert (Hw : at_index (insert_at (Z.to_nat i) (Task.create (Taskbook.wids s) cell) ws)
                     (a + 1) = Some c).
      { apply at_index_Some. split; [lia |].
        replace (Z.to_nat (a + 1)) with (S (Z.to_nat a)) by lia.
        rewrite lookup_insert_at_gt by lia. done. }
      rewrite Hw. done.
    + replace (Z.min (Z.max a 0) (Z.of_nat (length ws) + 1 - 1)) with a by lia.
      assert (Hw : at_index (insert_at (Z.to_nat i) (Task.create (Taskbook.wids s) cell) ws)
                     a = Some c).
      { apply at_index_Some. split; [lia |].
        rewrite lookup_insert_at_lt by lia. done. }
      rewrite Hw. done.
  - (* removal *)
    intros Hlen Hi. unfold Taskbook._removeTask. fold ws.
    destruct (at_index ws i) as [ci|] eqn:Hci.
    2:{ unfold at_index in Hci. destruct (Z.ltb_spec i 0); [lia |].
        apply lookup_ge_None in Hci. unfold len in Hi. lia. }
    eexists. split; [reflexivity |].
    unfold Taskbook.onTaskRemoved, Taskbook.activeTaskIndex. simpl.
    rewrite Ha. unfold clamped. unfold len in *.
    destruct (Z.eqb_spec (TaskList.length md) 0) as [H0|H0].
    + (* the last task goes *)
      assert (i = 0 /\ a = 0) as [-> ->] by lia.
      simpl. split; [done |]. intros; lia.
    + destruct (Z.leb_spec i a) as [Hia|Hia].
      * destruct (Z.ltb_spec i a) as [Hlt'|Hge].
        -- split; [lia |]. intros _.
           replace (Z.min (Z.max (a - 1) 0) (TaskList.length md - 1))
             with (a - 1) by lia.
           assert (Hw : at_index (delete (Z.to_nat i) ws) (a - 1) = Some c).
           { apply at_index_Some. split; [lia |].
             rewrite lookup_delete_after by lia.
             replace (S (Z.to_nat (a - 1))) with (Z.to_nat a) by lia. done. }
           rewrite Hw. done.
        -- assert (i = a) as -> by lia.
           destruct (Z.ltb_spec a a); [lia |]. split; [done |]. intros; lia.
      * destruct (Z.ltb_spec i a); [lia |].
        destruct (Z.ltb_spec a i); [| lia].
        split; [lia |]. intros _.
        replace (Z.min (Z.max a 0) (TaskList.length md - 1)) with a by lia.
        assert (Hw : at_index (delete (Z.to_nat i) ws) a = Some c).
        { apply at_index_Some. split; [lia |].
          rewrite lookup_delete_before by lia. done. }
        rewrite Hw. done.
  - (* move of the active task *)
    intros Hlen Hi. unfold Taskbook._moveTask. fold ws.
    assert (Hca : at_index ws a = Some c) by (apply at_index_Some; done).
    rewrite Hca. eexists. split; [reflexivity |].
    unfold Taskbook.onTaskMoved, Taskbook.activeTaskIndex. simpl.
    rewrite Ha, Hlen. unfold len in *.
    destruct (Z.eqb_spec (Z.of_nat (length ws)) 0); [lia |].
    rewrite Z.eqb_refl. simpl. rewrite Hlen.
    destruct (Z.eqb_spec (Z.of_nat (length ws)) 0); [lia |].
    split; [lia |]. intros Hne.
    assert (Hcl : clamp_index i (length ws) = Z.to_nat i)
      by (unfold clamp_index; f_equal; lia).
    rewrite Hcl.
    destruct (Nat.eqb_spec (Z.to_nat i) (length ws)); [lia |].
    unfold move_to. rewrite Hc.
    apply at_index_Some. split; [lia |].
    apply lookup_insert_at_eq. rewrite length_delete by eauto. lia.
Qed.

(** Three tasks with the second one active: an insertion and a removal
    at index 0, and a move of the active task to the end. *)
Lemma active_index_follows_edits_witness :
  let s := Taskbook.ui (TaskbookActions.set_active 1 Examples.abc) in
  let four := Examples.model_of (Examples.document ["a"; "b"; "c"; "d"]) in
  let two := Examples.model_of (Examples.document ["a"; "b"]) in
  Taskbook._activeTaskIndex (Taskbook._insertTask (Some four) 0 0%nat s) = 2
  /\ (exists s', Taskbook._removeTask (Some two) 0 s = Some s'
                 /\ Taskbook._activeTaskIndex s' = 0)
  /\ (exists s', Taskbook._moveTask (Some (Examples.model_of Examples.abc)) 1 2 s
                 = Some s'
                 /\ Taskbook._activeTaskIndex s' = 2).
Proof.
  intros s four two.
  pose proof (fun i md =>
                active_index_follows_edits s 1 (Task.create 1 1) i 0%nat md
                  eq_refl eq_refl eq_refl) as H.
  split; [| split].
  - destruct (H 0 four) as (Hins & _ & _).
    destruct (Hins eq_refl ltac:(vm_compute; split; discriminate)) as [Hi _].
    exact Hi.
  - destruct (H 0 two) as (_ & Hrem & _).
    destruct (Hrem eq_refl ltac:(vm_compute; split; [discriminate | reflexivity]))
      as (s' & Hs' & Hi & _).
    exists s'. split; [exact Hs' | exact Hi].
  - destruct (H 2 (Examples.model_of Examples.abc)) as (_ & _ & Hmov).
    destruct (Hmov eq_refl ltac:(vm_compute; split; [discriminate | reflexivity]))
      as (s' & Hs' & Hi & _).
    exists s'. split; [exact Hs' | exact Hi].
Defined.


(** ** A type marker that is not a task type *)


(** Whatever the state, an id that is not cached and whose marker is not
    a task type ends up in the map without an entity. *)
Lemma materialize_unrecognized (i : string) (m : Model) :
  TaskList.has i m = false ->
  recognized (modelDB m !! type_key i) = false ->
  TaskList.has i (TaskList.materialize i m) = true
  /\ TaskList.map_get i (TaskList.materialize i m) = None
  /\ heap (TaskList.materialize i m) = heap m.
Proof.
  intros Hhas Hrec. unfold TaskList.materialize. rewrite Hhas.
  unfold recognized in Hrec.
  destruct (modelDB m !! type_key i) as [s|].
  - apply orb_false_iff in Hrec as [-> ->].
    unfold TaskList.has, TaskList.map_get. simpl.
    by rewrite lookup_insert_eq.
  - unfold TaskList.has, TaskList.map_get. simpl.
    by rewrite lookup_insert_eq.
Qed.

(** C2, at the failing input.  A document of two tasks; the id ["ghost"],
    which has no type marker in the model database, arrives at index 1 of
    the order.  [_onOrderChanged] returns normally: the id stays in the
    order, [get(1)] is [undefined], and the surface has no widget for
    it. *)
Theorem unknown_marker_leaves_id_without_entity :
  let w := Examples.open [Examples.record Dataintegration "a";
                          Examples.record Notebookcell "b"] in
  let w' := Taskbook.on_tasks
              (Tasks.edit (OrderedStore.Insert 1 "ghost")) w in
  (modelDB <$> Taskbook.model w) ≫= (fun db => db !! type_key "ghost") = None
  /\ (OrderedStore.items ∘ _taskOrder) <$> Taskbook.model w'
     = Some ["uuid-0"; "ghost"; "uuid-1"]
  /\ TaskList.get 1 <$> Taskbook.model w' = Some None
  /\ Examples.texts w' = [Some "a"; None; Some "b"]
  /\ length (Taskbook.widgets (Taskbook.ui w')) = 2%nat.
Proof. vm_compute. repeat split; reflexivity. Qed.

(** ** deleteTasks *)

(** A document of one task: [deleteTasks] leaves one new executable task
    with empty text, the removal and the push are one undo step, and one
    [undo] brings the original task back. *)
Lemma deleteTasks_of_only_task :
  let w := Examples.document ["x=1"] in
  let w' := TaskbookActions.deleteTasks w in
  Examples.texts w' = [Some ""]
  /\ Examples.types w' = [Some Dataintegration]
  /\ Examples.undoSteps w' = S (Examples.undoSteps w)
  /\ TaskbookActions.active w' = 0
  /\ Examples.texts (TaskbookActions.undo w') = [Some "x=1"].
Proof. vm_compute. repeat split; reflexivity. Qed.

(** C3, at the failing input.  Four tasks; the first is marked selected
    and the second is active, so both are deleted.  The two removals and
    nothing else make one undo step, and the tasks ["c"] and ["d"]
    remain; the active index is then 1, the larger of the deleted
    indices, which is where [toDelete[0]] points after the array was
    reversed: the task ["d"] is active, not the task ["c"] that followed
    the deleted ones. *)
Theorem deleteTasks_activates_largest_deleted_index :
  let w := Examples.select 0
             (TaskbookActions.set_active 1
                (Examples.open [Examples.record Dataintegration "a";
                                Examples.record Dataintegration "b";
                                Examples.record Dataintegration "c";
                                Examples.record Dataintegration "d"])) in
  let w' := TaskbookActions.deleteTasks w in
  TaskbookActions.indices_where
    (Taskbook.isSelected (Taskbook.ui w)) 0 (Taskbook.widgets (Taskbook.ui w))
  = [0; 1]
  /\ Examples.texts w' = [Some "c"; Some "d"]
  /\ Examples.undoSteps w' = S (Examples.undoSteps w)
  /\ TaskbookActions.active w' = 1.
Proof. vm_compute. repeat split; reflexivity. Qed.

(** ** paste *)

(** No record that [toJSON] writes has a [Task_type] property. *)
Lemma toJSON_has_no_Task_type (e : TaskModel.t) :
  prop "Task_type" (TaskModel.toJSON e) = None.
Proof. unfold TaskModel.toJSON. by destruct (TaskModel.type e). Qed.

(** So [paste] builds no entity from a payload that [copy] or [cut]
    wrote. *)
Lemma paste_create_of_toJSON (es : list TaskModel.t) (m : Model) :
  TaskbookActions.paste_create (TaskModel.toJSON <$> es) m = ([], m).
Proof.
  induction es as [|e es IH]; simpl; [done |].
  by rewrite toJSON_has_no_Task_type.
Qed.

(** C5, at the failing input.  Three tasks, those at indices 0 and 2
    selected; [copy], then [paste] with the active index 1.  The
    clipboard holds the records of the two tasks, and [paste] inserts
    nothing: the document has its three tasks and the active index is
    still 1. *)
Theorem paste_inserts_nothing :
  let w := Examples.select 2
             (Examples.open [Examples.record Dataintegration "a";
                             Examples.record Notebookcell "b";
                             Examples.record Dataintegration "c"]) in
  let copied := TaskbookActions.copy (None, w) in
  let pasted := TaskbookActions.paste
                  (fst copied, TaskbookActions.set_active 1 (snd copied)) in
  (length <$> fst copied) = Some 2%nat
  /\ Examples.texts (snd pasted) = [Some "a"; Some "b"; Some "c"]
  /\ TaskbookActions.active (snd pasted) = 1.
Proof. vm_compute. repeat split; reflexivity. Qed.

(** ** changeTaskType *)

Lemma obj_get_set_eq (k : string) (v : JSONValue) (o : list (string * JSONValue)) :
  obj_get k (obj_set k v o) = Some v.
Proof.
  induction o as [|[k' v'] o IH]; simpl.
  - by rewrite String.eqb_refl.
  - destruct (String.eqb k k') eqn:Hk; simpl.
    + by rewrite String.eqb_refl.
    + by rewrite Hk.
Qed.

(** The trusted flag of an entity built from a serialized one is the
    flag of the original ([changeTaskType] then forces it to false only
    when an executable task becomes a text task). *)
Lemma converted_trusted (e : TaskModel.t) (value : TaskType) (i : string) :
  obj_get "trusted" (TaskModel.metadata e) = None ->
  TaskModel.trusted
    (TaskModel.construct value (Some (TaskModel.toJSON e)) i)
  = TaskModel.trusted e.
Proof.
  intros Hmd. unfold TaskModel.construct, TaskModel.toJSON.
  destruct (TaskModel.type e), (TaskModel.trusted e) eqn:Ht; simpl;
    unfold TaskModel.record_metadata; simpl;
    rewrite ?Hmd, ?obj_get_set_eq; done.
Qed.

(** C6, at the failing input.  Two executable tasks; the first is marked
    selected and the second is active, so both are selected.  The
    conversion to text tasks replaces the first one only: its [set]
    moves the active widget, and when the loop reaches the second task
    [isSelected] no longer holds for it. *)
Theorem changeTaskType_skips_active_last_task :
  let w := Examples.select 0
             (TaskbookActions.set_active 1
                (Examples.open [Examples.record Dataintegration "a";
                                Examples.record Dataintegration "b"])) in
  let w' := TaskbookActions.changeTaskType Notebookcell w in
  forallb (Taskbook.isSelected (Taskbook.ui w)) (Taskbook.widgets (Taskbook.ui w))
  = true
  /\ Examples.types w = [Some Dataintegration; Some Dataintegration]
  /\ Examples.types w' = [Some Notebookcell; Some Dataintegration]
  /\ Examples.texts w' = [Some "a"; Some "b"].
Proof. vm_compute. repeat split; reflexivity. Qed.

(** ** run *)

Section Run.

Import Taskbook TaskbookActions.








Lemma set_mode_command_widgets s :
  widgets (set_mode command s) = widgets s
  /\ _activeTask (set_mode command s) = _activeTask s
  /\ _mode (set_mode command s) = command.
Proof.
  unfold set_mode. destruct (hasActiveTask s); simpl;
    destruct (_mode s) eqn:Hm; simpl; rewrite ?Hm; done.
Qed.

End Run.





(** ** The task list and its listeners *)

Section Listeners.

Context {L : Type}.
Variable changed : OrderedStore.IChangedArgs (option loc) -> Model -> L -> L.

(** What a listener keeps through every signal, it keeps through every
    operation of the list. *)
Section Kept.

Context {B : Type} (f : L -> B).
Hypothesis slot_keeps : forall args m x, f (changed args m x) = f x.






End Kept.

(** The list does not depend on who listens. *)
Section Alone.

Context {L' : Type}.
Variable changed' : OrderedStore.IChangedArgs (option loc) -> Model -> L' -> L'.






End Alone.

End Listeners.

(** ** undo and redo *)

Section UndoRedo.

Import Taskbook TaskbookActions.


Lemma set_activeTaskIndex_frame m v s :
  frame (set_activeTaskIndex m v s) = frame s.
Proof. reflexivity. Qed.

Lemma _insertTask_frame m i l s : frame (_insertTask m i l s) = frame s.
Proof. reflexivity. Qed.







Lemma deselectAll_spec m s :
  Forall (fun c => Task.selected c = false) (widgets (deselectAll m s))
  /\ frame (deselectAll m s) = frame s.
Proof.
  split; [| done]. unfold deselectAll. simpl.
  apply Forall_fmap, Forall_true. done.
Qed.



End UndoRedo.




(** ** splitTask *)

Section SplitTask.
Import Taskbook TaskbookActions OrderedStore.

Lemma uuid_inj n k : uuid n = uuid k -> n = k.
Proof.
  unfold uuid. intros H. apply (inj (String.app _)) in H.
  by apply (inj pretty) in H.
Qed.

Context {L : Type}.
Variable changed : IChangedArgs (option loc) -> Model -> L -> L.

Lemma materialize_cached i m : TaskList.has i m = true -> TaskList.materialize i m = m.
Proof. intros H. unfold TaskList.materialize. by rewrite H. Qed.


Lemma insert_cached (i : Z) (l : loc) (e : TaskModel.t) (m : Model) (x : L) :
  heap m !! l = Some e ->
  let j := clamp_index i (length (items (_taskOrder m))) in
  let c := ChangedArgs Add (-1) (Z.of_nat j) [] [TaskModel.id e] in
  let m2 := MkModel
              (record c (with_items (insert_at j (TaskModel.id e) (items (_taskOrder m)))
                           (_taskOrder m)))
              (<[TaskModel.id e := Some l]> (_taskMap m)) (heap m) (modelDB m) (uuids m) in
  TaskList.insert changed i l (m, x)
  = (m2, changed (ChangedArgs Add (-1) (Z.of_nat j) [] [Some l]) m2 x).
Proof.
  intros He j c m2. unfold TaskList.insert, TaskList.cache. simpl. rewrite He.
  unfold TaskList.edit. simpl.
  unfold TaskList._onOrderChanged. simpl.
  rewrite materialize_cached.
  2:{ unfold TaskList.has. simpl. by rewrite lookup_insert_eq. }
  f_equal. f_equal. f_equal.
  unfold TaskList.map_get. simpl. by rewrite lookup_insert_eq.
Qed.
End SplitTask.

Section SplitSurface.
Import Taskbook TaskbookActions OrderedStore.





End SplitSurface.

Section SplitMain.
Import Taskbook TaskbookActions OrderedStore.

Lemma construct_id ty task i : TaskModel.id (TaskModel.construct ty task i) = i.
Proof. by destruct task. Qed.



End SplitMain.



(** ** Order and cache: every id of the order has a live entity *)

Section Members.

Context {A : Type}.
Implicit Types (l : list A) (x y : A).

Lemma elem_of_insert_at i x y l :
  y ∈ insert_at i x l -> y = x \/ y ∈ l.
Proof.
  unfold insert_at. rewrite elem_of_app, elem_of_cons.
  intros [H|[H|H]]; [right | by left | right].
  - by apply (subseteq_take i).
  - by apply (subseteq_drop i).
Qed.

Lemma elem_of_delete_at i y l : y ∈ delete i l -> y ∈ l.
Proof. apply sublist_subseteq, sublist_delete. Qed.

Lemma elem_of_list_insert i x y l : y ∈ <[i := x]> l -> y = x \/ y ∈ l.
Proof.
  destruct (decide (i < length l)%nat) as [Hi|Hi].
  - rewrite insert_take_drop by done. rewrite elem_of_app, elem_of_cons.
    intros [H|[H|H]]; [right | by left | right].
    + by apply (subseteq_take i).
    + by apply (subseteq_drop (S i)).
  - rewrite list_insert_ge by lia. by right.
Qed.

Lemma elem_of_move_to i j y l : y ∈ move_to i j l -> y ∈ l.
Proof.
  unfold move_to. destruct (l !! i) as [x|] eqn:Hx; [| done].
  intros [->|H]%elem_of_insert_at.
  - by eapply list_elem_of_lookup_2.
  - by eapply elem_of_delete_at.
Qed.

End Members.

Section Store.

Import OrderedStore Coherence.


Lemma at_index_elem {A} (l : list A) i x : at_index l i = Some x -> x ∈ l.
Proof.
  intros [_ H]%at_index_Some. by eapply list_elem_of_lookup_2.
Qed.

(** What an edit does to the ids: the order and the change hold ids of
    the old order or ids the change brings, and those are ids of the
    edit. *)
Lemma apply_ids e l l' c :
  apply e l = (l', Some c) ->
  (forall k, k ∈ l' \/ k ∈ change_ids c -> k ∈ l \/ k ∈ brought c)
  /\ (forall k, k ∈ brought c -> k ∈ edit_ids e).
Proof.
  unfold change_ids, brought.
  destruct e as [i v|i v|i|i j|v|]; simpl.
  - intros [= <- <-]. simpl. split; [| done].
    intros k [H|H].
    + apply elem_of_insert_at in H as [->|H]; [right | by left].
      apply list_elem_of_singleton. done.
    + by right.
  - destruct (at_index l i) as [old|] eqn:Hold; [| done].
    intros [= <- <-]. simpl. split; [| done].
    intros k [H|H].
    + apply elem_of_list_insert in H as [->|H]; [right | by left].
      by apply list_elem_of_singleton.
    + apply elem_of_cons in H as [->|H]; [left | by right].
      by eapply at_index_elem.
  - destruct (at_index l i) as [old|] eqn:Hold; [| done].
    intros [= <- <-]. simpl. split; [| done].
    intros k [H|H]; left.
    + by eapply elem_of_delete_at.
    + apply list_elem_of_singleton in H as ->.
      by eapply at_index_elem.
  - destruct (at_index l i) as [v|] eqn:Hv; [| done].
    destruct (in_range j l && negb (i =? j)); [| done].
    intros [= <- <-]. simpl. split; [| done].
    intros k [H|H]; left.
    + by eapply elem_of_move_to.
    + assert (k = v) as ->.
      { apply elem_of_cons in H as [->|H]; [done |].
        by apply list_elem_of_singleton in H. }
      by eapply at_index_elem.
  - intros [= <- <-]. simpl. split; [| done].
    intros k [H|H].
    + apply elem_of_app in H as [H|H]; [by left | by right].
    + by right.
  - intros [= <- <-]. simpl. split; [| done].
    intros k [H|H]; [by apply elem_of_nil in H |].
    left. by rewrite app_nil_r in H.
Qed.

Lemma apply_none e l l' : apply e l = (l', None) -> l' = l.
Proof.
  destruct e as [i v|i v|i|i j|v|]; simpl; try done.
  - destruct (at_index l i); [done |]. by intros [= <-].
  - destruct (at_index l i); [done |]. by intros [= <-].
  - destruct (at_index l i); [| by intros [= <-]].
    destruct (_ && _); [done |]. by intros [= <-].
Qed.

Lemma record_items c s : items (record c s) = items s.
Proof.
  unfold record. destruct (negb _); [done |].
  destruct (_ && _); [| done]. by destruct (undoStack s).
Qed.

Lemma in_store_record c s k :
  in_store k (record c s) -> in_store k s \/ k ∈ change_ids c.
Proof.
  unfold record. destruct (negb _); [by left |].
  unfold in_store.
  destruct (_ && _).
  - destruct (undoStack s) as [|step rest] eqn:Hst; simpl.
    + intros [H|(st & c' & Hin & Hc & Hk)]; [by left; left |].
      apply list_elem_of_singleton in Hin as ->.
      apply list_elem_of_singleton in Hc as ->. by right.
    + intros [H|(st & c' & Hin & Hc & Hk)]; [by left; left |].
      apply elem_of_cons in Hin as [->|Hin].
      * apply elem_of_app in Hc as [Hc|Hc].
        -- left. right. exists step, c'. split; [| done].
           apply elem_of_cons. by left.
        -- apply list_elem_of_singleton in Hc as ->. by right.
      * left. right. exists st, c'. split; [| done].
        apply elem_of_cons. by right.
  - simpl. intros [H|(st & c' & Hin & Hc & Hk)]; [by left; left |].
    rewrite app_nil_r in Hin.
    apply elem_of_cons in Hin as [->|Hin].
    + apply list_elem_of_singleton in Hc as ->. by right.
    + left. right. exists st, c'. split; [| done].
      apply elem_of_app. by left.
Qed.

End Store.

Section Cache.

Import OrderedStore Coherence.

Lemma recognized_type_name ty : recognized (Some (type_name ty)) = true.
Proof. by destruct ty. Qed.

(** Creation keeps the map sound and adds one entity. *)
Lemma create_spec ty o m :
  let m' := snd (ContentFactory.create ty o m) in
  _taskOrder m' = _taskOrder m
  /\ _taskMap m' = _taskMap m
  /\ (exists e, heap m' = heap m ++ [e]
                /\ TaskModel.isDisposed e = false
                /\ forall i, ContentFactory.id o = Some i -> i <> "" ->
                             TaskModel.id e = i)
  /\ (forall k, known k m -> known k m').
Proof.
  unfold ContentFactory.create. simpl. repeat split.
  - eexists. split; [reflexivity |]. split.
    + by destruct (ContentFactory.task o).
    + intros i Hi Hne. rewrite Hi. rewrite construct_id.
      destruct (String.eqb_spec i ""); done.
  - intros k [Hc|[Hne Hrec]]; [by left |]. right. split; [done |].
    simpl. destruct (decide (type_key k = type_key
                match ContentFactory.id o with
                | Some i => if (i =? "")%string then uuid (uuids m) else i
                | None => uuid (uuids m)
                end)) as [->|Hk].
    + rewrite lookup_insert_eq. apply recognized_type_name.
    + by rewrite lookup_insert_ne.
Qed.

Lemma sound_heap_app m h e :
  sound m ->
  sound (MkModel h (_taskMap m) (heap m ++ [e]) (modelDB m) (uuids m)).
Proof.
  intros Hs k v Hk. destruct (Hs k v Hk) as (l & e' & -> & Hl & Hid & Hd).
  exists l, e'. repeat split; try done. simpl.
  rewrite lookup_app_l; [done |]. by eapply lookup_lt_Some.
Qed.

Lemma create_sound ty o m :
  sound m -> sound (snd (ContentFactory.create ty o m)).
Proof.
  intros Hs k v Hk. unfold ContentFactory.create in *. simpl in *.
  destruct (Hs k v Hk) as (l & e' & -> & Hl & Hid & Hd).
  exists l, e'. repeat split; try done.
  rewrite lookup_app_l; [done |]. by eapply lookup_lt_Some.
Qed.

(** An id that is known gets an entity, and nothing else changes for
    the ids that have one. *)
Lemma materialize_spec i m :
  sound m -> known i m ->
  let m' := TaskList.materialize i m in
  sound m' /\ cached i m'
  /\ (forall k, cached k m -> cached k m')
  /\ (forall k, known k m -> known k m')
  /\ _taskOrder m' = _taskOrder m.
Proof.
  intros Hs Hk. unfold TaskList.materialize, TaskList.has.
  destruct (_taskMap m !! i) as [v|] eqn:Hi.
  { repeat split; try done.
    destruct (Hs i v Hi) as (l & e & -> & _). by exists l. }
  destruct Hk as [[l Hl]|[Hne Hrec]]; [congruence |].
  unfold recognized in Hrec.
  destruct (modelDB m !! type_key i) as [s|] eqn:Hmk; [| done].
  assert (Hnonempty : (i =? "")%string = false) by (by apply String.eqb_neq).
  assert (Hgoal : forall ty,
    let r := ContentFactory.create ty (ContentFactory.Options None (Some i)) m in
    let m' := with_map (<[i := Some (fst r)]> (_taskMap (snd r))) (snd r) in
    sound m' /\ cached i m' /\ (forall k, cached k m -> cached k m')
    /\ (forall k, known k m -> known k m') /\ _taskOrder m' = _taskOrder m).
  { intros ty r m'. subst r m'. unfold ContentFactory.create. simpl.
    rewrite Hnonempty. repeat split.
    - intros k v. simpl. destruct (decide (k = i)) as [->|Hki].
      + rewrite lookup_insert_eq. intros [= <-].
        eexists _, _. split; [reflexivity |].
        rewrite lookup_app_r by lia. rewrite Nat.sub_diag. simpl.
        split; [reflexivity |]. done.
      + rewrite lookup_insert_ne by done. intros Hkv.
        destruct (Hs k v Hkv) as (l & e' & -> & Hl & Hid & Hd).
        exists l, e'. repeat split; try done.
        rewrite lookup_app_l; [done |]. by eapply lookup_lt_Some.
    - eexists. simpl. by rewrite lookup_insert_eq.
    - intros k [l Hl]. unfold cached. simpl.
      destruct (decide (k = i)) as [->|Hki]; [congruence |].
      rewrite lookup_insert_ne by done. eauto.
    - intros k [[l Hl]|[Hkne Hkrec]].
      + left. unfold cached. simpl.
        destruct (decide (k = i)) as [->|Hki]; [congruence |].
        rewrite lookup_insert_ne by done. eauto.
      + right. split; [done |]. simpl.
        destruct (decide (type_key k = type_key i)) as [->|Hkk].
        * rewrite lookup_insert_eq. apply recognized_type_name.
        * by rewrite lookup_insert_ne. }
  destruct (String.eqb s "Dataintegration") eqn:Hd.
  { apply (Hgoal Dataintegration). }
  destruct (String.eqb s "Notebookcell") eqn:Hn; [| done].
  apply (Hgoal Notebookcell).
Qed.

Lemma materialize_all ids m :
  sound m -> (forall i, i ∈ ids -> known i m) ->
  let m' := foldl (fun a i => TaskList.materialize i a) m ids in
  sound m' /\ (forall i, i ∈ ids -> cached i m')
  /\ (forall k, cached k m -> cached k m')
  /\ (forall k, known k m -> known k m')
  /\ _taskOrder m' = _taskOrder m.
Proof.
  revert m. induction ids as [|i ids IH]; intros m Hs Hk; simpl.
  { repeat split; try done. by intros i ?%elem_of_nil. }
  destruct (materialize_spec i m Hs) as (Hs1 & Hc1 & Hmono1 & Hkn1 & Ho1).
  { apply Hk. by left. }
  destruct (IH (TaskList.materialize i m) Hs1) as (Hs2 & Hc2 & Hmono2 & Hkn2 & Ho2).
  { intros j Hj. apply Hkn1, Hk. by right. }
  repeat split; try done.
  - intros j [->|Hj]%elem_of_cons; [by apply Hmono2 | by apply Hc2].
  - intros k Hkc. by apply Hmono2, Hmono1.
  - intros k Hkc. by apply Hkn2, Hkn1.
  - by rewrite Ho2.
Qed.

End Cache.

Section Edits.

Import OrderedStore Coherence.

Context {L : Type}.
Variable changed : IChangedArgs (option loc) -> Model -> L -> L.

(** Coherence only reads the order, the history, the map and the
    entities. *)
Lemma coherent_same m m' :
  items (_taskOrder m') = items (_taskOrder m) ->
  undoStack (_taskOrder m') = undoStack (_taskOrder m) ->
  redoStack (_taskOrder m') = redoStack (_taskOrder m) ->
  _taskMap m' = _taskMap m ->
  heap m' = heap m ->
  coherent m -> coherent m'.
Proof.
  intros Hi Hu Hr Hm Hh [Hs Hc]. split.
  - intros k v. rewrite Hm, Hh. apply Hs.
  - intros k Hk. unfold cached. rewrite Hm. apply Hc.
    unfold in_store in *. by rewrite Hi, Hu, Hr in Hk.
Qed.

Lemma onOrderChanged_model c m x :
  fst (TaskList._onOrderChanged changed c (m, x))
  = foldl (fun a i => TaskList.materialize i a) m (brought c).
Proof.
  unfold TaskList._onOrderChanged, brought. simpl. by destruct (type c).
Qed.

(** An edit whose ids are known keeps the list coherent. *)
Lemma edit_coherent e m x :
  coherent m ->
  (forall i, i ∈ edit_ids e -> known i m) ->
  let m' := fst (TaskList.edit changed e (m, x)) in
  coherent m'
  /\ (forall k, cached k m -> cached k m')
  /\ (forall k, known k m -> known k m').
Proof.
  intros [Hs Hc] Hk. unfold TaskList.edit. cbn [fst snd].
  destruct (apply e (items (_taskOrder m))) as [l' [c|]] eqn:Happ;
    cbn [fst snd].
  2:{ repeat split; done. }
  rewrite onOrderChanged_model.
  destruct (apply_ids _ _ _ _ Happ) as [Hids Hbrought].
  set (m0 := with_order _ m).
  destruct (materialize_all (brought c) m0) as (Hs1 & Hc1 & Hmono & Hkn & Ho).
  { done. }
  { intros i Hi. apply Hk. by apply Hbrought. }
  repeat split; try done.
  intros k Hin. rewrite Ho in Hin. subst m0. simpl in Hin.
  apply in_store_record in Hin as [Hin|Hin].
  - destruct Hin as [Hin|Hin].
    + simpl in Hin. destruct (Hids k) as [H|H]; [by left | |].
      * apply Hmono, Hc. by left.
      * by apply Hc1.
    + apply Hmono, Hc. by right.
  - destruct (Hids k) as [H|H]; [by right | |].
    + apply Hmono, Hc. by left.
    + by apply Hc1.
Qed.

Lemma edits_coherent es m x :
  coherent m ->
  (forall e i, e ∈ es -> i ∈ edit_ids e -> cached i m) ->
  let m' := fst (TaskList.edits changed es (m, x)) in
  coherent m' /\ (forall k, cached k m -> cached k m').
Proof.
  revert m x. induction es as [|e es IH]; intros m x Hco Hk; simpl.
  { done. }
  destruct (edit_coherent e m x Hco) as (Hco1 & Hmono1 & _).
  { intros i Hi. left. eapply Hk; [by left | done]. }
  destruct (TaskList.edit changed e (m, x)) as [m1 x1] eqn:He. simpl in *.
  destruct (IH m1 x1 Hco1) as [Hco2 Hmono2].
  { intros e' i He' Hi. apply Hmono1. eapply Hk; [by right | done]. }
  unfold TaskList.edits in *. split; [done |].
  intros k Hkc. by apply Hmono2, Hmono1.
Qed.

(** With the history switched off an edit leaves the history alone. *)
Lemma edit_frozen e m x :
  isUndoable (_taskOrder m) = false ->
  let m' := fst (TaskList.edit changed e (m, x)) in
  isUndoable (_taskOrder m') = false
  /\ undoStack (_taskOrder m') = undoStack (_taskOrder m)
  /\ redoStack (_taskOrder m') = redoStack (_taskOrder m).
Proof.
  intros Hu. unfold TaskList.edit. cbn [fst snd].
  destruct (apply e (items (_taskOrder m))) as [l' [c|]] eqn:Happ;
    cbn [fst snd]; [| done].
  rewrite onOrderChanged_model.
  assert (Ho : forall ids m0,
            _taskOrder (foldl (fun a i => TaskList.materialize i a) m0 ids)
            = _taskOrder m0).
  { clear. induction ids as [|i ids IH]; intros m0; simpl; [done |].
    rewrite IH. unfold TaskList.materialize.
    destruct (TaskList.has i m0); [done |].
    destruct (modelDB m0 !! type_key i) as [s|]; [| done].
    destruct (String.eqb s "Dataintegration"); [done |].
    by destruct (String.eqb s "Notebookcell"). }
  rewrite Ho. simpl. unfold record. simpl. rewrite Hu. simpl. done.
Qed.

Lemma edits_frozen es m x :
  isUndoable (_taskOrder m) = false ->
  let m' := fst (TaskList.edits changed es (m, x)) in
  isUndoable (_taskOrder m') = false
  /\ undoStack (_taskOrder m') = undoStack (_taskOrder m)
  /\ redoStack (_taskOrder m') = redoStack (_taskOrder m).
Proof.
  revert m x. induction es as [|e es IH]; intros m x Hu; simpl; [done |].
  destruct (edit_frozen e m x Hu) as (Hu1 & Hs1 & Hr1).
  destruct (TaskList.edit changed e (m, x)) as [m1 x1]. simpl in *.
  destruct (IH m1 x1 Hu1) as (Hu2 & Hs2 & Hr2).
  unfold TaskList.edits in *. by rewrite Hs2, Hr2.
Qed.

(** A replay of edits that carry cached ids keeps the list coherent and
    the history as it was. *)
Lemma replay_coherent es m x :
  coherent m ->
  (forall e i, e ∈ es -> i ∈ edit_ids e -> cached i m) ->
  let m' := fst (TaskList.replay changed es (m, x)) in
  coherent m'
  /\ undoStack (_taskOrder m') = undoStack (_taskOrder m)
  /\ redoStack (_taskOrder m') = redoStack (_taskOrder m).
Proof.
  intros Hco Hk. unfold TaskList.replay. simpl.
  set (m0 := with_order (with_undoable false (_taskOrder m)) m).
  assert (Hco0 : coherent m0) by (by apply (coherent_same m)).
  destruct (edits_coherent es m0 x Hco0) as [Hco1 _].
  { intros e i He Hi. destruct (Hk e i He Hi) as [l Hl]. by exists l. }
  destruct (edits_frozen es m0 x) as (_ & Hs1 & Hr1); [done |].
  split; [| by split].
  by apply (coherent_same (fst (TaskList.edits changed es (m0, x)))).
Qed.

Lemma undoPlan_ids step e i :
  e ∈ undoPlan step -> i ∈ edit_ids e ->
  exists c, c ∈ step /\ i ∈ change_ids c.
Proof.
  unfold undoPlan. intros He Hi.
  apply list_elem_of_In, in_concat in He as (es & Hes & He).
  apply list_elem_of_In, list_elem_of_fmap in Hes as (c & -> & Hc).
  rewrite elem_of_reverse in Hc. exists c. split; [done |].
  apply list_elem_of_In in He. unfold undoChange, change_ids in *.
  destruct (type c).
  - apply list_elem_of_fmap in He as (? & -> & _). by apply elem_of_nil in Hi.
  - apply list_elem_of_fmap in He as ([z v] & -> & Hv). simpl in Hi.
    apply list_elem_of_singleton in Hi as ->. apply elem_of_app. left.
    clear -Hv. revert Hv. generalize (oldIndex c).
    induction (oldValues c) as [|v' vs IH]; intros z0; simpl.
    + by intros ?%elem_of_nil.
    + intros [[= _ ->]|H]%elem_of_cons; [by left |]. right. eauto.
  - apply list_elem_of_fmap in He as ([z v] & -> & Hv). simpl in Hi.
    apply list_elem_of_singleton in Hi as ->. apply elem_of_app. left.
    clear -Hv. revert Hv. generalize (oldIndex c).
    induction (oldValues c) as [|v' vs IH]; intros z0; simpl.
    + by intros ?%elem_of_nil.
    + intros [[= _ ->]|H]%elem_of_cons; [by left |]. right. eauto.
  - apply list_elem_of_singleton in He as ->. by apply elem_of_nil in Hi.
Qed.

Lemma redoPlan_ids step e i :
  e ∈ redoPlan step -> i ∈ edit_ids e ->
  exists c, c ∈ step /\ i ∈ change_ids c.
Proof.
  unfold redoPlan. intros He Hi.
  apply list_elem_of_In, in_concat in He as (es & Hes & He).
  apply list_elem_of_In, list_elem_of_fmap in Hes as (c & -> & Hc).
  exists c. split; [done |].
  apply list_elem_of_In in He. unfold redoChange, change_ids in *.
  destruct (type c).
  - apply list_elem_of_fmap in He as ([z v] & -> & Hv). simpl in Hi.
    apply list_elem_of_singleton in Hi as ->. apply elem_of_app. right.
    clear -Hv. revert Hv. generalize (newIndex c).
    induction (newValues c) as [|v' vs IH]; intros z0; simpl.
    + by intros ?%elem_of_nil.
    + intros [[= _ ->]|H]%elem_of_cons; [by left |]. right. eauto.
  - apply list_elem_of_fmap in He as (? & -> & _). by apply elem_of_nil in Hi.
  - apply list_elem_of_fmap in He as ([z v] & -> & Hv). simpl in Hi.
    apply list_elem_of_singleton in Hi as ->. apply elem_of_app. right.
    clear -Hv. revert Hv. generalize (newIndex c).
    induction (newValues c) as [|v' vs IH]; intros z0; simpl.
    + by intros ?%elem_of_nil.
    + intros [[= _ ->]|H]%elem_of_cons; [by left |]. right. eauto.
  - apply list_elem_of_singleton in He as ->. by apply elem_of_nil in Hi.
Qed.

End Edits.

Section Reachable.

Import OrderedStore Coherence.

Context {L : Type}.
Variable changed : IChangedArgs (option loc) -> Model -> L -> L.

Lemma edit_keeps_coherent e st :
  coherent (fst st) ->
  (forall i, i ∈ edit_ids e -> known i (fst st)) ->
  coherent (fst (TaskList.edit changed e st)).
Proof.
  destruct st as [m x]. intros Hco Hk.
  by destruct (edit_coherent changed e m x Hco Hk) as [? _].
Qed.

(** [_taskMap.set(task.id, task)] for a live entity. *)
Lemma cache_coherent l m :
  coherent m -> live l m ->
  exists i m', TaskList.cache l m = Some (i, m')
               /\ coherent m' /\ cached i m'.
Proof.
  intros [Hs Hc] (e & He & Hd). unfold TaskList.cache. rewrite He.
  eexists _, _. split; [reflexivity |]. split; [split |].
  - intros k v. simpl. destruct (decide (k = TaskModel.id e)) as [->|Hk].
    + rewrite lookup_insert_eq. intros [= <-]. by exists l, e.
    + rewrite lookup_insert_ne by done. apply Hs.
  - intros k Hk. unfold cached. simpl.
    destruct (decide (k = TaskModel.id e)) as [->|Hne].
    + rewrite lookup_insert_eq. eauto.
    + rewrite lookup_insert_ne by done. by apply Hc.
  - unfold cached. simpl. rewrite lookup_insert_eq. eauto.
Qed.

Lemma cached_edit_coherent (f : Z -> string -> Edit) z l st :
  (forall i, edit_ids (f z i) = [i]) ->
  coherent (fst st) -> live l (fst st) ->
  coherent
    (fst match TaskList.cache l (fst st) with
         | Some (i, m) => TaskList.edit changed (f z i) (m, snd st)
         | None => st
         end).
Proof.
  intros Hf Hco Hl.
  destruct (cache_coherent l (fst st) Hco Hl) as (i & m' & -> & Hco' & Hc).
  apply (edit_keeps_coherent _ (m', snd st)); [done |].
  intros k. rewrite Hf. intros ->%list_elem_of_singleton. by left.
Qed.

Lemma undo_coherent st :
  coherent (fst st) -> coherent (fst (TaskList.undo changed st)).
Proof.
  intros Hco. unfold TaskList.undo.
  destruct (undoStack (_taskOrder (fst st))) as [|step rest] eqn:Hst; [done |].
  cbv zeta. cbn [fst snd].
  destruct st as [m x]. cbn [fst snd] in *.
  destruct (replay_coherent changed (undoPlan step) m x Hco) as ([Hs1 Hc1] & Hu & Hr).
  { intros e i He Hi. destruct (undoPlan_ids _ _ _ He Hi) as (c & Hc & Hic).
    apply Hco. right. exists step, c. split; [| done].
    rewrite Hst, !elem_of_app, !elem_of_cons. tauto. }
  set (m1 := fst (TaskList.replay changed (undoPlan step) (m, x))) in *.
  clearbody m1. split; [done |].
  intros k Hk. apply Hc1. unfold in_store in *.
  cbn [_taskOrder with_order items undoStack redoStack] in Hk.
  destruct Hk as [Hk|(st' & c & Hin & Hc & Hkc)]; [by left |].
  right. exists st', c. split; [| done].
  rewrite Hu, Hr, Hst. rewrite ?Hu, ?Hr in Hin.
  rewrite !elem_of_app, !elem_of_cons in Hin |- *. tauto.
Qed.

Lemma redo_coherent st :
  coherent (fst st) -> coherent (fst (TaskList.redo changed st)).
Proof.
  intros Hco. unfold TaskList.redo.
  destruct (redoStack (_taskOrder (fst st))) as [|step rest] eqn:Hst; [done |].
  cbv zeta. cbn [fst snd].
  destruct st as [m x]. cbn [fst snd] in *.
  destruct (replay_coherent changed (redoPlan step) m x Hco) as ([Hs1 Hc1] & Hu & Hr).
  { intros e i He Hi. destruct (redoPlan_ids _ _ _ He Hi) as (c & Hc & Hic).
    apply Hco. right. exists step, c. split; [| done].
    rewrite Hst, !elem_of_app, !elem_of_cons. tauto. }
  set (m1 := fst (TaskList.replay changed (redoPlan step) (m, x))) in *.
  clearbody m1. split; [done |].
  intros k Hk. apply Hc1. unfold in_store in *.
  cbn [_taskOrder with_order items undoStack redoStack] in Hk.
  destruct Hk as [Hk|(st' & c & Hin & Hc & Hkc)]; [by left |].
  right. exists st', c. split; [| done].
  rewrite Hu, Hr, Hst. rewrite ?Hu, ?Hr in Hin.
  rewrite !elem_of_app, !elem_of_cons in Hin |- *. tauto.
Qed.

Lemma dispose_others (ls : list loc) (h : list TaskModel.t) l :
  l ∉ ls ->
  foldr (fun l h => alter TaskModel.dispose l h) h ls !! l = h !! l.
Proof.
  induction ls as [|l' ls IH]; simpl; [done |].
  intros Hn. apply not_elem_of_cons in Hn as [Hne Hn].
  rewrite list_lookup_alter_ne by done. by apply IH.
Qed.

(** [clearUndo] disposes no entity of an id in the order. *)
Lemma clearUndo_coherent m : coherent m -> coherent (TaskList.clearUndo m).
Proof.
  intros [Hs Hc]. split.
  - intros k v. unfold TaskList.clearUndo. simpl.
    intros [Hkv Hin]%map_lookup_filter_Some. simpl in Hin.
    destruct (Hs k v Hkv) as (l & e & -> & Hl & Hid & Hd).
    exists l, e. repeat split; try done.
    rewrite dispose_others; [done |].
    intros Hgone. apply list_elem_of_omap in Hgone as (v' & Hv' & Hvl).
    simpl in Hvl. subst v'.
    apply list_elem_of_fmap in Hv' as ([k' v'] & Heq & Hkv').
    simpl in Heq. subst v'.
    apply elem_of_map_to_list in Hkv'.
    unfold TaskList.stale in Hkv'.
    apply map_lookup_filter_Some in Hkv' as [Hk' Hnot]. simpl in Hnot.
    destruct (Hs k' _ Hk') as (l' & e' & [= <-] & Hl' & Hid' & _).
    assert (e' = e) as -> by congruence. congruence.
  - intros k Hk. unfold in_store, TaskList.clearUndo in Hk. simpl in Hk.
    destruct Hk as [Hk|(st' & c & Hin & _)]; [| by apply elem_of_nil in Hin].
    destruct (Hc k) as [l Hl]; [by left |].
    exists l. unfold TaskList.clearUndo. simpl.
    apply map_lookup_filter_Some. done.
Qed.

Lemma step_coherent st st' :
  step changed st st' -> coherent (fst st) -> coherent (fst st').
Proof.
  intros Hstep Hco. destruct Hstep; cbn [fst].
  - (* create *)
    destruct Hco as [Hs Hc]. split; [by apply create_sound |].
    destruct (create_spec ty o (fst st)) as (Ho & Hm & _).
    intros k Hk. rewrite Ho in Hk. destruct (Hc k Hk) as [l Hl].
    exists l. by rewrite Hm.
  - apply (cached_edit_coherent (fun z v => SetAt z v)); done.
  - apply (cached_edit_coherent (fun _ v => Push v) 0); done.
  - apply (cached_edit_coherent (fun z v => Insert z v)); done.
  - apply edit_keeps_coherent; [done |]. by intros k ?%elem_of_nil.
  - apply edit_keeps_coherent; [done |]. by intros k ?%elem_of_nil.
  - apply edit_keeps_coherent; [done |]. by intros k ?%elem_of_nil.
  - apply (coherent_same (fst st)); try done;
      unfold TaskList.beginCompoundOperation,
        OrderedStore.beginCompoundOperation;
      cbn [fst _taskOrder with_order];
      by destruct (depth (_taskOrder (fst st))).
  - apply (coherent_same (fst st)); try done;
      unfold TaskList.endCompoundOperation,
        OrderedStore.endCompoundOperation;
      cbn [fst _taskOrder with_order];
      by destruct (depth (_taskOrder (fst st))) as [|[|n]].
  - by apply undo_coherent.
  - by apply redo_coherent.
  - by apply clearUndo_coherent.
  - by apply (coherent_same (fst st)).
  - by apply edit_keeps_coherent.
Qed.

Lemma empty_coherent : coherent empty_model.
Proof.
  split.
  - intros k v Hk. cbn in Hk. by rewrite lookup_empty in Hk.
  - intros k [Hk|(st & c & Hin & _)]; by apply elem_of_nil in Hk || apply elem_of_nil in Hin.
Qed.

Lemma reachable_coherent st : reachable changed st -> coherent (fst st).
Proof.
  induction 1 as [x|st st' _ IH Hstep].
  - apply empty_coherent.
  - by eapply step_coherent.
Qed.


End Reachable.



(** * Task entities and their serialization *)

Section Objects.

Lemma obj_delete_absent (k : string) (o : list (string * JSONValue)) :
  obj_get k o = None -> obj_delete k o = o.
Proof.
  induction o as [|[k' v'] o IH]; simpl; [done |].
  destruct (String.eqb k k'); [done |]. intros H. by rewrite IH.
Qed.

Lemma obj_delete_set (k : string) (v : JSONValue) (o : list (string * JSONValue)) :
  obj_get k o = None -> obj_delete k (obj_set k v o) = o.
Proof.
  induction o as [|[k' v'] o IH]; simpl.
  - by rewrite String.eqb_refl.
  - destruct (String.eqb k k') eqn:Hk; [done |]. intros H. simpl.
    by rewrite Hk, IH.
Qed.


End Objects.

Lemma clone_content (e : TaskModel.t) (ty : TaskType) (i : string) :
  obj_get "trusted" (TaskModel.metadata e) = None ->
  TaskModel.construct ty (Some (TaskModel.toJSON e)) i
  = TaskModel.Build i ty (TaskModel.text e) (TaskModel.trusted e)
                    (TaskModel.metadata e) None [] false.
Proof.
  intros Hmd. unfold TaskModel.construct, TaskModel.toJSON.
  destruct (TaskModel.type e), (TaskModel.trusted e) eqn:Ht, ty; simpl;
    unfold TaskModel.record_metadata; simpl;
    rewrite ?obj_get_set_eq, ?Hmd, ?obj_delete_set, ?obj_delete_absent by done;
    done.
Qed.

(** An entity built from the serialization of another one (as
    [cloneTask], [changeTaskType] and [fromJSON] do) has the text, the
    trust flag and the metadata of the original, whatever the two types
    are, and starts without execution count and without outputs: the
    constructor of an executable task takes them from the record only
    when its [Task_type] is ['code'], a property [toJSON] never writes.
    The metadata of the original must not have a [trusted] entry of its
    own, which holds for every entity that a constructor built. *)
Theorem clone_keeps_content_and_drops_results
  (e : TaskModel.t) (ty : TaskType) (i : string) :
  obj_get "trusted" (TaskModel.metadata e) = None ->
  TaskModel.construct ty (Some (TaskModel.toJSON e)) i
  = TaskModel.Build i ty (TaskModel.text e) (TaskModel.trusted e)
                    (TaskModel.metadata e) None [] false.
Proof. apply clone_content. Qed.

Lemma clone_keeps_content_and_drops_results_witness :
  TaskModel.construct Notebookcell
    (Some (TaskModel.toJSON
             (TaskModel.Build "t1" Dataintegration "x = 1" true
                              [("name", JString "first")] (Some 3)
                              [JString "1"] false))) "t2"
  = TaskModel.Build "t2" Notebookcell "x = 1" true
                    [("name", JString "first")] None [] false.
Proof.
  apply (clone_keeps_content_and_drops_results
           (TaskModel.Build "t1" Dataintegration "x = 1" true
                            [("name", JString "first")] (Some 3)
                            [JString "1"] false) Notebookcell "t2").
  reflexivity.
Defined.


(** * The header of a text task *)

Section Headers.

Lemma drop_spaces_idem s : drop_spaces (drop_spaces s) = drop_spaces s.
Proof.
  induction s as [|c s IH]; simpl; [done |].
  destruct (is_space c) eqn:Hc; [done |]. simpl. by rewrite Hc.
Qed.

Lemma strip_header_no_space s : drop_spaces (strip_header s) = strip_header s.
Proof.
  destruct s as [|c s]; [done |]. unfold strip_header.
  destruct (Ascii.eqb c "#"); apply drop_spaces_idem.
Qed.

Lemma drop_hashes_header n s :
  drop_hashes (hashes n +:+ " " +:+ s) = " " +:+ s.
Proof. induction n as [|n IH]; simpl; done. Qed.

Lemma strip_header_header n s :
  strip_header (hashes n +:+ " " +:+ strip_header s) = strip_header s.
Proof.
  destruct n as [|n].
  - simpl. apply strip_header_no_space.
  - change (hashes (S n) +:+ " " +:+ strip_header s)
      with (String "#" (hashes n +:+ " " +:+ strip_header s)).
    unfold strip_header at 1. simpl Ascii.eqb. cbv iota.
    change (drop_hashes (String "#" (hashes n +:+ " " +:+ strip_header s)))
      with (drop_hashes (hashes n +:+ " " +:+ strip_header s)).
    rewrite drop_hashes_header. simpl. apply strip_header_no_space.
Qed.

End Headers.

(** Setting a header level on a text that already went through
    [setMarkdownHeader] replaces the header: the result is the one of
    setting the new level on the original text.  In particular setting
    the same level twice changes nothing the second time. *)
Theorem setMarkdownHeader_replaces_the_header
  (l1 l2 : nat) (e : TaskModel.t) :
  TaskbookActions.setMarkdownHeader l2 (TaskbookActions.setMarkdownHeader l1 e)
  = TaskbookActions.setMarkdownHeader l2 e.
Proof.
  unfold TaskbookActions.setMarkdownHeader, TaskModel.with_text. simpl.
  by rewrite strip_header_header.
Qed.

(** * The document model *)

Section Metadata.

Import TaskbookModel.

Lemma obj_get_set_ne (k k' : string) (v : JSONValue) (o : list (string * JSONValue)) :
  k <> k' -> obj_get k (obj_set k' v o) = obj_get k o.
Proof.
  intros Hne. induction o as [|[k0 v0] o IH]; simpl.
  - destruct (String.eqb_spec k k'); done.
  - destruct (String.eqb_spec k' k0) as [->|Hk0]; simpl.
    + destruct (String.eqb_spec k k0); done.
    + destruct (String.eqb_spec k k0); done.
Qed.

Lemma has_key_set (k k' : string) (v : JSONValue) (o : list (string * JSONValue)) :
  has_key k (obj_set k' v o) = String.eqb k k' || has_key k o.
Proof.
  unfold has_key. destruct (String.eqb_spec k k') as [->|Hne].
  - by rewrite obj_get_set_eq.
  - by rewrite obj_get_set_ne.
Qed.

Lemma ensureMetadata_has md :
  has_key "language_info" (_ensureMetadata md) = true
  /\ has_key "kernelspec" (_ensureMetadata md) = true.
Proof.
  unfold _ensureMetadata.
  destruct (has_key "language_info" md) eqn:H1.
  - destruct (has_key "kernelspec" md) eqn:H2; [done |].
    by rewrite !has_key_set, H1.
  - destruct (has_key "kernelspec" (obj_set _ _ md)) eqn:H2.
    + by rewrite has_key_set.
    + by rewrite !has_key_set.
Qed.

Lemma ensureMetadata_keeps k v md :
  obj_get k md = Some v -> obj_get k (_ensureMetadata md) = Some v.
Proof.
  intros Hk. unfold _ensureMetadata.
  assert (Hhas : has_key k md = true) by (unfold has_key; by rewrite Hk).
  assert (H1 : obj_get k
                 (if has_key "language_info" md then md
                  else obj_set "language_info" (JObject [("name", JString "")]) md)
               = Some v).
  { destruct (has_key "language_info" md) eqn:Hl; [done |].
    rewrite obj_get_set_ne; [done |]. intros ->. congruence. }
  set (md1 := if has_key "language_info" md then md else _) in *.
  destruct (has_key "kernelspec" md1) eqn:Hs; [done |].
  rewrite obj_get_set_ne; [done |]. intros ->.
  unfold has_key in Hs. by rewrite H1 in Hs.
Qed.

Lemma ensureMetadata_absent k md :
  k <> "language_info" -> k <> "kernelspec" ->
  obj_get k (_ensureMetadata md) = obj_get k md.
Proof.
  intros H1 H2. unfold _ensureMetadata.
  destruct (has_key "language_info" md), (has_key "kernelspec" _);
    by rewrite ?obj_get_set_ne.
Qed.

Lemma load_metadata_from acc incoming k :
  obj_get k (foldl (fun acc kv => if String.eqb (fst kv) "orig_nbformat" then acc
                                  else obj_set (fst kv) (snd kv) acc) acc incoming)
  = match List.find (fun kv => String.eqb k (fst kv)) (reverse incoming) with
    | Some kv => if String.eqb k "orig_nbformat" then obj_get k acc
                 else Some (snd kv)
    | None => obj_get k acc
    end.
Proof.
  revert acc. induction incoming as [|[k0 v0] l IH] using rev_ind; intros acc.
  - done.
  - rewrite foldl_app, reverse_app. simpl.
    destruct (String.eqb_spec k k0) as [->|Hne].
    + destruct (String.eqb_spec k0 "orig_nbformat") as [->|Hno].
      * rewrite IH. destruct (find _ _) as [kv|]; done.
      * by rewrite obj_get_set_eq.
    + destruct (String.eqb_spec k0 "orig_nbformat") as [->|Hno].
      * apply IH.
      * rewrite obj_get_set_ne by done. apply IH.
Qed.

Lemma find_key_unique (k : string) (v : JSONValue) (l : list (string * JSONValue)) :
  NoDup (fst <$> l) -> (k, v) ∈ l ->
  List.find (fun kv => String.eqb k (fst kv)) l = Some (k, v).
Proof.
  induction l as [|[k0 v0] l IH]; intros Hnd Hin.
  - by apply elem_of_nil in Hin.
  - simpl in *. apply NoDup_cons in Hnd as [Hk0 Hnd].
    apply elem_of_cons in Hin as [[= <- <-]|Hin].
    + by rewrite String.eqb_refl.
    + destruct (String.eqb_spec k k0) as [->|Hne]; [| by apply IH].
      exfalso. apply Hk0. apply list_elem_of_fmap. by exists (k0, v).
Qed.

End Metadata.

(** After [fromJSON(value)], whatever the model held before: the major
    version is the incoming one, the minor version is the larger of the
    incoming one and the library's, and the document is dirty; the
    metadata has [language_info] and [kernelspec], has no
    [orig_nbformat], holds every other incoming entry with its incoming
    value, and holds nothing else besides the two defaults. *)
Theorem fromJSON_settles_versions_and_metadata
  (MAJOR_VERSION MINOR_VERSION : Z) (value : TaskbookModel.Content.t)
  (st : Model * TaskbookModel.Rest) :
  NoDup (fst <$> TaskbookModel.Content.metadata value) ->
  let d := snd (TaskbookModel.fromJSON_value MAJOR_VERSION MINOR_VERSION value st) in
  TaskbookModel._nbformat d = TaskbookModel.Content.nbformat value
  /\ TaskbookModel._nbformatMinor d
     = Z.max MINOR_VERSION (TaskbookModel.Content.nbformat_minor value)
  /\ TaskbookModel.dirty d = true
  /\ TaskbookModel.has_key "language_info" (TaskbookModel.metadata d) = true
  /\ TaskbookModel.has_key "kernelspec" (TaskbookModel.metadata d) = true
  /\ obj_get "orig_nbformat" (TaskbookModel.metadata d) = None
  /\ (forall k v, (k, v) ∈ TaskbookModel.Content.metadata value ->
        k <> "orig_nbformat" ->
        obj_get k (TaskbookModel.metadata d) = Some v)
  /\ (forall k, k <> "language_info" -> k <> "kernelspec" ->
        obj_get k (TaskbookModel.Content.metadata value) = None ->
        obj_get k (TaskbookModel.metadata d) = None).
Proof.
  intros Hnd d. subst d. unfold TaskbookModel.fromJSON_value. simpl.
  split. { destruct (Z.eqb_spec (TaskbookModel.Content.nbformat value) MAJOR_VERSION); done. }
  split. { destruct (Z.ltb_spec MINOR_VERSION (TaskbookModel.Content.nbformat_minor value)); lia. }
  split; [done |].
  destruct (ensureMetadata_has
              (TaskbookModel.load_metadata (TaskbookModel.Content.metadata value)))
    as [Hl Hk].
  split; [done |]. split; [done |].
  split.
  { rewrite ensureMetadata_absent by done.
    unfold TaskbookModel.load_metadata. rewrite load_metadata_from.
    destruct (find _ _); done. }
  split.
  { intros k v Hin Hk0. apply ensureMetadata_keeps.
    unfold TaskbookModel.load_metadata. rewrite load_metadata_from.
    rewrite (find_key_unique k v).
    - destruct (String.eqb_spec k "orig_nbformat"); done.
    - by rewrite fmap_reverse, reverse_Permutation.
    - by apply elem_of_reverse. }
  intros k H1 H2 Hk0. rewrite ensureMetadata_absent by done.
  unfold TaskbookModel.load_metadata. rewrite load_metadata_from.
  destruct (find _ _) as [[k' v']|] eqn:Hf; [| done].
  apply find_some in Hf as [Hin Heq]. simpl in Heq.
  apply String.eqb_eq in Heq as <-.
  exfalso. apply list_elem_of_In in Hin. rewrite elem_of_reverse in Hin.
  clear -Hin Hk0. induction (TaskbookModel.Content.metadata value) as [|[k0 v0] l IH].
  - by apply elem_of_nil in Hin.
  - simpl in Hk0. destruct (String.eqb_spec k k0) as [->|Hne]; [done |].
    apply elem_of_cons in Hin as [[= -> ->]|Hin]; [done | by apply IH].
Qed.

Lemma fromJSON_settles_versions_and_metadata_witness :
  let value := TaskbookModel.Content.Build
                 [("orig_nbformat", JNumber 3); ("title", JString "t")] 0 3 [] in
  let d := snd (TaskbookModel.fromJSON_value 4 2 value
                  (empty_model, TaskbookModel.create 4 2 "python")) in
  TaskbookModel._nbformat d = 3
  /\ TaskbookModel._nbformatMinor d = 2
  /\ obj_get "orig_nbformat" (TaskbookModel.metadata d) = None
  /\ obj_get "title" (TaskbookModel.metadata d) = Some (JString "t").
Proof.
  intros value d.
  destruct (fromJSON_settles_versions_and_metadata 4 2 value
              (empty_model, TaskbookModel.create 4 2 "python"))
    as (H1 & H2 & _ & _ & _ & H3 & H4 & _).
  { apply (bool_decide_unpack _). vm_compute. exact I. }
  split; [exact H1 |]. split; [exact H2 |]. split; [exact H3 |].
  apply H4; [| done]. vm_compute. apply list_elem_of_further, list_elem_of_here.
Defined.

(** * More on the task list *)

Section Edits1.

Import OrderedStore.

Context {L : Type}.
Variable changed : IChangedArgs (option loc) -> Model -> L -> L.

Lemma push_cached (l : loc) (e : TaskModel.t) (m : Model) (x : L) :
  heap m !! l = Some e ->
  let c := ChangedArgs Add (-1) (len (items (_taskOrder m))) [] [TaskModel.id e] in
  let m2 := MkModel
              (record c (with_items (items (_taskOrder m) ++ [TaskModel.id e])
                           (_taskOrder m)))
              (<[TaskModel.id e := Some l]> (_taskMap m)) (heap m) (modelDB m)
              (uuids m) in
  TaskList.push changed l (m, x)
  = (m2, changed (ChangedArgs Add (-1) (len (items (_taskOrder m))) []
                              [Some l]) m2 x).
Proof.
  intros He c m2. unfold TaskList.push, TaskList.cache. simpl. rewrite He.
  unfold TaskList.edit. simpl.
  unfold TaskList._onOrderChanged. simpl.
  rewrite materialize_cached.
  2:{ unfold TaskList.has. simpl. by rewrite lookup_insert_eq. }
  f_equal. f_equal. f_equal.
  unfold TaskList.map_get. simpl. by rewrite lookup_insert_eq.
Qed.

Lemma remove_at (i : Z) (old : string) (m : Model) (x : L) :
  at_index (items (_taskOrder m)) i = Some old ->
  let c := ChangedArgs Remove i (-1) [old] [] in
  let m2 := with_order
              (record c (with_items (delete (Z.to_nat i) (items (_taskOrder m)))
                           (_taskOrder m))) m in
  TaskList.remove changed i (m, x)
  = (m2, changed (ChangedArgs Remove i (-1) [TaskList.map_get old m] []) m2 x).
Proof.
  intros Hold c m2. unfold TaskList.remove, TaskList.edit. simpl.
  rewrite Hold. reflexivity.
Qed.

Lemma clear_all (m : Model) (x : L) :
  let c := ChangedArgs Remove 0 0 (items (_taskOrder m)) [] in
  let m2 := with_order (record c (with_items [] (_taskOrder m))) m in
  TaskList.clear changed (m, x)
  = (m2, changed (ChangedArgs Remove 0 0
                    ((fun i => TaskList.map_get i m) <$> items (_taskOrder m)) [])
                 m2 x).
Proof. reflexivity. Qed.

Lemma move_at (i j : Z) (v : string) (m : Model) (x : L) :
  at_index (items (_taskOrder m)) i = Some v ->
  0 <= j < len (items (_taskOrder m)) -> i <> j ->
  let c := ChangedArgs Move i j [v] [v] in
  let m2 := with_order
              (record c (with_items (move_to (Z.to_nat i) (Z.to_nat j)
                                       (items (_taskOrder m)))
                           (_taskOrder m))) m in
  TaskList.move changed i j (m, x)
  = (m2, changed (ChangedArgs Move i j [TaskList.map_get v m]
                              [TaskList.map_get v m]) m2 x).
Proof.
  intros Hv Hj Hij c m2. unfold TaskList.move, TaskList.edit. simpl.
  rewrite Hv. unfold in_range.
  destruct (Z.leb_spec 0 j); [| lia].
  destruct (Z.ltb_spec j (len (items (_taskOrder m)))); [| lia].
  destruct (Z.eqb_spec i j); [lia |]. reflexivity.
Qed.

Lemma items_record c s : items (record c s) = items s.
Proof.
  unfold record. destruct (negb (isUndoable s)); [done |].
  destruct ((0 <? depth s)%nat && madeCompoundChange s); [| done].
  by destruct (undoStack s).
Qed.

End Edits1.

(** * The refill of an emptied list *)

Section Refill.

Import OrderedStore TaskbookModel.

Lemma refill_nonempty st : TaskList.length (fst st) <> 0 -> refill st = st.
Proof.
  intros H. unfold refill.
  destruct (Z.eqb_spec (TaskList.length (fst st)) 0); [done |].
  by rewrite andb_false_r.
Qed.

Lemma refill_iter_nonempty n st :
  TaskList.length (fst st) <> 0 -> Nat.iter n refill st = st.
Proof.
  intros H. induction n as [|n IH]; [done |].
  simpl. rewrite IH. by apply refill_nonempty.
Qed.

Lemma refill_empty m d :
  TaskList.length m = 0 -> isDisposed d = false ->
  let e := TaskModel.Build (uuid (uuids m)) Dataintegration "" false [] None []
                           false in
  exists m',
    refill (m, d) = (m', triggerContentChange d)
    /\ items (_taskOrder m') = [TaskModel.id e]
    /\ TaskList.get 0 m' = Some (length (heap m))
    /\ heap m' = heap m ++ [e].
Proof.
  intros Hlen Hd e. unfold refill. simpl. rewrite Hlen, Hd. simpl.
  unfold ContentFactory.createDataintegrationTask, ContentFactory.create. simpl.
  fold e.
  set (m1 := MkModel _ _ _ _ _).
  assert (He : heap m1 !! length (heap m) = Some e).
  { subst m1. simpl. by rewrite lookup_app_r, Nat.sub_diag by lia. }
  rewrite (push_cached _ _ e _ _ He).
  assert (Hitems : items (_taskOrder m) = []).
  { unfold TaskList.length, len in Hlen.
    destruct (items (_taskOrder m)); [done | simpl in Hlen; lia]. }
  eexists. split.
  - f_equal. unfold _onTasksChanged. simpl.
    unfold TaskList.length. simpl. rewrite items_record. simpl.
    rewrite Hitems. reflexivity.
  - simpl. rewrite items_record. simpl. rewrite Hitems. simpl.
    split; [done |]. split; [| done].
    unfold TaskList.get. simpl. rewrite items_record. simpl.
    unfold TaskList.map_get. simpl. by rewrite lookup_insert_eq.
Qed.

End Refill.

(** When the task list of a model that is not disposed is cleared, the
    model's slot schedules a refill; the next animation frame then leaves
    exactly one task in the list, a new executable task without text,
    however many refills were waiting; and on a list that is not empty
    the frame changes nothing but the scheduled callbacks. *)
Theorem cleared_list_is_refilled_on_next_frame
  (m : Model) (d : TaskbookModel.Rest) :
  TaskbookModel.isDisposed d = false ->
  let st1 := TaskList.clear TaskbookModel._onTasksChanged (m, d) in
  let st2 := TaskbookModel.animationFrame st1 in
  TaskList.length (fst st1) = 0
  /\ TaskbookModel.frames (snd st1) = S (TaskbookModel.frames d)
  /\ TaskList.length (fst st2) = 1
  /\ Examples.entity 0 (fst st2)
     = Some (TaskModel.Build (uuid (uuids m)) Dataintegration "" false [] None []
                             false)
  /\ TaskbookModel.frames (snd st2) = 0%nat
  /\ TaskbookModel.dirty (snd st2) = true
  /\ (forall st, TaskList.length (fst st) <> 0 ->
        fst (TaskbookModel.animationFrame st) = fst st).
Proof.
  intros Hd st1 st2.
  assert (H1 : TaskList.length (fst st1) = 0).
  { subst st1. rewrite clear_all. simpl. unfold TaskList.length. simpl.
    by rewrite items_record. }
  assert (H2 : snd st1
               = TaskbookModel.triggerContentChange (TaskbookModel.schedule d)).
  { subst st1. rewrite clear_all. cbn [snd].
    unfold TaskbookModel._onTasksChanged. cbn [OrderedStore.type].
    unfold TaskList.length. simpl. by rewrite items_record. }
  split; [done |]. split; [by rewrite H2 |].
  assert (Hlast : forall st, TaskList.length (fst st) <> 0 ->
            fst (TaskbookModel.animationFrame st) = fst st).
  { intros st Hne. unfold TaskbookModel.animationFrame.
    by rewrite refill_iter_nonempty. }
  subst st2. unfold TaskbookModel.animationFrame.
  rewrite H2. cbn [TaskbookModel.frames TaskbookModel.triggerContentChange
                    TaskbookModel.schedule].
  rewrite Nat.iter_succ_r.
  set (d0 := TaskbookModel.MkRest _ _ _ _ _ _).
  destruct (refill_empty (fst st1) d0 H1) as (m' & Hr & Hitems & Hget & Hheap).
  { subst d0. simpl. exact Hd. }
  rewrite Hr. rewrite refill_iter_nonempty.
  2:{ simpl. unfold TaskList.length. rewrite Hitems. done. }
  simpl. split. { unfold TaskList.length. by rewrite Hitems. }
  split.
  { unfold Examples.entity. rewrite Hget, Hheap.
    rewrite lookup_app_r, Nat.sub_diag by lia. reflexivity. }
  done.
Qed.

Lemma cleared_list_is_refilled_on_next_frame_witness :
  let st := TaskList.clear TaskbookModel._onTasksChanged
              (Examples.model_of Examples.abc, TaskbookModel.create 4 2 "") in
  TaskList.length (fst (TaskbookModel.animationFrame st)) = 1.
Proof.
  intros st.
  destruct (cleared_list_is_refilled_on_next_frame
              (Examples.model_of Examples.abc) (TaskbookModel.create 4 2 "")
              eq_refl) as (_ & _ & H & _).
  exact H.
Defined.

(** * Saving and loading the tasks *)

Section RoundTrip.

Import OrderedStore.

Context {L : Type}.
Variable changed : IChangedArgs (option loc) -> Model -> L -> L.

Lemma create_fresh (ty : TaskType) (task : option JSONValue) (m : Model) :
  ContentFactory.create ty (ContentFactory.Options task None) m
  = (length (heap m),
     MkModel (_taskOrder m) (_taskMap m)
             (heap m ++ [TaskModel.construct ty task (uuid (uuids m))])
             (<[type_key (uuid (uuids m)) := type_name ty]> (modelDB m))
             (S (uuids m))).
Proof. reflexivity. Qed.

Lemma fromJSON_create_toJSON (es : list TaskModel.t) (m : Model) :
  Forall (fun e => obj_get "trusted" (TaskModel.metadata e) = None) es ->
  let r := TaskbookModel.fromJSON_create (TaskModel.toJSON <$> es) m in
  fst r = seq (length (heap m)) (length es)
  /\ heap (snd r) = heap m ++ imap (fun j e => loaded_copy (uuids m + j) e) es
  /\ _taskOrder (snd r) = _taskOrder m
  /\ _taskMap (snd r) = _taskMap m.
Proof.
  revert m. induction es as [|e es IH]; intros m Hes; simpl.
  - by rewrite app_nil_r.
  - apply Forall_cons in Hes as [He Hes].
    assert (Hty : prop "task_type" (TaskModel.toJSON e)
                  = Some (JString (type_name (TaskModel.type e)))).
    { unfold TaskModel.toJSON. by destruct (TaskModel.type e). }
    rewrite Hty.
    assert (Hmade :
      (if String.eqb (type_name (TaskModel.type e)) "Dataintegration"
       then Some (ContentFactory.createDataintegrationTask
                    (ContentFactory.Options (Some (TaskModel.toJSON e)) None) m)
       else if String.eqb (type_name (TaskModel.type e)) "Notebookcell"
            then Some (ContentFactory.createNotebookcellTask
                         (ContentFactory.Options (Some (TaskModel.toJSON e)) None) m)
            else None)
      = Some (ContentFactory.create (TaskModel.type e)
                (ContentFactory.Options (Some (TaskModel.toJSON e)) None) m)).
    { by destruct (TaskModel.type e). }
    rewrite Hmade. clear Hmade Hty.
    rewrite create_fresh.
    rewrite (clone_content e (TaskModel.type e) (uuid (uuids m)) He).
    set (m1 := MkModel _ _ _ _ _).
    destruct (IH m1 Hes) as (H1 & H2 & H3 & H4).
    cbn [fst snd].
    change (list_fmap TaskModel.t JSONValue TaskModel.toJSON es)
      with (TaskModel.toJSON <$> es).
    rewrite H1, H2, H3, H4. subst m1.
    cbn [heap _taskOrder _taskMap uuids].
    rewrite length_app. simpl.
    replace (length (heap m) + 1)%nat with (S (length (heap m))) by lia.
    split; [done |]. split; [| done].
    rewrite <- app_assoc. simpl. f_equal. f_equal.
    + unfold loaded_copy. by rewrite Nat.add_0_r.
    + apply imap_ext. intros j e' _. simpl. f_equal. lia.
Qed.

(** Pushing entities that are in the store, one after the other. *)
Lemma pushAll_spec (ls : list loc) (es : list TaskModel.t) (m : Model) (x : L) :
  Forall2 (fun l e => heap m !! l = Some e) ls es ->
  let m' := fst (TaskList.pushAll changed ls (m, x)) in
  items (_taskOrder m') = items (_taskOrder m) ++ (TaskModel.id <$> es)
  /\ heap m' = heap m
  /\ (forall k, k ∉ TaskModel.id <$> es -> _taskMap m' !! k = _taskMap m !! k)
  /\ (NoDup (TaskModel.id <$> es) ->
      forall l e, (l, e) ∈ zip ls es ->
                  TaskList.map_get (TaskModel.id e) m' = Some l)
  /\ depth (_taskOrder m') = depth (_taskOrder m)
  /\ (depth (_taskOrder m) = 1%nat -> isUndoable (_taskOrder m) = true ->
      madeCompoundChange (_taskOrder m) = true ->
      undoStack (_taskOrder m) <> [] ->
      length (undoStack (_taskOrder m')) = length (undoStack (_taskOrder m))).
Proof.
  intros Hls. revert es m x Hls.
  induction ls as [|l ls IH]; intros es m x Hls.
  - apply Forall2_nil_inv_l in Hls as ->. simpl. rewrite app_nil_r.
    repeat split; try done. intros _ l e Hin. by apply elem_of_nil in Hin.
  - apply Forall2_cons_inv_l in Hls as (e & es' & He & Hls & ->).
    cbn [TaskList.pushAll foldl].
    rewrite (push_cached changed l e m x He).
    set (m1 := MkModel _ _ _ _ _). set (x1 := changed _ m1 x).
    assert (Hls1 : Forall2 (fun l e => heap m1 !! l = Some e) ls es') by done.
    destruct (IH es' m1 x1 Hls1) as (I1 & I2 & I3 & I4 & I5 & I6).
    fold (TaskList.pushAll changed ls (m1, x1)).
    assert (Hit : items (_taskOrder m1) = items (_taskOrder m) ++ [TaskModel.id e]).
    { subst m1. simpl. by rewrite items_record. }
    split. { rewrite I1, Hit, <- app_assoc. done. }
    split; [by rewrite I2 |].
    split.
    { intros k Hk. rewrite fmap_cons, not_elem_of_cons in Hk. destruct Hk as [Hk1 Hk2].
      rewrite I3 by done. subst m1. simpl. by rewrite lookup_insert_ne. }
    split.
    { intros Hnd l0 e0 Hin. rewrite fmap_cons in Hnd.
      apply NoDup_cons in Hnd as [Hnotin Hnd].
      simpl in Hin. apply elem_of_cons in Hin as [[= -> ->]|Hin].
      - unfold TaskList.map_get. rewrite I3 by done. subst m1. simpl.
        by rewrite lookup_insert_eq.
      - by apply I4. }
    split.
    { rewrite I5. subst m1. simpl. unfold record. simpl.
      destruct (negb (isUndoable (_taskOrder m))); [done |].
      destruct ((0 <? depth (_taskOrder m))%nat && _); [| done].
      by destruct (undoStack (_taskOrder m)). }
    intros D1 D2 D3 D4.
    assert (Hrec : depth (_taskOrder m1) = 1%nat
                   /\ isUndoable (_taskOrder m1) = true
                   /\ madeCompoundChange (_taskOrder m1) = true
                   /\ undoStack (_taskOrder m1) <> []
                   /\ length (undoStack (_taskOrder m1))
                      = length (undoStack (_taskOrder m))).
    { subst m1. simpl. unfold record. simpl. rewrite D1, D2, D3. simpl.
      destruct (undoStack (_taskOrder m)) as [|step rest]; [done |]. done. }
    destruct Hrec as (R1 & R2 & R3 & R4 & R5).
    rewrite (I6 R1 R2 R3 R4). exact R5.
Qed.

Lemma begin_then_first_change (c : Change) (l : list string) (s : OrderedStore.t) :
  depth s = 0%nat ->
  let s2 := record c (with_items l (OrderedStore.beginCompoundOperation true s)) in
  items s2 = l /\ undoStack s2 = [c] :: undoStack s /\ depth s2 = 1%nat
  /\ isUndoable s2 = true /\ madeCompoundChange s2 = true.
Proof. destruct s. simpl. intros ->. done. Qed.

Lemma serialized_entities (m : Model) (records : list JSONValue) :
  TaskbookModel.toJSON_tasks m = Some records ->
  exists es,
    records = TaskModel.toJSON <$> es
    /\ Forall2 (fun v e => exists l, v = Some l /\ heap m !! l = Some e)
                (TaskList.iter m) es.
Proof.
  unfold TaskbookModel.toJSON_tasks. rewrite mapM_Some.
  induction 1 as [|v r vs rs Hv _ (es & -> & IH)].
  - by exists [].
  - destruct v as [l|]; [| done].
    destruct (heap m !! l) as [e|] eqn:He; [| done].
    injection Hv as <-. exists (e :: es). split; [done |].
    constructor; [by exists l | done].
Qed.

Lemma entity_iter (m : Model) (j : nat) (e : TaskModel.t) :
  Examples.entity (Z.of_nat j) m = Some e <->
  exists l, TaskList.iter m !! j = Some (Some l) /\ heap m !! l = Some e.
Proof.
  unfold Examples.entity, TaskList.get, TaskList.iter.
  rewrite at_index_nat, list_lookup_fmap.
  destruct (items (_taskOrder m) !! j) as [i|]; simpl.
  - destruct (TaskList.map_get i m) as [l|].
    + split; [intros H; by exists l | by intros (l' & [= <-] & H)].
    + split; [done | by intros (l' & [=] & _)].
  - split; [done | by intros (l' & [=] & _)].
Qed.

(** Loading the serialization of a task list.  The list gets one new task
    per task of the source, in the order of the source; each has the type,
    the text, the trust flag and the metadata of its original, a new id,
    no execution count and no outputs; and the whole load is one undo
    step. *)
Theorem fromJSON_of_toJSON
  (source target : Model) (x : L) (records : list JSONValue) :
  TaskbookModel.toJSON_tasks source = Some records ->
  (forall j e, Examples.entity j source = Some e ->
               obj_get "trusted" (TaskModel.metadata e) = None) ->
  depth (_taskOrder target) = 0%nat ->
  let m' := fst (TaskbookModel.fromJSON changed records (target, x)) in
  TaskList.length m' = TaskList.length source
  /\ (forall (j : nat) e,
        Examples.entity (Z.of_nat j) source = Some e ->
        Examples.entity (Z.of_nat j) m'
        = Some (TaskModel.Build (uuid (uuids target + j)) (TaskModel.type e)
                                (TaskModel.text e) (TaskModel.trusted e)
                                (TaskModel.metadata e) None [] false))
  /\ length (undoStack (_taskOrder m'))
     = S (length (undoStack (_taskOrder target))).
Proof.
  intros Hser Hmd Hdepth m'.
  destruct (serialized_entities source records Hser) as (es & -> & Hes).
  assert (Hclean : Forall (fun e => obj_get "trusted" (TaskModel.metadata e) = None) es).
  { apply Forall_lookup. intros j e Hj.
    destruct (Forall2_lookup_r _ _ _ _ _ Hes Hj) as (v & Hv & l & -> & He).
    apply (Hmd (Z.of_nat j)). apply entity_iter. by exists l. }
  destruct (fromJSON_create_toJSON es target Hclean) as (C1 & C2 & C3 & C4).
  subst m'. unfold TaskbookModel.fromJSON. cbv zeta. cbn [fst snd].
  destruct (TaskbookModel.fromJSON_create (TaskModel.toJSON <$> es) target)
    as [locs mr]. simpl in C1, C2, C3, C4. subst locs. cbn [fst snd].
  set (copies := imap (fun j e => loaded_copy (uuids target + j) e) es) in *.
  unfold TaskList.beginCompoundOperation. cbn [fst snd].
  rewrite clear_all.
  set (m2 := with_order _ _). set (x2 := changed _ m2 x).
  assert (Hlen : length copies = length es) by (subst copies; by rewrite length_imap).
  assert (Hheap2 : heap m2 = heap target ++ copies) by (subst m2; exact C2).
  assert (Hall : Forall2 (fun l e => heap m2 !! l = Some e)
                         (seq (length (heap target)) (length es)) copies).
  { apply Forall2_same_length_lookup. split; [by rewrite length_seq |].
    intros j l e Hl He. apply lookup_seq in Hl as [-> Hj].
    rewrite Hheap2, lookup_app_r by lia.
    by replace (length (heap target) + j - length (heap target))%nat with j by lia. }
  destruct (pushAll_spec _ _ m2 x2 Hall) as (P1 & P2 & _ & P4 & P5 & P6).
  destruct (begin_then_first_change
              (ChangedArgs Remove 0 0
                 (items (OrderedStore.beginCompoundOperation true (_taskOrder mr))) [])
              [] (_taskOrder mr)) as (Hitems2 & B2 & B3 & B4 & B5).
  { by rewrite C3. }
  change (record _ _) with (_taskOrder m2) in Hitems2, B2, B3, B4, B5.
  assert (Hids : TaskModel.id <$> copies
                 = (fun j => uuid (uuids target + j)) <$> seq 0 (length es)).
  { subst copies. apply list_eq. intros j.
    rewrite !list_lookup_fmap, list_lookup_imap.
    destruct (es !! j) as [e|] eqn:Hj; simpl.
    - rewrite lookup_seq_lt by (apply lookup_lt_Some in Hj; lia). done.
    - rewrite lookup_seq_ge by (apply lookup_ge_None in Hj; lia). done. }
  assert (Hnd : NoDup (TaskModel.id <$> copies)).
  { rewrite Hids. apply NoDup_fmap_2; [| apply NoDup_seq].
    intros a b Hab. apply uuid_inj in Hab. lia. }
  unfold TaskList.endCompoundOperation. cbn [fst snd].
  set (m3 := fst (TaskList.pushAll changed _ (m2, x2))) in *.
  assert (Hdepth3 : depth (_taskOrder m3) = 1%nat) by (by rewrite P5).
  cbn [fst with_order _taskOrder].
  unfold OrderedStore.endCompoundOperation. rewrite Hdepth3.
  split.
  { unfold TaskList.length, len. simpl. rewrite P1, Hitems2. simpl.
    rewrite length_fmap, Hlen.
    unfold TaskList.iter in Hes. apply Forall2_length in Hes.
    rewrite length_fmap in Hes. by rewrite Hes. }
  split.
  { intros j e Hent. apply entity_iter in Hent as (l & Hv & He).
    destruct (Forall2_lookup_l _ _ _ _ _ Hes Hv) as (e' & Hj & l' & [= <-] & He').
    assert (e' = e) by congruence. subst e'.
    assert (Hcj : copies !! j = Some (loaded_copy (uuids target + j) e)).
    { subst copies. by rewrite list_lookup_imap, Hj. }
    unfold Examples.entity, TaskList.get. simpl.
    rewrite at_index_nat, P1, Hitems2. simpl.
    rewrite list_lookup_fmap, Hcj. simpl.
    assert (Hget : TaskList.map_get (uuid (uuids target + j)) m3
                   = Some (length (heap target) + j)%nat).
    { apply (P4 Hnd (length (heap target) + j)%nat (loaded_copy (uuids target + j) e)).
      apply elem_of_lookup_zip_with. exists j, (length (heap target) + j)%nat, (loaded_copy (uuids target + j) e).
      split; [done |]. split; [| done].
      apply lookup_seq. split; [done |]. apply lookup_lt_Some in Hj. lia. }
    unfold TaskList.map_get in *. simpl in *. rewrite Hget.
    rewrite P2, Hheap2, lookup_app_r by lia.
    by replace (length (heap target) + j - length (heap target))%nat with j by lia. }
  simpl. rewrite P6, B2 by (done || by rewrite B2). simpl. by rewrite C3.
Qed.

End RoundTrip.

Lemma fromJSON_of_toJSON_witness :
  let source := Examples.model_of Examples.abc in
  let m' := fst (TaskbookModel.fromJSON (fun _ _ (x : unit) => x)
                   (TaskModel.toJSON <$>
                      [TaskModel.Build "uuid-0" Dataintegration "a=1" false [] None [] false;
                       TaskModel.Build "uuid-1" Dataintegration "b=2" false [] None [] false;
                       TaskModel.Build "uuid-2" Dataintegration "c=3" false [] None [] false])
                   (empty_model, tt)) in
  TaskList.length m' = 3
  /\ TaskModel.text <$> Examples.entity 1 m' = Some "b=2".
Proof.
  intros source m'.
  destruct (fromJSON_of_toJSON (fun _ _ (x : unit) => x) source empty_model tt
              (TaskModel.toJSON <$>
                 [TaskModel.Build "uuid-0" Dataintegration "a=1" false [] None [] false;
                  TaskModel.Build "uuid-1" Dataintegration "b=2" false [] None [] false;
                  TaskModel.Build "uuid-2" Dataintegration "c=3" false [] None [] false]))
    as (H1 & H2 & _).
  - vm_compute. reflexivity.
  - intros j e. unfold Examples.entity, TaskList.get.
    destruct (at_index _ j) as [i|] eqn:Hi; [| done].
    destruct (TaskList.map_get i source) as [l|] eqn:Hl; [| done].
    destruct l as [|[|[|l]]]; vm_compute; try done; by intros [= <-].
  - reflexivity.
  - split; [exact H1 |].
    pose proof (H2 1%nat (TaskModel.Build "uuid-1" Dataintegration "b=2" false
                                          [] None [] false) eq_refl) as H.
    change (Z.of_nat 1) with 1 in H. fold m' in H. rewrite H. reflexivity.
Defined.

(** * Removing a value, inserting a run, clearing the history *)

Section Values.

Import OrderedStore.

Context {L : Type}.
Variable changed : IChangedArgs (option loc) -> Model -> L -> L.

Lemma findFirstIndex_from_found {A} (f : A -> bool) (l : list A) (k : nat) (x : A)
  (i : Z) :
  l !! k = Some x -> f x = true ->
  (forall j y, (j < k)%nat -> l !! j = Some y -> f y = false) ->
  findFirstIndex_from f i l = i + Z.of_nat k.
Proof.
  revert k i. induction l as [|y l IH]; intros k i Hk Hx Hbefore; [done |].
  destruct k as [|k]; simpl in *.
  - injection Hk as ->. rewrite Hx. lia.
  - rewrite (Hbefore 0%nat y) by (done || lia).
    rewrite (IH k (i + 1)); [lia | done | done |].
    intros j z Hj Hz. apply (Hbefore (S j)); [lia | done].
Qed.

Lemma edit_insert_cached (i : Z) (v : string) (m : Model) (x : L) :
  TaskList.has v m = true ->
  let j := clamp_index i (length (items (_taskOrder m))) in
  let c := ChangedArgs Add (-1) (Z.of_nat j) [] [v] in
  let m2 := with_order
              (record c (with_items (insert_at j v (items (_taskOrder m)))
                           (_taskOrder m))) m in
  TaskList.edit changed (Insert i v) (m, x)
  = (m2, changed (ChangedArgs Add (-1) (Z.of_nat j) [] [TaskList.map_get v m])
                 m2 x).
Proof.
  intros Hv j c m2. unfold TaskList.edit. simpl.
  unfold TaskList._onOrderChanged. simpl.
  rewrite materialize_cached; [done |]. done.
Qed.

End Values.

(** [removeValue(task)] of a task that the list holds: the index that is
    returned is the first one at which the list has the task, exactly
    that position leaves the order, and the task stays cached and is not
    disposed (so that an undo can bring it back). *)
Theorem removeValue_removes_the_first_occurrence
  {L : Type}
  (changed : OrderedStore.IChangedArgs (option loc) -> Model -> L -> L)
  (task : loc) (k : nat) (m : Model) (x : L) :
  TaskList.iter m !! k = Some (Some task) ->
  (forall j, (j < k)%nat -> TaskList.iter m !! j <> Some (Some task)) ->
  let r := TaskList.removeValue changed task (m, x) in
  fst r = Z.of_nat k
  /\ OrderedStore.items (_taskOrder (fst (snd r)))
     = delete k (OrderedStore.items (_taskOrder m))
  /\ _taskMap (fst (snd r)) = _taskMap m
  /\ heap (fst (snd r)) = heap m.
Proof.
  intros Hk Hbefore r. subst r. unfold TaskList.removeValue. cbn [fst snd].
  unfold TaskList.iter in *. rewrite list_lookup_fmap in Hk.
  destruct (OrderedStore.items (_taskOrder m) !! k) as [i|] eqn:Hi; [| done].
  simpl in Hk.
  assert (Hidx : findFirstIndex
                   (fun i => match TaskList.map_get i m with
                             | Some l => Nat.eqb l task
                             | None => false
                             end) (OrderedStore.items (_taskOrder m))
                 = Z.of_nat k).
  { unfold findFirstIndex.
    rewrite (findFirstIndex_from_found _ _ k i 0 Hi); [lia | |].
    - injection Hk as ->. apply Nat.eqb_refl.
    - intros j y Hj Hy. specialize (Hbefore j Hj).
      rewrite list_lookup_fmap, Hy in Hbefore. simpl in Hbefore.
      destruct (TaskList.map_get y m) as [l|]; [| done].
      destruct (Nat.eqb_spec l task) as [->|]; done. }
  rewrite Hidx.
  rewrite (remove_at changed (Z.of_nat k) i m x) by (by rewrite at_index_nat).
  cbn [fst snd with_order _taskOrder _taskMap heap].
  rewrite items_record. simpl. by rewrite Nat2Z.id.
Qed.

Lemma removeValue_removes_the_first_occurrence_witness :
  let m := Examples.model_of Examples.abc in
  let r := TaskList.removeValue (fun _ _ (x : unit) => x) 1%nat (m, tt) in
  fst r = 1 /\ OrderedStore.items (_taskOrder (fst (snd r))) = ["uuid-0"; "uuid-2"].
Proof.
  intros m r.
  destruct (removeValue_removes_the_first_occurrence
              (fun _ _ (x : unit) => x) 1%nat 1%nat m tt eq_refl)
    as (H1 & H2 & _).
  - intros j Hj. assert (j = 0%nat) as -> by lia. vm_compute. discriminate.
  - split; [exact H1 | exact H2].
Defined.

Section Runs.

Import OrderedStore.

#[local] Arguments insert_at : simpl never.

Context {L : Type}.
Variable changed : IChangedArgs (option loc) -> Model -> L -> L.

Lemma insert_at_run {A} (j : nat) (x : A) (xs l : list A) :
  (j <= length l)%nat ->
  take (S j) (insert_at j x l) ++ xs ++ drop (S j) (insert_at j x l)
  = take j l ++ (x :: xs) ++ drop j l.
Proof.
  intros Hj. unfold insert_at.
  rewrite take_app_ge, drop_app_ge by (rewrite length_take; lia).
  rewrite length_take, Nat.min_l by lia.
  replace (S j - j)%nat with 1%nat by lia. simpl. rewrite drop_0.
  by rewrite <- app_assoc.
Qed.

Lemma insertAll_spec (ls : list loc) (es : list TaskModel.t) (index : nat)
  (m : Model) (x : L) :
  Forall2 (fun l e => heap m !! l = Some e) ls es ->
  (index <= length (items (_taskOrder m)))%nat ->
  depth (_taskOrder m) = 0%nat ->
  let m' := fst (TaskList.insertAll changed (Z.of_nat index) ls (m, x)) in
  items (_taskOrder m')
  = take index (items (_taskOrder m)) ++ (TaskModel.id <$> es)
    ++ drop index (items (_taskOrder m))
  /\ heap m' = heap m
  /\ depth (_taskOrder m') = 0%nat
  /\ length (undoStack (_taskOrder m'))
     = (length (undoStack (_taskOrder m)) + length ls)%nat.
Proof.
  intros Hls. revert es index m x Hls.
  induction ls as [|l ls IH]; intros es index m x Hls Hidx Hdepth.
  - apply Forall2_nil_inv_l in Hls as ->. simpl.
    rewrite take_drop. repeat split; try done.
  - apply Forall2_cons_inv_l in Hls as (e & es' & He & Hls & ->).
    destruct m as [[its us rs d un mc] tm h db u].
    cbn [_taskOrder items depth heap undoStack] in *. subst d.
    cbn [TaskList.insertAll]. unfold TaskList.cache. cbn [fst snd heap].
    rewrite He. unfold TaskList.beginCompoundOperation.
    cbn [fst snd with_map _taskOrder _taskMap heap modelDB uuids with_order
         OrderedStore.beginCompoundOperation depth items undoStack redoStack].
    rewrite edit_insert_cached.
    2:{ unfold TaskList.has. simpl. by rewrite lookup_insert_eq. }
    simpl.
    assert (Hclamp : clamp_index (Z.of_nat index) (length its) = index).
    { unfold clamp_index. lia. }
    rewrite Hclamp.
    unfold TaskList.endCompoundOperation, record. simpl.
    unfold with_order, with_map, OrderedStore.endCompoundOperation. simpl.
    set (c := ChangedArgs Add _ _ _ _).
    set (me := MkModel _ _ _ _ _). set (xe := changed _ _ x).
    replace (Z.of_nat index + 1) with (Z.of_nat (S index)) by lia.
    assert (Hls' : Forall2 (fun l e => heap me !! l = Some e) ls es') by done.
    destruct (IH es' (S index) me xe Hls') as (I1 & I2 & I3 & I4).
    { subst me. cbn [_taskOrder items]. rewrite length_insert_at. lia. }
    { done. }
    rewrite I1, I2, I3, I4. subst me. cbn [_taskOrder items heap undoStack].
    split; [by apply insert_at_run |]. split; [done |]. split; [done |].
    simpl. lia.
Qed.

End Runs.

(** [insertAll(index, tasks)] for an index within the list and tasks that
    are in the store: the ids of the tasks make one run in the order,
    which starts at the index, in the order they were given; and every
    insertion is an undo step of its own (unlike a paste, which is one
    step). *)
Theorem insertAll_inserts_a_run
  {L : Type}
  (changed : OrderedStore.IChangedArgs (option loc) -> Model -> L -> L)
  (ls : list loc) (es : list TaskModel.t) (index : Z) (m : Model) (x : L) :
  Forall2 (fun l e => heap m !! l = Some e) ls es ->
  0 <= index <= TaskList.length m ->
  OrderedStore.depth (_taskOrder m) = 0%nat ->
  let m' := fst (TaskList.insertAll changed index ls (m, x)) in
  OrderedStore.items (_taskOrder m')
  = take (Z.to_nat index) (OrderedStore.items (_taskOrder m))
    ++ (TaskModel.id <$> es)
    ++ drop (Z.to_nat index) (OrderedStore.items (_taskOrder m))
  /\ heap m' = heap m
  /\ length (OrderedStore.undoStack (_taskOrder m'))
     = (length (OrderedStore.undoStack (_taskOrder m)) + length ls)%nat.
Proof.
  intros Hls Hidx Hdepth m'. subst m'.
  unfold TaskList.length, len in Hidx.
  destruct (insertAll_spec changed ls es (Z.to_nat index) m x Hls)
    as (H1 & H2 & _ & H4); [lia | done |].
  rewrite Z2Nat.id in H1, H2, H4 by lia. done.
Qed.

Lemma insertAll_inserts_a_run_witness :
  let m := snd (ContentFactory.create Notebookcell TaskbookActions.blank
                  (Examples.model_of Examples.abc)) in
  let m' := fst (TaskList.insertAll (fun _ _ (x : unit) => x) 1 [3%nat; 0%nat]
                   (m, tt)) in
  OrderedStore.items (_taskOrder m')
  = ["uuid-0"; "uuid-3"; "uuid-0"; "uuid-1"; "uuid-2"].
Proof.
  intros m m'.
  destruct (insertAll_inserts_a_run (fun _ _ (x : unit) => x) [3%nat; 0%nat]
              [TaskModel.Build "uuid-3" Notebookcell "" false [] None [] false;
               TaskModel.Build "uuid-0" Dataintegration "a=1" false [] None [] false]
              1 m tt) as (H & _).
  - repeat constructor.
  - vm_compute. split; discriminate.
  - reflexivity.
  - exact H.
Defined.

(** * Clearing the history, and undoing a removal *)

Section Purge.

Import OrderedStore Coherence.

Lemma dispose_twice e : TaskModel.dispose (TaskModel.dispose e) = TaskModel.dispose e.
Proof. reflexivity. Qed.

Lemma dispose_those (ls : list loc) (h : list TaskModel.t) l :
  l ∈ ls ->
  foldr (fun l h => alter TaskModel.dispose l h) h ls !! l
  = TaskModel.dispose <$> h !! l.
Proof.
  induction ls as [|l' ls IH]; simpl; intros Hin.
  - by apply elem_of_nil in Hin.
  - destruct (decide (l' = l)) as [->|Hne].
    + rewrite list_lookup_alter_eq.
      destruct (decide (l ∈ ls)) as [Hl|Hl].
      * rewrite IH by done. destruct (h !! l); [| done]. simpl.
        by rewrite dispose_twice.
      * by rewrite dispose_others.
    + rewrite list_lookup_alter_ne by done. apply IH.
      apply elem_of_cons in Hin as [->|]; done.
Qed.

Lemma stale_gone (m : Model) k l :
  _taskMap m !! k = Some (Some l) -> k ∉ items (_taskOrder m) ->
  l ∈ omap id (snd <$> map_to_list (TaskList.stale m)).
Proof.
  intros Hk Hnot. apply list_elem_of_omap. exists (Some l). split; [| done].
  apply list_elem_of_fmap. exists (k, Some l). split; [done |].
  apply elem_of_map_to_list. unfold TaskList.stale.
  by apply map_lookup_filter_Some.
Qed.

Lemma kept_not_gone (m : Model) k l :
  sound m ->
  _taskMap m !! k = Some (Some l) -> k ∈ items (_taskOrder m) ->
  l ∉ omap id (snd <$> map_to_list (TaskList.stale m)).
Proof.
  intros Hs Hk Hin Hgone.
  apply list_elem_of_omap in Hgone as (v' & Hv' & Hvl).
  simpl in Hvl. subst v'.
  apply list_elem_of_fmap in Hv' as ([k' v'] & Heq & Hkv').
  simpl in Heq. subst v'.
  apply elem_of_map_to_list in Hkv'.
  unfold TaskList.stale in Hkv'.
  apply map_lookup_filter_Some in Hkv' as [Hk' Hnot]. simpl in Hnot.
  destruct (Hs k' _ Hk') as (l' & e' & [= <-] & Hl' & Hid' & _).
  destruct (Hs k _ Hk) as (l' & e & [= <-] & Hl & Hid & _).
  assert (e' = e) as -> by congruence. congruence.
Qed.

End Purge.

(** [clearUndo()] on a list whose order and cache agree.  The order stays
    as it is and nothing can be undone or redone afterwards.  The cache is
    left with exactly the ids of the order; the tasks of the order are the
    same entities, untouched; and every cached task whose id was not in
    the order (removed, but kept for an undo) has been disposed. *)
Theorem clearUndo_purges_what_undo_kept (m : Model) :
  Coherence.coherent m ->
  let m' := TaskList.clearUndo m in
  OrderedStore.items (_taskOrder m') = OrderedStore.items (_taskOrder m)
  /\ TaskList.canUndo m' = false
  /\ TaskList.canRedo m' = false
  /\ (forall k, is_Some (_taskMap m' !! k)
                <-> k ∈ OrderedStore.items (_taskOrder m))
  /\ (forall i, TaskList.get i m' = TaskList.get i m)
  /\ (forall k l, k ∈ OrderedStore.items (_taskOrder m) ->
                  _taskMap m !! k = Some (Some l) ->
                  heap m' !! l = heap m !! l)
  /\ (forall k l, k ∉ OrderedStore.items (_taskOrder m) ->
                  _taskMap m !! k = Some (Some l) ->
                  exists e, heap m !! l = Some e
                            /\ heap m' !! l = Some (TaskModel.dispose e)).
Proof.
  intros [Hs Hc] m'. subst m'. unfold TaskList.clearUndo. simpl.
  split; [done |]. split; [done |]. split; [done |].
  split.
  { intros k. split.
    - intros [v Hv]. by apply map_lookup_filter_Some in Hv as [_ Hin].
    - intros Hin. destruct (Hc k) as [l Hl]; [by left |].
      exists (Some l). by apply map_lookup_filter_Some. }
  split.
  { intros i. unfold TaskList.get. simpl.
    destruct (at_index _ i) as [k|] eqn:Hk; [| done].
    unfold TaskList.map_get. simpl.
    destruct (Hc k) as [l Hl]; [left; by eapply at_index_elem |].
    rewrite Hl.
    assert (H : filter (fun kv => kv.1 ∈ OrderedStore.items (_taskOrder m))
                  (_taskMap m) !! k = Some (Some l)).
    { apply map_lookup_filter_Some. split; [done |]. by eapply at_index_elem. }
    by rewrite H. }
  split.
  { intros k l Hin Hk. apply dispose_others. by eapply kept_not_gone. }
  intros k l Hnot Hk.
  destruct (Hs k _ Hk) as (l' & e & [= <-] & Hl & _).
  exists e. split; [done |].
  rewrite dispose_those by (by eapply stale_gone). by rewrite Hl.
Qed.

Lemma clearUndo_purges_what_undo_kept_witness :
  let changed := fun (_ : OrderedStore.IChangedArgs (option loc)) (_ : Model)
                     (x : unit) => x in
  let st1 := (snd (ContentFactory.create Dataintegration TaskbookActions.blank
                     empty_model), tt) in
  let st2 := TaskList.push changed 0%nat st1 in
  let st3 := TaskList.remove changed 0 st2 in
  exists e, heap (fst st3) !! 0%nat = Some e
            /\ heap (TaskList.clearUndo (fst st3)) !! 0%nat
               = Some (TaskModel.dispose e).
Proof.
  intros changed st1 st2 st3.
  assert (Hco : Coherence.coherent (fst st3)).
  { apply (reachable_coherent changed st3).
    apply (Coherence.reachable_step changed st2 st3);
      [| apply Coherence.step_remove].
    apply (Coherence.reachable_step changed st1 st2).
    - apply (Coherence.reachable_step changed (empty_model, tt) st1).
      + apply Coherence.reachable_new.
      + apply (Coherence.step_create changed Dataintegration
                 TaskbookActions.blank (empty_model, tt)).
    - apply (Coherence.step_push changed 0%nat st1).
      eexists. split; reflexivity. }
  destruct (clearUndo_purges_what_undo_kept (fst st3) Hco)
    as (_ & _ & _ & _ & _ & _ & H).
  apply (H "uuid-0" 0%nat).
  - vm_compute. apply not_elem_of_nil.
  - vm_compute. reflexivity.
Defined.

Section SoftDelete.

Import OrderedStore.

Context {L : Type}.
Variable changed : IChangedArgs (option loc) -> Model -> L -> L.

#[local] Arguments insert_at : simpl never.

Lemma insert_at_delete {A} (k : nat) (x : A) (l : list A) :
  l !! k = Some x -> insert_at k x (delete k l) = l.
Proof.
  intros Hk. unfold insert_at. rewrite delete_take_drop.
  pose proof (lookup_lt_Some _ _ _ Hk) as Hlt.
  rewrite take_app_le, drop_app_ge by (rewrite length_take; lia).
  rewrite take_take, Nat.min_id, length_take, Nat.min_l by lia.
  rewrite Nat.sub_diag, drop_0. by apply take_drop_middle.
Qed.

Lemma remove_undo_redo (i : nat) (old : string) (l : loc) (m : Model) (x : L) :
  items (_taskOrder m) !! i = Some old ->
  _taskMap m !! old = Some (Some l) ->
  depth (_taskOrder m) = 0%nat ->
  isUndoable (_taskOrder m) = true ->
  let st1 := TaskList.remove changed (Z.of_nat i) (m, x) in
  let st2 := TaskList.undo changed st1 in
  let st3 := TaskList.redo changed st2 in
  items (_taskOrder (fst st1)) = delete i (items (_taskOrder m))
  /\ items (_taskOrder (fst st2)) = items (_taskOrder m)
  /\ _taskMap (fst st2) = _taskMap m
  /\ heap (fst st2) = heap m
  /\ undoStack (_taskOrder (fst st2)) = undoStack (_taskOrder m)
  /\ items (_taskOrder (fst st3)) = delete i (items (_taskOrder m))
  /\ _taskMap (fst st3) = _taskMap m
  /\ heap (fst st3) = heap m.
Proof.
  intros Hold Hmap Hdepth Hun st1 st2 st3.
  destruct m as [[its us rs d un mc] tm h db u].
  cbn [_taskOrder items depth isUndoable _taskMap heap undoStack] in *.
  subst d un.
  assert (Hst1 : st1 = _) by (subst st1; apply remove_at; by rewrite at_index_nat).
  cbn [_taskOrder items with_items with_order record negb isUndoable depth
       Nat.ltb Nat.leb andb undoStack redoStack madeCompoundChange] in Hst1.
  rewrite Nat2Z.id in Hst1.
  set (c := ChangedArgs Remove (Z.of_nat i) (-1) [old] []) in *.
  set (x1 := changed _ _ x) in Hst1.
  assert (Hlen : (i < length its)%nat) by (by eapply lookup_lt_Some).
  assert (Hclamp : clamp_index (Z.of_nat i) (length (delete i its)) = i).
  { unfold clamp_index. rewrite length_delete by (by eexists). lia. }
  assert (Hst2 : st2 = (MkModel (Store its us [[c]] 0 true false) tm h db u,
                        changed (ChangedArgs Add (-1) (Z.of_nat i) [] [Some l])
                          (MkModel (Store its ([c] :: us) [] 0 false false)
                                   tm h db u) x1)).
  { subst st2. rewrite Hst1. unfold TaskList.undo.
    unfold TaskList.replay, TaskList.edits.
    cbn [fst snd _taskOrder undoStack with_order].
    change (undoPlan [c]) with [Insert (Z.of_nat i) old]. cbn [foldl fst snd _taskOrder with_order
                                 with_undoable items undoStack redoStack depth
                                 madeCompoundChange].
    rewrite edit_insert_cached.
    2:{ unfold TaskList.has. simpl. by rewrite Hmap. }
    cbn [fst snd _taskOrder with_order with_undoable items undoStack redoStack
         depth madeCompoundChange isUndoable with_items record negb
         _taskMap heap modelDB uuids].
    rewrite Hclamp, (insert_at_delete i old its Hold).
    unfold TaskList.map_get. simpl. rewrite Hmap. reflexivity. }
  assert (Hclamp2 : at_index its (Z.of_nat i) = Some old) by (by rewrite at_index_nat).
  split. { by rewrite Hst1. }
  rewrite Hst2. cbn [fst _taskOrder items _taskMap heap undoStack].
  repeat (split; [done |]).
  subst st3. rewrite Hst2. unfold TaskList.redo.
  unfold TaskList.replay, TaskList.edits.
  cbn [fst snd _taskOrder redoStack with_order].
  change (redoPlan [c]) with [RemoveAt (Z.of_nat i)]. cbn [foldl fst snd _taskOrder with_order with_undoable
                               items undoStack redoStack depth madeCompoundChange].
  match goal with
  | |- context [TaskList.edit changed (RemoveAt ?a) ?b] =>
      change (TaskList.edit changed (RemoveAt a) b)
        with (TaskList.remove changed a b)
  end.
  rewrite (remove_at changed (Z.of_nat i) old) by done.
  cbn [fst snd _taskOrder with_order with_undoable items undoStack redoStack
       depth madeCompoundChange isUndoable with_items record negb
       _taskMap heap modelDB uuids].
  by rewrite Nat2Z.id.
Qed.

End SoftDelete.

(** Removing a task and undoing the removal.  The removal takes the id
    out of the order and nothing else: the task stays cached.  The undo
    puts the id back where it was, and [get] returns the entity that was
    removed, with the cache and the store of entities as they were before
    the removal; a redo removes it again. *)
Theorem undo_brings_the_removed_task_back
  {L : Type}
  (changed : OrderedStore.IChangedArgs (option loc) -> Model -> L -> L)
  (i : Z) (l : loc) (m : Model) (x : L) :
  0 <= i ->
  TaskList.get i m = Some l ->
  OrderedStore.depth (_taskOrder m) = 0%nat ->
  OrderedStore.isUndoable (_taskOrder m) = true ->
  let st1 := TaskList.remove changed i (m, x) in
  let st2 := TaskList.undo changed st1 in
  let st3 := TaskList.redo changed st2 in
  OrderedStore.items (_taskOrder (fst st1))
  = delete (Z.to_nat i) (OrderedStore.items (_taskOrder m))
  /\ _taskMap (fst st1) = _taskMap m
  /\ heap (fst st1) = heap m
  /\ OrderedStore.items (_taskOrder (fst st2)) = OrderedStore.items (_taskOrder m)
  /\ TaskList.get i (fst st2) = Some l
  /\ _taskMap (fst st2) = _taskMap m
  /\ heap (fst st2) = heap m
  /\ OrderedStore.undoStack (_taskOrder (fst st2))
     = OrderedStore.undoStack (_taskOrder m)
  /\ OrderedStore.items (_taskOrder (fst st3))
     = delete (Z.to_nat i) (OrderedStore.items (_taskOrder m)).
Proof.
  intros Hi Hget Hdepth Hun st1 st2 st3.
  unfold TaskList.get in Hget.
  destruct (at_index _ i) as [old|] eqn:Hold; [| done].
  unfold TaskList.map_get in Hget.
  destruct (_taskMap m !! old) as [[l'|]|] eqn:Hmap; try done.
  injection Hget as ->.
  apply at_index_Some in Hold as [_ Hold].
  destruct (remove_undo_redo changed (Z.to_nat i) old l m x Hold Hmap Hdepth Hun)
    as (H1 & H2 & H3 & H4 & H5 & H6 & _).
  rewrite Z2Nat.id in H1, H2, H3, H4, H5, H6 by done.
  assert (Hat : at_index (OrderedStore.items (_taskOrder m)) i = Some old)
    by (apply at_index_Some; by split).
  pose proof (remove_at changed i old m x Hat) as Hst1. cbv zeta in Hst1.
  subst st1 st2 st3.
  split; [done |].
  split; [by rewrite Hst1 |]. split; [by rewrite Hst1 |].
  split; [done |]. split.
  { unfold TaskList.get. rewrite H2, Hat.
    unfold TaskList.map_get. by rewrite H3, Hmap. }
  done.
Qed.

Lemma undo_brings_the_removed_task_back_witness :
  let m := Examples.model_of Examples.abc in
  let st2 := TaskList.undo (fun _ _ (x : unit) => x)
               (TaskList.remove (fun _ _ (x : unit) => x) 1 (m, tt)) in
  OrderedStore.items (_taskOrder (fst st2)) = ["uuid-0"; "uuid-1"; "uuid-2"]
  /\ TaskList.get 1 (fst st2) = Some 1%nat.
Proof.
  intros m st2.
  destruct (undo_brings_the_removed_task_back (fun _ _ (x : unit) => x)
              1 1%nat m tt) as (_ & _ & _ & H1 & H2 & _).
  - lia.
  - reflexivity.
  - reflexivity.
  - reflexivity.
  - split; [exact H1 | exact H2].
Defined.

(** * The children of the surface *)

Section Lists.

Context {A B : Type}.
Implicit Types (l : list A) (x : A) (i j : nat).

Lemma fmap_insert_at (f : A -> B) j x l :
  f <$> insert_at j x l = insert_at j (f x) (f <$> l).
Proof.
  unfold insert_at. by rewrite fmap_app, fmap_cons, fmap_take, fmap_drop.
Qed.

Lemma fmap_delete_at (f : A -> B) i l :
  f <$> delete i l = delete i (f <$> l).
Proof.
  rewrite !delete_take_drop. by rewrite fmap_app, fmap_take, fmap_drop.
Qed.

Lemma fmap_move_to (f : A -> B) i j l :
  f <$> move_to i j l = move_to i j (f <$> l).
Proof.
  unfold move_to. rewrite list_lookup_fmap.
  destruct (l !! i) as [x|]; simpl; [| done].
  by rewrite fmap_insert_at, fmap_delete_at.
Qed.

Lemma insert_at_perm j x l : insert_at j x l ≡ₚ x :: l.
Proof.
  unfold insert_at. rewrite <- Permutation_middle.
  by rewrite take_drop.
Qed.

Lemma insert_at_end x l : insert_at (length l) x l = l ++ [x].
Proof. unfold insert_at. by rewrite take_ge, drop_ge by lia. Qed.

Lemma delete_insert_at i x l :
  (i < length l)%nat -> delete (S i) (insert_at i x l) = <[i := x]> l.
Proof.
  intros Hi. unfold insert_at. rewrite insert_take_drop by done.
  rewrite delete_take_drop.
  rewrite take_app_ge, drop_app_ge by (rewrite length_take; lia).
  rewrite length_take, Nat.min_l by lia.
  replace (S i - i)%nat with 1%nat by lia.
  replace (S (S i) - i)%nat with 2%nat by lia.
  destruct (drop i l) as [|y t] eqn:Hd.
  { apply (f_equal length) in Hd. rewrite length_drop in Hd. simpl in Hd. lia. }
  simpl. rewrite drop_0, <- app_assoc. simpl. do 2 f_equal.
  change t with (drop 1 (y :: t)). rewrite <- Hd, drop_drop. f_equal. lia.
Qed.

Lemma move_to_perm i j l : move_to i j l ≡ₚ l.
Proof.
  unfold move_to. destruct (l !! i) as [x|] eqn:Hx; [| done].
  rewrite insert_at_perm. by rewrite <- (delete_Permutation l i x).
Qed.

Lemma length_move_to i j l : length (move_to i j l) = length l.
Proof. apply Permutation_length, move_to_perm. Qed.

Lemma clamp_index_nat j (n : nat) :
  (j <= n)%nat -> clamp_index (Z.of_nat j) n = j.
Proof. unfold clamp_index. lia. Qed.

Lemma clamp_index_le (i : Z) (n : nat) : (clamp_index i n <= n)%nat.
Proof. unfold clamp_index. lia. Qed.

End Lists.

Lemma clamped_idem n v : clamped n (clamped n v) = clamped n v.
Proof. unfold clamped. destruct (n =? 0) eqn:Hn; lia. Qed.

Section Slot.

Import Taskbook Layout OrderedStore.

Lemma insertTask_spec md i l s :
  let s' := _insertTask (Some md) i l s in
  widgets s'
  = insert_at (clamp_index i (length (widgets s))) (Task.create (wids s) l)
              (widgets s)
  /\ wids s' = S (wids s)
  /\ _activeTaskIndex s'
     = clamped (TaskList.length md) (_activeTaskIndex s').
Proof.
  intros s'. subst s'. unfold _insertTask, onTaskInserted.
  rewrite set_activeTaskIndex_widgets, !set_activeTaskIndex_index.
  rewrite clamped_idem. split; [reflexivity | split; reflexivity].
Qed.

Lemma removeTask_spec md i c s :
  at_index (widgets s) i = Some c ->
  exists s', _removeTask (Some md) i s = Some s'
    /\ widgets s' = delete (Z.to_nat i) (widgets s)
    /\ wids s' = wids s
    /\ _activeTaskIndex s'
       = clamped (TaskList.length md) (_activeTaskIndex s').
Proof.
  intros Hc. unfold _removeTask. rewrite Hc. eexists. split; [done |].
  unfold onTaskRemoved.
  rewrite set_activeTaskIndex_widgets, !set_activeTaskIndex_index.
  rewrite clamped_idem. split; [reflexivity | split; reflexivity].
Qed.

Lemma moveTask_spec md i j c s :
  at_index (widgets s) i = Some c ->
  0 <= j < len (widgets s) ->
  exists s', _moveTask (Some md) i j s = Some s'
    /\ widgets s' = move_to (Z.to_nat i) (Z.to_nat j) (widgets s)
    /\ wids s' = wids s
    /\ (_activeTaskIndex s' = _activeTaskIndex s
        \/ _activeTaskIndex s'
           = clamped (TaskList.length md) (_activeTaskIndex s')).
Proof.
  intros Hc Hj. unfold _moveTask. rewrite Hc. eexists. split; [done |].
  assert (Hcl : clamp_index j (length (widgets s)) = Z.to_nat j).
  { unfold clamp_index, len in *. lia. }
  rewrite Hcl.
  assert (Hne : Nat.eqb (Z.to_nat j) (length (widgets s)) = false).
  { apply Nat.eqb_neq. unfold len in Hj. lia. }
  rewrite Hne. unfold onTaskMoved.
  destruct (i =? activeTaskIndex _ _).
  - rewrite set_activeTaskIndex_widgets, !set_activeTaskIndex_index.
    rewrite clamped_idem. split; [reflexivity | split; [reflexivity | by right]].
  - split; [done |]. split; [done |]. by left.
Qed.

End Slot.

Section Distinct.

Import Taskbook Layout.

Lemma distinct_insert s s' j l :
  distinct s ->
  widgets s' = insert_at j (Task.create (wids s) l) (widgets s) ->
  wids s' = S (wids s) ->
  distinct s'.
Proof.
  intros [Hnd Hlt] Hws Hwids. unfold distinct. rewrite Hws, Hwids. split.
  - rewrite fmap_insert_at, insert_at_perm. apply NoDup_cons. split; [| done].
    simpl. intros Hin. apply list_elem_of_fmap in Hin as (c & Hc & Hin).
    rewrite Forall_forall in Hlt. specialize (Hlt c Hin). lia.
  - rewrite insert_at_perm. apply Forall_cons. split; [simpl; lia |].
    eapply Forall_impl; [exact Hlt |]. simpl. intros; lia.
Qed.

Lemma distinct_delete s s' i :
  distinct s ->
  widgets s' = delete i (widgets s) ->
  wids s' = wids s ->
  distinct s'.
Proof.
  intros [Hnd Hlt] Hws Hwids. unfold distinct. rewrite Hws, Hwids. split.
  - rewrite fmap_delete_at. eapply sublist_NoDup; [done | apply sublist_delete].
  - rewrite Forall_forall in *. intros c Hc. apply Hlt.
    by eapply list_elem_of_delete_inv.
Qed.

Lemma distinct_move s s' i j :
  distinct s ->
  widgets s' = move_to i j (widgets s) ->
  wids s' = wids s ->
  distinct s'.
Proof.
  intros [Hnd Hlt] Hws Hwids. unfold distinct. rewrite Hws, Hwids. split.
  - by rewrite fmap_move_to, move_to_perm.
  - by rewrite move_to_perm.
Qed.

End Distinct.

Section Settled.

Import Taskbook Layout OrderedStore Coherence.

Lemma iter_same m m' :
  _taskMap m' = _taskMap m ->
  TaskList.iter m' = (fun i => TaskList.map_get i m) <$> items (_taskOrder m').
Proof. intros Hmap. unfold TaskList.iter, TaskList.map_get. by rewrite Hmap. Qed.

Lemma mirrors_length m s :
  mirrors m s -> length (widgets s) = length (items (_taskOrder m)).
Proof.
  intros H. apply (f_equal length) in H. unfold TaskList.iter in H.
  by rewrite !length_fmap in H.
Qed.

Lemma settled_same m m' s :
  items (_taskOrder m') = items (_taskOrder m) ->
  _taskMap m' = _taskMap m ->
  settled m s -> settled m' s.
Proof.
  intros Hits Hmap (Hmir & Hdis & Hfit). split; [| split; [done |]].
  - unfold mirrors. rewrite (iter_same m m' Hmap), Hits. exact Hmir.
  - unfold fits, TaskList.length. by rewrite Hits.
Qed.

Lemma cached_get i m :
  cached i m ->
  exists l, TaskList.map_get i m = Some l /\ TaskList.has i m = true.
Proof.
  intros [l Hl]. exists l. unfold TaskList.map_get, TaskList.has.
  by rewrite Hl.
Qed.

Lemma materialize_all_cached vs m :
  (forall v, v ∈ vs -> TaskList.has v m = true) ->
  foldl (fun a i => TaskList.materialize i a) m vs = m.
Proof.
  induction vs as [|v vs IH]; intros Hvs; [done |]. simpl.
  rewrite materialize_cached by (apply Hvs; left).
  apply IH. intros w Hw. apply Hvs. by right.
Qed.

Lemma edit_form e m (s : Surface) :
  (forall i, i ∈ edit_ids e -> cached i m) ->
  Tasks.edit e (m, s)
  = match apply e (items (_taskOrder m)) with
    | (its', Some c) =>
        let m2 := with_order (record c (with_items its' (_taskOrder m))) m in
        (m2, _onTasksChanged
               (ChangedArgs (type c) (oldIndex c) (newIndex c)
                  ((fun i => TaskList.map_get i m) <$> oldValues c)
                  ((fun i => TaskList.map_get i m) <$> newValues c)) m2 s)
    | (_, None) => (m, s)
    end.
Proof.
  intros Hids. unfold Tasks.edit, TaskList.edit. cbn [fst snd].
  destruct (apply e (items (_taskOrder m))) as [its' [c|]] eqn:Ha;
    cbn [fst snd]; [| done].
  destruct (apply_ids _ _ _ _ Ha) as [_ Hb].
  set (m2 := with_order _ m).
  assert (Hm : foldl (fun a i => TaskList.materialize i a) m2 (brought c) = m2).
  { apply materialize_all_cached. intros v Hv.
    destruct (cached_get v m (Hids v (Hb v Hv))) as (l & _ & Hl). exact Hl. }
  unfold TaskList._onOrderChanged. cbn [fst snd]. cbv zeta.
  unfold brought in Hm.
  destruct (type c); rewrite ?Hm; reflexivity.
Qed.

End Settled.

Section SlotEdits.

Import Taskbook Layout OrderedStore Coherence.

Lemma slot_insert (j : nat) v l m m2 s :
  settled m s ->
  TaskList.map_get v m = Some l ->
  (j <= length (items (_taskOrder m)))%nat ->
  items (_taskOrder m2) = insert_at j v (items (_taskOrder m)) ->
  _taskMap m2 = _taskMap m ->
  settled m2 (_insertTask (Some m2) (Z.of_nat j) l s).
Proof.
  intros (Hmir & Hdis & Hfit) Hl Hj Hits Hmap.
  pose proof (mirrors_length m s Hmir) as Hlen.
  destruct (insertTask_spec m2 (Z.of_nat j) l s) as (Hw & Hwid & Hidx).
  rewrite clamp_index_nat in Hw by lia.
  split; [| split].
  - unfold mirrors. rewrite (iter_same m m2 Hmap), Hits, Hw.
    rewrite !fmap_insert_at. unfold mirrors, TaskList.iter in Hmir.
    rewrite Hmir, Hl. reflexivity.
  - by eapply distinct_insert.
  - exact Hidx.
Qed.

Lemma slot_remove (i : nat) m m2 s :
  settled m s ->
  (i < length (items (_taskOrder m)))%nat ->
  items (_taskOrder m2) = delete i (items (_taskOrder m)) ->
  _taskMap m2 = _taskMap m ->
  exists s', _removeTask (Some m2) (Z.of_nat i) s = Some s' /\ settled m2 s'.
Proof.
  intros (Hmir & Hdis & Hfit) Hi Hits Hmap.
  pose proof (mirrors_length m s Hmir) as Hlen.
  destruct (lookup_lt_is_Some_2 (widgets s) i) as [c Hc]; [lia |].
  destruct (removeTask_spec m2 (Z.of_nat i) c s) as (s' & Hs' & Hw & Hwid & Hidx).
  { by rewrite at_index_nat. }
  rewrite Nat2Z.id in Hw.
  exists s'. split; [done |]. split; [| split].
  - unfold mirrors. rewrite (iter_same m m2 Hmap), Hits, Hw.
    rewrite !fmap_delete_at. unfold mirrors, TaskList.iter in Hmir.
    by rewrite Hmir.
  - by eapply distinct_delete.
  - exact Hidx.
Qed.

Lemma slot_set (i : nat) v l m m2 s :
  settled m s ->
  TaskList.map_get v m = Some l ->
  (i < length (items (_taskOrder m)))%nat ->
  items (_taskOrder m2) = <[i := v]> (items (_taskOrder m)) ->
  _taskMap m2 = _taskMap m ->
  settled m2 (setTasks (Some m2) (Z.of_nat i) [Some l] s).
Proof.
  intros (Hmir & Hdis & Hfit) Hl Hi Hits Hmap.
  pose proof (mirrors_length m s Hmir) as Hlen.
  cbn [setTasks].
  destruct (insertTask_spec m2 (Z.of_nat i) l s) as (Hw & Hwid & Hidx).
  rewrite clamp_index_nat in Hw by lia.
  set (s1 := _insertTask (Some m2) (Z.of_nat i) l s) in *.
  destruct (lookup_lt_is_Some_2 (widgets s1) (S i)) as [c Hc].
  { rewrite Hw, length_insert_at. lia. }
  destruct (removeTask_spec m2 (Z.of_nat i + 1) c s1)
    as (s2 & Hs2 & Hw2 & Hwid2 & Hidx2).
  { replace (Z.of_nat i + 1) with (Z.of_nat (S i)) by lia.
    by rewrite at_index_nat. }
  rewrite Hs2.
  replace (Z.to_nat (Z.of_nat i + 1)) with (S i) in Hw2 by lia.
  rewrite Hw, delete_insert_at in Hw2 by lia.
  split; [| split].
  - unfold mirrors. rewrite (iter_same m m2 Hmap), Hits, Hw2.
    rewrite !list_fmap_insert. unfold mirrors, TaskList.iter in Hmir.
    rewrite Hmir, Hl. reflexivity.
  - assert (Hd1 : distinct s1) by (by eapply distinct_insert).
    destruct Hd1 as [Hnd1 Hlt1]. unfold distinct.
    rewrite Hw2, Hwid2.
    rewrite <- (delete_insert_at i _ (widgets s)), <- Hw by lia.
    split.
    + rewrite fmap_delete_at. eapply sublist_NoDup; [done | apply sublist_delete].
    + rewrite Forall_forall in *. intros d Hd. apply Hlt1.
      by eapply list_elem_of_delete_inv.
  - exact Hidx2.
Qed.

Lemma slot_move (i j : nat) m m2 s :
  settled m s ->
  (i < length (items (_taskOrder m)))%nat ->
  (j < length (items (_taskOrder m)))%nat ->
  items (_taskOrder m2) = move_to i j (items (_taskOrder m)) ->
  _taskMap m2 = _taskMap m ->
  exists s', _moveTask (Some m2) (Z.of_nat i) (Z.of_nat j) s = Some s'
             /\ settled m2 s'.
Proof.
  intros (Hmir & Hdis & Hfit) Hi Hj Hits Hmap.
  pose proof (mirrors_length m s Hmir) as Hlen.
  destruct (lookup_lt_is_Some_2 (widgets s) i) as [c Hc]; [lia |].
  destruct (moveTask_spec m2 (Z.of_nat i) (Z.of_nat j) c s)
    as (s' & Hs' & Hw & Hwid & Hidx).
  { by rewrite at_index_nat. }
  { unfold len. lia. }
  rewrite !Nat2Z.id in Hw.
  exists s'. split; [done |]. split; [| split].
  - unfold mirrors. rewrite (iter_same m m2 Hmap), Hits, Hw.
    rewrite !fmap_move_to. unfold mirrors, TaskList.iter in Hmir.
    by rewrite Hmir.
  - by eapply distinct_move.
  - assert (Hl2 : TaskList.length m2 = TaskList.length m).
    { unfold TaskList.length, len. by rewrite Hits, length_move_to. }
    destruct Hidx as [Hidx|Hidx]; [| done].
    unfold fits. rewrite Hidx, Hl2. exact Hfit.
Qed.

Lemma slot_clear m2 (vs : list (option loc)) s :
  distinct s ->
  TaskList.length m2 = 0 ->
  length vs = length (widgets s) ->
  _activeTaskIndex s = -1 \/ widgets s <> [] ->
  let s' := removeTasks (Some m2) 0 vs s in
  widgets s' = [] /\ distinct s' /\ _activeTaskIndex s' = -1.
Proof.
  intros Hdis Hm2. revert s Hdis.
  induction vs as [|v vs IH]; intros s Hdis Hlen Hidx; cbn [removeTasks].
  - destruct (widgets s) eqn:Hws; [| done].
    split; [done |]. split; [done |]. by destruct Hidx.
  - destruct (widgets s) as [|c ws] eqn:Hws; [done |].
    destruct (removeTask_spec m2 0 c s) as (s1 & Hs1 & Hw & Hwid & Hi1).
    { by rewrite Hws. }
    rewrite Hs1. rewrite Hws in Hw. simpl in Hw.
    apply IH.
    + eapply (distinct_delete s s1 0); [done | by rewrite Hws | done].
    + rewrite Hw. simpl in Hlen. lia.
    + left. rewrite Hi1, Hm2. reflexivity.
Qed.

End SlotEdits.

Section EditSettled.

Import Taskbook Layout OrderedStore Coherence.

Lemma edit_settled e m s :
  (forall i, i ∈ edit_ids e -> cached i m) ->
  settled m s ->
  let st' := Tasks.edit e (m, s) in
  settled (fst st') (snd st') /\ _taskMap (fst st') = _taskMap m.
Proof.
  intros Hids Hset st'. subst st'. rewrite edit_form by done.
  pose proof Hset as (Hmir & Hdis & Hfit).
  pose proof (mirrors_length m s Hmir) as Hlen.
  destruct e as [i v | i v | i | i j | v | ]; cbn [apply].
  - (* insert *)
    destruct (cached_get v m (Hids v ltac:(simpl; apply list_elem_of_singleton; reflexivity))) as (l & Hl & _).
    cbv zeta. cbn [fst snd]. split; [| reflexivity].
    unfold _onTasksChanged.
    cbn [type newIndex newValues fmap list_fmap insertTasks].
    rewrite Hl. cbn [insertTasks].
    eapply slot_insert; try done.
    + apply clamp_index_le.
    + cbn [with_order _taskOrder]. by rewrite record_items.
  - (* set *)
    destruct (at_index (items (_taskOrder m)) i) as [old|] eqn:Hold;
      [| by split].
    apply at_index_Some in Hold as [Hi Hold].
    pose proof (lookup_lt_Some _ _ _ Hold) as Hlt.
    destruct (cached_get v m (Hids v ltac:(simpl; apply list_elem_of_singleton; reflexivity))) as (l & Hl & _).
    cbv zeta. cbn [fst snd]. split; [| reflexivity].
    unfold _onTasksChanged.
    cbn [type newIndex newValues fmap list_fmap].
    rewrite Hl.
    assert (Hik : i = Z.of_nat (Z.to_nat i)) by lia.
    set (k := Z.to_nat i) in *. clearbody k. subst i.
    eapply slot_set; try done.
    cbn [with_order _taskOrder]. by rewrite record_items.
  - (* remove *)
    destruct (at_index (items (_taskOrder m)) i) as [old|] eqn:Hold;
      [| by split].
    apply at_index_Some in Hold as [Hi Hold].
    pose proof (lookup_lt_Some _ _ _ Hold) as Hlt.
    cbv zeta. cbn [fst snd]. split; [| reflexivity].
    unfold _onTasksChanged.
    cbn [type oldIndex oldValues fmap list_fmap removeTasks].
    set (m2 := with_order _ m).
    destruct (slot_remove (Z.to_nat i) m m2 s Hset Hlt) as (s' & Hs' & Hset').
    { subst m2. cbn [with_order _taskOrder]. by rewrite record_items. }
    { reflexivity. }
    rewrite Z2Nat.id in Hs' by done. by rewrite Hs'.
  - (* move *)
    destruct (at_index (items (_taskOrder m)) i) as [v|] eqn:Hv; [| by split].
    destruct (in_range j (items (_taskOrder m)) && negb (i =? j)) eqn:Hj;
      [| by split].
    apply at_index_Some in Hv as [Hi Hv].
    pose proof (lookup_lt_Some _ _ _ Hv) as Hlt.
    apply andb_true_iff in Hj as [Hj _]. unfold in_range, len in Hj.
    cbv zeta. cbn [fst snd]. split; [| reflexivity].
    unfold _onTasksChanged. cbn [type oldIndex newIndex].
    set (m2 := with_order _ m).
    destruct (slot_move (Z.to_nat i) (Z.to_nat j) m m2 s Hset Hlt)
      as (s' & Hs' & Hset').
    { lia. }
    { subst m2. cbn [with_order _taskOrder]. by rewrite record_items. }
    { reflexivity. }
    rewrite !Z2Nat.id in Hs' by lia. by rewrite Hs'.
  - (* push *)
    destruct (cached_get v m (Hids v ltac:(simpl; apply list_elem_of_singleton; reflexivity))) as (l & Hl & _).
    cbv zeta. cbn [fst snd]. split; [| reflexivity].
    unfold _onTasksChanged.
    cbn [type newIndex newValues fmap list_fmap insertTasks].
    rewrite Hl. cbn [insertTasks]. unfold len.
    eapply slot_insert; try done.
    cbn [with_order _taskOrder]. by rewrite record_items, insert_at_end.
  - (* clear *)
    cbv zeta. cbn [fst snd]. split; [| reflexivity].
    unfold _onTasksChanged. cbn [type oldIndex oldValues].
    set (m2 := with_order _ m).
    assert (Hm2 : TaskList.length m2 = 0).
    { subst m2. unfold TaskList.length. cbn [with_order _taskOrder].
      by rewrite record_items. }
    destruct (slot_clear m2 ((fun i => TaskList.map_get i m)
                               <$> items (_taskOrder m)) s Hdis Hm2)
      as (Hw & Hdis' & Hidx).
    { by rewrite length_fmap. }
    { destruct (widgets s) eqn:Hws; [left | by right].
      unfold fits, TaskList.length, len in Hfit. rewrite <- Hlen in Hfit.
      simpl in Hfit. exact Hfit. }
    split; [| split].
    + unfold mirrors. rewrite Hw. unfold TaskList.iter.
      subst m2. cbn [with_order _taskOrder]. by rewrite record_items.
    + exact Hdis'.
    + unfold fits. by rewrite Hidx, Hm2.
Qed.

Lemma edits_settled es m s :
  (forall e i, e ∈ es -> i ∈ edit_ids e -> cached i m) ->
  settled m s ->
  let st' := TaskList.edits _onTasksChanged es (m, s) in
  settled (fst st') (snd st') /\ _taskMap (fst st') = _taskMap m.
Proof.
  revert m s. induction es as [|e es IH]; intros m s Hids Hset; [by split |].
  cbn [TaskList.edits foldl]. unfold TaskList.edits in IH.
  destruct (edit_settled e m s) as [Hset1 Hmap1]; [| done |].
  { intros i Hi. apply (Hids e); [left | done]. }
  fold (Tasks.edit e (m, s)).
  destruct (Tasks.edit e (m, s)) as [m1 s1]. cbn [fst snd] in *.
  destruct (IH m1 s1) as [Hset2 Hmap2]; [| done |].
  { intros e' i He' Hi. destruct (Hids e' i) as [l Hl]; [by right | done |].
    exists l. by rewrite Hmap1. }
  split; [done |]. by rewrite Hmap2.
Qed.

End EditSettled.

Section Steps.

Import Taskbook Layout OrderedStore Coherence.

Lemma iter_agree m m' :
  items (_taskOrder m') = items (_taskOrder m) ->
  (forall k, k ∈ items (_taskOrder m) -> _taskMap m' !! k = _taskMap m !! k) ->
  TaskList.iter m' = TaskList.iter m.
Proof.
  intros Hits Hmap. unfold TaskList.iter. rewrite Hits.
  apply list_fmap_ext. intros j k Hk. unfold TaskList.map_get.
  rewrite Hmap; [done |]. by eapply list_elem_of_lookup_2.
Qed.

Lemma settled_agree m m' s :
  items (_taskOrder m') = items (_taskOrder m) ->
  (forall k, k ∈ items (_taskOrder m) -> _taskMap m' !! k = _taskMap m !! k) ->
  settled m s -> settled m' s.
Proof.
  intros Hits Hmap (Hmir & Hdis & Hfit). split; [| split; [done |]].
  - unfold mirrors. by rewrite (iter_agree m m').
  - unfold fits, TaskList.length. by rewrite Hits.
Qed.

Lemma admissible_live l m : admissible l m -> live l m.
Proof. intros (e & He & Hd & _). by exists e. Qed.

Lemma step_is_step st st' :
  Layout.step st st' -> Coherence.step _onTasksChanged st st'.
Proof.
  intros H. destruct H; try (by constructor).
  - apply Coherence.step_set. by apply admissible_live.
  - apply Coherence.step_push. by apply admissible_live.
  - apply Coherence.step_insert. by apply admissible_live.
Qed.

Lemma layout_reachable_coherent st : Layout.reachable st -> coherent (fst st).
Proof.
  intros H. apply (reachable_coherent _onTasksChanged).
  induction H as [|st st' _ IH Hstep].
  - apply Coherence.reachable_new.
  - eapply Coherence.reachable_step; [exact IH | by apply step_is_step].
Qed.

Lemma cache_settled l m s :
  coherent m -> admissible l m -> settled m s ->
  exists i m', TaskList.cache l m = Some (i, m')
               /\ settled m' s /\ cached i m'.
Proof.
  intros [Hsound Hcov] (e & He & Hd & Hid) Hset.
  unfold TaskList.cache. rewrite He. eexists _, _. split; [done |].
  split.
  - eapply settled_agree; [| | exact Hset]; [done |].
    intros k Hk. cbn [with_map _taskMap].
    destruct Hid as [Hid|Hid].
    + destruct (Hcov k) as [l' Hl']; [by left |].
      rewrite lookup_insert_ne; [done |]. intros <-. congruence.
    + by rewrite insert_id.
  - exists l. cbn [with_map _taskMap]. by rewrite lookup_insert_eq.
Qed.

Lemma cached_edit_settled (f : Z -> string -> Edit) z l m s :
  (forall i, edit_ids (f z i) = [i]) ->
  coherent m -> admissible l m -> settled m s ->
  let st' := match TaskList.cache l m with
             | Some (i, m') => Tasks.edit (f z i) (m', s)
             | None => (m, s)
             end in
  settled (fst st') (snd st').
Proof.
  intros Hf Hcoh Hadm Hset.
  destruct (cache_settled l m s Hcoh Hadm Hset) as (i & m' & -> & Hset' & Hi).
  cbv zeta. apply edit_settled; [| done].
  intros k Hk. rewrite Hf in Hk. apply list_elem_of_singleton in Hk. by subst k.
Qed.

Lemma replay_settled es m s :
  (forall e i, e ∈ es -> i ∈ edit_ids e -> cached i m) ->
  settled m s ->
  let st' := TaskList.replay _onTasksChanged es (m, s) in
  settled (fst st') (snd st').
Proof.
  intros Hids Hset. unfold TaskList.replay. cbn [fst snd].
  set (m0 := with_order (with_undoable false (_taskOrder m)) m).
  destruct (edits_settled es m0 s) as [Hset1 Hmap1]; [done | |].
  { eapply settled_same; [| | exact Hset]; done. }
  eapply settled_same; [| | exact Hset1]; done.
Qed.

Lemma step_settled st st' :
  Layout.step st st' -> coherent (fst st) ->
  settled (fst st) (snd st) -> settled (fst st') (snd st').
Proof.
  intros Hstep Hcoh Hset. destruct Hstep; destruct st as [m s]; cbn [fst snd] in *.
  - (* create *)
    destruct (create_spec ty o m) as (Ho & Hm & _).
    eapply settled_same; [| | exact Hset]; [by rewrite Ho | done].
  - by apply (cached_edit_settled SetAt).
  - by apply (cached_edit_settled (fun _ => Push) 0).
  - by apply (cached_edit_settled Insert).
  - apply edit_settled; [| done]. simpl. by intros k Hk%elem_of_nil.
  - apply edit_settled; [| done]. simpl. by intros k Hk%elem_of_nil.
  - apply edit_settled; [| done]. simpl. by intros k Hk%elem_of_nil.
  - eapply settled_same; [| | exact Hset]; [| done].
    unfold Tasks.beginCompoundOperation, TaskList.beginCompoundOperation.
    cbn [fst snd with_order _taskOrder].
    unfold OrderedStore.beginCompoundOperation. by destruct (depth _).
  - eapply settled_same; [| | exact Hset]; [| done].
    unfold Tasks.endCompoundOperation, TaskList.endCompoundOperation.
    cbn [fst snd with_order _taskOrder].
    unfold OrderedStore.endCompoundOperation.
    destruct (depth _) as [|[|n]]; done.
  - (* undo *)
    unfold Tasks.undo, TaskList.undo. cbn [fst snd].
    destruct (undoStack (_taskOrder m)) as [|step rest] eqn:Hu; [done |].
    cbn [fst snd].
    eapply settled_same; [| | apply (replay_settled (undoPlan step) m s)];
      [done | done | | done].
    intros e i He Hi. destruct (undoPlan_ids _ _ _ He Hi) as (c & Hc & Hic).
    apply Hcoh. right. exists step, c. rewrite Hu.
    split; [apply elem_of_app; left; left | done].
  - (* redo *)
    unfold Tasks.redo, TaskList.redo. cbn [fst snd].
    destruct (redoStack (_taskOrder m)) as [|step rest] eqn:Hu; [done |].
    cbn [fst snd].
    eapply settled_same; [| | apply (replay_settled (redoPlan step) m s)];
      [done | done | | done].
    intros e i He Hi. destruct (redoPlan_ids _ _ _ He Hi) as (c & Hc & Hic).
    apply Hcoh. right. exists step, c. rewrite Hu.
    split; [apply elem_of_app; right; left | done].
  - (* clearUndo *)
    eapply settled_agree; [| | exact Hset]; [done |].
    intros k Hk. unfold TaskList.clearUndo. cbn [_taskMap].
    destruct (_taskMap m !! k) as [v|] eqn:Hv.
    + apply map_lookup_filter_Some. by split.
    + apply map_lookup_filter_None. left. done.
Qed.

Lemma reachable_settled st :
  Layout.reachable st -> settled (fst st) (snd st).
Proof.
  induction 1 as [|st st' Hreach IH Hstep].
  - split; [| split]; [done | | done].
    split; [apply NoDup_nil_2 | apply Forall_nil_2].
  - eapply step_settled; [done | by apply layout_reachable_coherent | done].
Qed.

End Steps.

(** In every state that a new surface on a new model reaches by calls of
    the task list (creation of tasks, set, push, insert, remove, move,
    clear, compound operations, undo, redo, clearUndo): the surface has
    one child per task of the list; the child at an index shows the task
    that [get] returns for that index; the children are distinct widget
    objects; and the active index is [-1] when the list is empty and an
    index of the list otherwise. *)
Theorem children_mirror_the_task_list (st : Model * Taskbook.Surface) :
  Layout.reachable st ->
  let m := fst st in
  let s := snd st in
  len (Taskbook.widgets s) = TaskList.length m
  /\ (forall i c, at_index (Taskbook.widgets s) i = Some c ->
                  TaskList.get i m = Some (Task.model c))
  /\ NoDup (Task.wid <$> Taskbook.widgets s)
  /\ (if TaskList.isEmpty m then Taskbook._activeTaskIndex s = -1
      else 0 <= Taskbook._activeTaskIndex s < TaskList.length m).
Proof.
  intros Hreach m s.
  destruct (reachable_settled st Hreach) as (Hmir & [Hnd _] & Hfit).
  fold m s in Hmir, Hnd, Hfit.
  pose proof (mirrors_length m s Hmir) as Hlen.
  split; [| split; [| split]].
  - unfold len, TaskList.length. by rewrite Hlen.
  - intros i c Hc. apply at_index_Some in Hc as [Hi Hc].
    unfold Layout.mirrors, TaskList.iter in Hmir.
    assert (Hk : ((fun c => Some (Task.model c)) <$> Taskbook.widgets s)
                   !! Z.to_nat i = Some (Some (Task.model c))).
    { by rewrite list_lookup_fmap, Hc. }
    rewrite <- Hmir, list_lookup_fmap in Hk.
    unfold TaskList.get.
    destruct (OrderedStore.items (_taskOrder m) !! Z.to_nat i) as [k|] eqn:Hki;
      [| done].
    assert (Hat : at_index (OrderedStore.items (_taskOrder m)) i = Some k)
      by (apply at_index_Some; by split).
    rewrite Hat. simpl in Hk. by injection Hk.
  - exact Hnd.
  - unfold Layout.fits, clamped in Hfit. unfold TaskList.isEmpty.
    destruct (TaskList.length m =? 0) eqn:Hz; [done |].
    apply Z.eqb_neq in Hz. unfold TaskList.length, len in *. lia.
Qed.

Lemma children_mirror_the_task_list_witness :
  let m1 := snd (ContentFactory.createDataintegrationTask
                   TaskbookActions.blank empty_model) in
  let st := Tasks.push 0%nat (m1, Taskbook.initial) in
  len (Taskbook.widgets (snd st)) = 1
  /\ Taskbook._activeTaskIndex (snd st) = 0.
Proof.
  intros m1 st.
  assert (Hreach : Layout.reachable st).
  { eapply Layout.reachable_step.
    - eapply Layout.reachable_step; [apply Layout.reachable_new |].
      apply (Layout.step_create Dataintegration TaskbookActions.blank).
    - apply Layout.step_push. eexists. split; [reflexivity |].
      split; [reflexivity |]. left. reflexivity. }
  destruct (children_mirror_the_task_list st Hreach) as (H1 & _ & _ & H4).
  split.
  - exact H1.
  - vm_compute. reflexivity.
Defined.

Section ModelSetter.

Import Taskbook Layout OrderedStore.

Lemma removeAll_spec m (n : nat) s :
  n = length (widgets s) ->
  widgets (removeAll m n s) = [] /\ wids (removeAll m n s) = wids s.
Proof.
  revert s. induction n as [|n IH]; intros s Hn; cbn [removeAll].
  - split; [| done]. by destruct (widgets s).
  - destruct (widgets s) as [|c ws] eqn:Hws; [done |].
    unfold _removeTask. rewrite Hws. cbn [at_index Z.ltb Z.compare Z.to_nat lookup list_lookup].
    unfold onTaskRemoved.
    set (s1 := set_activeTaskIndex _ _ _).
    assert (Hw1 : widgets s1 = ws).
    { subst s1. by rewrite set_activeTaskIndex_widgets. }
    destruct (IH s1) as [H1 H2].
    { rewrite Hw1. simpl in Hn. lia. }
    split; [exact H1 |].
    change (wids (removeAll m n s1) = wids s). rewrite H2. reflexivity.
Qed.

Lemma insertTasks_append md (ls : list loc) s :
  widgets (insertTasks (Some md) (len (widgets s)) (Some <$> ls) s)
  = widgets s ++ imap (fun j l => Task.create (wids s + j) l) ls
  /\ wids (insertTasks (Some md) (len (widgets s)) (Some <$> ls) s)
     = (wids s + length ls)%nat.
Proof.
  revert s. induction ls as [|l ls IH]; intros s; cbn [fmap list_fmap insertTasks].
  - split; [by rewrite app_nil_r | simpl; lia].
  - destruct (insertTask_spec md (len (widgets s)) l s) as (Hw & Hwid & _).
    unfold len in Hw. rewrite clamp_index_nat, insert_at_end in Hw by lia.
    set (s1 := _insertTask _ _ _ _) in *.
    assert (Hlen : len (widgets s) + 1 = len (widgets s1)).
    { unfold len. rewrite Hw, length_app. simpl. lia. }
    rewrite Hlen.
    destruct (IH s1) as [H1 H2].
    change (list_fmap loc (option loc) Some ls) with (Some <$> ls).
    rewrite H1, H2, Hw, Hwid. split; [| simpl; lia].
    rewrite <- app_assoc. simpl. f_equal. f_equal.
    + by rewrite Nat.add_0_r.
    + apply imap_ext. intros j x _. simpl. f_equal. lia.
Qed.

Lemma iter_defined m :
  forallb is_defined (TaskList.iter m) = true ->
  exists ls, TaskList.iter m = Some <$> ls.
Proof.
  induction (TaskList.iter m) as [|v vs IH]; intros H.
  - by exists [].
  - simpl in H. apply andb_true_iff in H as [Hv H].
    destruct (IH H) as [ls ->]. destruct v as [l|]; [| done].
    by exists (l :: ls).
Qed.

Lemma NoDup_imap_wids (k : nat) (ls : list loc) :
  NoDup (Task.wid <$> imap (fun j l => Task.create (k + j) l) ls).
Proof.
  revert k. induction ls as [|l ls IH]; intros k; simpl; [apply NoDup_nil_2 |].
  apply NoDup_cons. split.
  - intros Hin. apply list_elem_of_fmap in Hin as (c & Hc & Hin).
    apply elem_of_lookup_imap in Hin as (j & x & -> & _). simpl in Hc. lia.
  - rewrite (imap_ext _ (fun j x => Task.create (S k + j) x)); [apply IH |].
    intros j x _. simpl. f_equal. lia.
Qed.

End ModelSetter.

(** Giving the surface a model whose tasks are all defined.  Whatever the
    surface showed before, it ends up with the new model and one child per
    task of its list, in the order of the list, each a new widget for the
    task at its index; the children are distinct widget objects, none is
    marked selected; the first task is the active one ([-1] and no active
    widget when the list is empty).  A surface without a model has no
    children, which is the precondition. *)
Theorem set_model_rebuilds_the_children (m : Model) (w : Taskbook.t) :
  forallb Taskbook.is_defined (TaskList.iter m) = true ->
  (Taskbook.model w = None -> Taskbook.widgets (Taskbook.ui w) = []) ->
  exists w',
    Taskbook.set_model (Some m) w = Some w'
    /\ Taskbook.model w' = Some m
    /\ Layout.mirrors m (Taskbook.ui w')
    /\ NoDup (Task.wid <$> Taskbook.widgets (Taskbook.ui w'))
    /\ Forall (fun c => Task.selected c = false
                        /\ (Taskbook.wids (Taskbook.ui w) <= Task.wid c)%nat)
              (Taskbook.widgets (Taskbook.ui w'))
    /\ Taskbook._activeTaskIndex (Taskbook.ui w')
       = (if TaskList.isEmpty m then -1 else 0)
    /\ Taskbook._activeTask (Taskbook.ui w')
       = Task.wid <$> at_index (Taskbook.widgets (Taskbook.ui w')) 0.
Proof.
  intros Hdef Hnone.
  destruct (iter_defined m Hdef) as [ls Hls].
  unfold Taskbook.set_model, Taskbook._onModelChanged. rewrite Hdef.
  set (s1 := match Taskbook.model w with
             | Some _ => Taskbook.removeAll (Some m)
                           (length (Taskbook.widgets (Taskbook.ui w)))
                           (Taskbook.ui w)
             | None => Taskbook.ui w
             end).
  assert (Hs1 : Taskbook.widgets s1 = []
                /\ Taskbook.wids s1 = Taskbook.wids (Taskbook.ui w)).
  { subst s1. destruct (Taskbook.model w) as [m0|].
    - by apply removeAll_spec.
    - split; [by apply Hnone | done]. }
  destruct Hs1 as [Hw1 Hwid1].
  pose proof (insertTasks_append m ls s1) as [Hw2 Hwid2].
  rewrite Hw1 in Hw2. change (len []) with 0 in Hw2. rewrite <- Hls in Hw2.
  simpl in Hw2.
  set (s2 := Taskbook.insertTasks (Some m) 0 (TaskList.iter m) s1) in *.
  exists (Taskbook.Build (Some m) (Taskbook.onModelChanged (Some m) s2)).
  split; [by destruct (Taskbook.model w) |].
  split; [done |].
  unfold Taskbook.onModelChanged.
  assert (Hw3 : Taskbook.widgets (Taskbook.set_activeTaskIndex (Some m) 0 s2)
                = imap (fun j l => Task.create (Taskbook.wids s1 + j) l) ls).
  { by rewrite set_activeTaskIndex_widgets. }
  cbn [Taskbook.ui]. split; [| split; [| split; [| split]]].
  - unfold Layout.mirrors. rewrite Hw3, Hls.
    apply list_eq. intros j.
    rewrite !list_lookup_fmap, list_lookup_imap.
    by destruct (ls !! j).
  - rewrite Hw3. apply NoDup_imap_wids.
  - rewrite Hw3. apply Forall_forall. intros c Hc.
    apply elem_of_lookup_imap in Hc as (j & x & -> & _). simpl.
    split; [done | lia].
  - rewrite set_activeTaskIndex_index. unfold clamped, TaskList.isEmpty.
    destruct (TaskList.length m =? 0) eqn:Hz; [done |].
    apply Z.eqb_neq in Hz. unfold TaskList.length, len in *. lia.
  - unfold Taskbook.set_activeTaskIndex.
    cbn [Taskbook._activeTask Taskbook.widgets].
    unfold TaskList.isEmpty.
    destruct (TaskList.length m =? 0) eqn:Hz.
    + apply Z.eqb_eq in Hz.
      assert (Hnil : Taskbook.widgets s2 = []).
      { rewrite Hw2. unfold TaskList.length, len in Hz.
        assert (Hl : length ls = 0%nat).
        { apply (f_equal length) in Hls. unfold TaskList.iter in Hls.
          rewrite !length_fmap in Hls. lia. }
        by destruct ls. }
      by rewrite Hnil.
    + apply Z.eqb_neq in Hz.
      replace (Z.min (Z.max 0 0) (TaskList.length m - 1)) with 0; [done |].
      unfold TaskList.length, len in *. lia.
Qed.

Lemma set_model_rebuilds_the_children_witness :
  exists w',
    Taskbook.set_model (Some (Examples.model_of Examples.abc))
      (Taskbook.Build None Taskbook.initial) = Some w'
    /\ Taskbook._activeTaskIndex (Taskbook.ui w') = 0.
Proof.
  destruct (set_model_rebuilds_the_children (Examples.model_of Examples.abc)
              (Taskbook.Build None Taskbook.initial))
    as (w' & H1 & _ & _ & _ & _ & H6 & _).
  - reflexivity.
  - reflexivity.
  - exists w'. split; [exact H1 | exact H6].
Defined.

Section SurfaceOps.

Import Taskbook Layout OrderedStore.

Lemma settled_set_active m v s :
  settled m s -> settled m (set_activeTaskIndex (Some m) v s).
Proof.
  intros (Hmir & Hdis & Hfit). split; [| split].
  - unfold mirrors. by rewrite set_activeTaskIndex_widgets.
  - unfold distinct. by rewrite set_activeTaskIndex_widgets.
  - unfold fits. by rewrite !set_activeTaskIndex_index, clamped_idem.
Qed.

Lemma settled_widgets m s (f : Task.t -> Task.t) :
  (forall c, Task.model (f c) = Task.model c /\ Task.wid (f c) = Task.wid c) ->
  settled m s -> settled m (with_widgets (f <$> widgets s) s).
Proof.
  intros Hf (Hmir & [Hnd Hlt] & Hfit). split; [| split].
  - unfold mirrors. cbn [with_widgets widgets]. rewrite <- list_fmap_compose.
    rewrite Hmir. apply list_fmap_ext. intros j c _. simpl.
    by rewrite (proj1 (Hf c)).
  - unfold distinct. cbn [with_widgets widgets wids]. split.
    + rewrite <- list_fmap_compose.
      rewrite (list_fmap_ext _ Task.wid (widgets s)); [done |].
      intros j c _. simpl. apply Hf.
    + apply Forall_fmap. eapply Forall_impl; [exact Hlt |].
      intros c Hc. simpl. by rewrite (proj2 (Hf c)).
  - exact Hfit.
Qed.

Lemma settled_update_widget m s x (f : Task.t -> Task.t) :
  (forall c, Task.model (f c) = Task.model c /\ Task.wid (f c) = Task.wid c) ->
  settled m s -> settled m (update_widget x f s).
Proof.
  intros Hf. unfold update_widget. apply settled_widgets.
  intros c. destruct (Nat.eqb (Task.wid c) x); [apply Hf | done].
Qed.

Lemma settled_deselectAll m s :
  settled m s -> settled m (deselectAll (Some m) s).
Proof.
  intros H. unfold deselectAll. apply settled_set_active.
  by apply settled_widgets.
Qed.

Lemma settled_set_mode m v s : settled m s -> settled m (set_mode v s).
Proof.
  intros H. unfold set_mode.
  destruct (TaskbookMode_eqb _ _); [done |].
  assert (H1 : settled m (MkSurface (widgets s) (_activeTaskIndex s)
                            (_activeTask s)
                            (if hasActiveTask s then v else command)
                            (_dragData s) (isDisposed s) (wids s))) by done.
  destruct (if hasActiveTask s then v else command); [done |].
  cbv zeta.
  match goal with |- settled m (match ?a with _ => _ end) =>
    destruct a eqn:Ha end.
  - apply settled_update_widget; [done |].
    by apply (settled_widgets m _ (Task.with_selected false)).
  - by apply (settled_widgets m _ (Task.with_selected false)).
Qed.

Lemma insert_new (i : Z) (l : loc) (e : TaskModel.t) m s :
  settled m s ->
  heap m !! l = Some e ->
  TaskModel.id e ∉ items (_taskOrder m) ->
  let j := clamp_index i (length (items (_taskOrder m))) in
  let st := Tasks.insert i l (m, s) in
  items (_taskOrder (fst st)) = insert_at j (TaskModel.id e) (items (_taskOrder m))
  /\ heap (fst st) = heap m
  /\ _taskMap (fst st) = <[TaskModel.id e := Some l]> (_taskMap m)
  /\ snd st = _insertTask (Some (fst st)) (Z.of_nat j) l s
  /\ settled (fst st) (snd st)
  /\ undoStack (_taskOrder (fst st))
     = undoStack (record (ChangedArgs Add (-1) (Z.of_nat j) [] [TaskModel.id e])
                    (_taskOrder m)).
Proof.
  intros Hset He Hfresh j st. subst st. unfold Tasks.insert.
  rewrite (insert_cached _ i l e m s He). cbn [fst snd].
  fold j. cbn [_taskOrder heap _taskMap].
  split; [by rewrite record_items |]. split; [done |]. split; [done |].
  split; [reflexivity |]. split.
  - set (mc := with_map (<[TaskModel.id e := Some l]> (_taskMap m)) m).
    assert (Hmc : settled mc s).
    { eapply settled_agree; [| | exact Hset]; [done |].
      intros k Hk. cbn [mc with_map _taskMap].
      apply lookup_insert_ne. by intros <-. }
    eapply (slot_insert j (TaskModel.id e) l mc); try done.
    + unfold TaskList.map_get. cbn [mc with_map _taskMap].
      by rewrite lookup_insert_eq.
    + apply clamp_index_le.
    + cbn [_taskOrder mc with_map]. by rewrite record_items.
  - unfold record. cbn [isUndoable depth madeCompoundChange undoStack with_items].
    repeat (match goal with |- context [if ?b then _ else _] => destruct b end;
            try reflexivity).
    all: destruct (undoStack (_taskOrder m)); reflexivity.
Qed.

End SurfaceOps.

Section InsertBlank.

Import Taskbook Layout OrderedStore.

Lemma settled_create ty o m s :
  settled m s -> settled (snd (ContentFactory.create ty o m)) s.
Proof.
  intros H. destruct (create_spec ty o m) as (Ho & Hm & _).
  eapply settled_same; [| | exact H]; [by rewrite Ho | done].
Qed.

Lemma insert_blank (i : Z) m s :
  settled m s ->
  uuid (uuids m) ∉ items (_taskOrder m) ->
  let r := ContentFactory.createDataintegrationTask TaskbookActions.blank m in
  let st := Tasks.insert i (fst r) (snd r, s) in
  let j := clamp_index i (length (items (_taskOrder m))) in
  let e0 := TaskModel.Build (uuid (uuids m)) Dataintegration "" false [] None []
                            false in
  items (_taskOrder (fst st)) = insert_at j (uuid (uuids m)) (items (_taskOrder m))
  /\ heap (fst st) = heap m ++ [e0]
  /\ Examples.entity (Z.of_nat j) (fst st) = Some e0
  /\ snd st = _insertTask (Some (fst st)) (Z.of_nat j) (length (heap m)) s
  /\ settled (fst st) (snd st)
  /\ TaskList.length (fst st) = TaskList.length m + 1.
Proof.
  intros Hset Hfresh r st j e0.
  pose proof (settled_create Dataintegration TaskbookActions.blank m s Hset) as Hc.
  fold ContentFactory.createDataintegrationTask in Hc. fold r in Hc.
  assert (Hr : r = (length (heap m),
                    MkModel (_taskOrder m) (_taskMap m) (heap m ++ [e0])
                      (<[type_key (uuid (uuids m)) := type_name Dataintegration]>
                         (modelDB m))
                      (S (uuids m)))) by reflexivity.
  set (mc := snd r) in *.
  assert (He : heap mc !! fst r = Some e0).
  { subst mc. rewrite Hr. cbn [fst snd heap].
    rewrite lookup_app_r by lia. by rewrite Nat.sub_diag. }
  assert (Hits : items (_taskOrder mc) = items (_taskOrder m))
    by (subst mc; by rewrite Hr).
  destruct (insert_new i (fst r) e0 mc s Hc He) as (H1 & H2 & H3 & H4 & H5 & _).
  { by rewrite Hits. }
  rewrite Hits in H1, H4. fold st in H1, H2, H3, H4, H5. fold j in H1, H4.
  change (TaskModel.id e0) with (uuid (uuids m)) in H1, H3.
  split; [exact H1 |]. split; [rewrite H2; subst mc; by rewrite Hr |].
  split.
  { unfold Examples.entity, TaskList.get. rewrite H1.
    assert (Hat : at_index (insert_at j (uuid (uuids m)) (items (_taskOrder m)))
                    (Z.of_nat j) = Some (uuid (uuids m))).
    { rewrite at_index_nat. apply lookup_insert_at_eq. apply clamp_index_le. }
    rewrite Hat. unfold TaskList.map_get. rewrite H3.
    rewrite lookup_insert_eq, H2. exact He. }
  split; [rewrite H4; by rewrite Hr |]. split; [exact H5 |].
  unfold TaskList.length, len. rewrite H1, length_insert_at. lia.
Qed.

Lemma fits_active m s :
  fits m s -> activeTaskIndex (Some m) s = _activeTaskIndex s.
Proof.
  unfold fits, clamped, activeTaskIndex.
  destruct (TaskList.length m =? 0); [by intros -> | done].
Qed.

Lemma fits_range m s :
  fits m s -> -1 <= _activeTaskIndex s < TaskList.length m
              /\ (_activeTaskIndex s = -1 <-> TaskList.length m = 0).
Proof.
  unfold fits, clamped, TaskList.length, len.
  destruct (Z.of_nat _ =? 0) eqn:Hz; [apply Z.eqb_eq in Hz | apply Z.eqb_neq in Hz];
    lia.
Qed.

Lemma deselectAll_index m s :
  _activeTaskIndex (deselectAll (Some m) s)
  = clamped (TaskList.length m) (activeTaskIndex (Some m) s).
Proof. unfold deselectAll. by rewrite set_activeTaskIndex_index. Qed.

Lemma deselectAll_unmarks m s :
  Forall (fun c => Task.selected c = false) (widgets (deselectAll m s)).
Proof. apply deselectAll_spec. Qed.

End InsertBlank.

Section InsertActions.

Import Taskbook Layout OrderedStore TaskbookActions.

Lemma insertTask_index md i l s :
  _activeTaskIndex (_insertTask (Some md) i l s)
  = clamped (TaskList.length md)
      (if i <=? activeTaskIndex (Some md) s
       then activeTaskIndex (Some md) s + 1 else activeTaskIndex (Some md) s).
Proof.
  unfold _insertTask, onTaskInserted. by rewrite set_activeTaskIndex_index.
Qed.

Lemma active_nonempty m s :
  TaskList.length m <> 0 -> activeTaskIndex (Some m) s = _activeTaskIndex s.
Proof.
  intros H. unfold activeTaskIndex. by destruct (Z.eqb_spec (TaskList.length m) 0).
Qed.

(** The common part of [insertAbove] and [insertBelow]: a new blank task
    goes in at [i], and the index [v] is made active. *)
Lemma insert_blank_then_activate (i : Z) (v : Z -> Z) m s :
  settled m s ->
  uuid (uuids m) ∉ items (_taskOrder m) ->
  let r := ContentFactory.createDataintegrationTask blank m in
  let w2 := on_tasks (Tasks.insert i (fst r)) (Build (Some (snd r)) s) in
  let w' := on_ui deselectAll (set_active (v (active w2)) w2) in
  let j := clamp_index i (length (items (_taskOrder m))) in
  let e0 := TaskModel.Build (uuid (uuids m)) Dataintegration "" false [] None []
                            false in
  exists m',
    model w' = Some m'
    /\ items (_taskOrder m')
       = insert_at j (uuid (uuids m)) (items (_taskOrder m))
    /\ heap m' = heap m ++ [e0]
    /\ Examples.entity (Z.of_nat j) m' = Some e0
    /\ settled m' (ui w')
    /\ Forall (fun c => Task.selected c = false) (widgets (ui w'))
    /\ active w2
       = clamped (TaskList.length m + 1)
           (if Z.of_nat j <=? _activeTaskIndex s
            then _activeTaskIndex s + 1 else _activeTaskIndex s)
    /\ active w' = clamped (TaskList.length m + 1) (v (active w2)).
Proof.
  intros Hset Hfresh r w2 w' j e0.
  destruct (insert_blank i m s Hset Hfresh) as (H1 & H2 & H3 & H4 & H5 & H6).
  fold r in H1, H2, H3, H4, H5, H6. fold j in H1, H3, H4. fold e0 in H2, H3.
  set (st := Tasks.insert i (fst r) (snd r, s)) in *.
  assert (Hw2 : w2 = Build (Some (fst st)) (snd st)) by reflexivity.
  assert (Hne : TaskList.length (fst st) <> 0).
  { rewrite H6. unfold TaskList.length, len. lia. }
  assert (Ha2 : active w2
                = clamped (TaskList.length m + 1)
                    (if Z.of_nat j <=? _activeTaskIndex s
                     then _activeTaskIndex s + 1 else _activeTaskIndex s)).
  { rewrite Hw2. unfold active. cbn [model ui].
    rewrite (active_nonempty _ _ Hne), H4, insertTask_index.
    rewrite (active_nonempty _ _ Hne), H6. reflexivity. }
  exists (fst st).
  assert (Hw' : w' = Build (Some (fst st))
                       (deselectAll (Some (fst st))
                          (set_activeTaskIndex (Some (fst st)) (v (active w2))
                             (snd st)))).
  { subst w'. rewrite Hw2 at 2. reflexivity. }
  rewrite Hw'. cbn [model ui].
  split; [done |]. split; [done |]. split; [done |]. split; [done |].
  split; [by apply settled_deselectAll, settled_set_active |].
  split; [apply deselectAll_unmarks |].
  split; [exact Ha2 |].
  unfold active. cbn [model ui]. rewrite (active_nonempty _ _ Hne).
  rewrite deselectAll_index, (active_nonempty _ _ Hne).
  rewrite set_activeTaskIndex_index, clamped_idem, H6. reflexivity.
Qed.

End InsertActions.

(** [insertBelow] on a surface that is in step with its task list: a new
    executable task without text, with the next id of the factory, goes
    into the list right after the active task; every other task keeps its
    place relative to the others; the new task becomes the active one; no
    child is left marked selected; and the surface is in step with the
    list again. *)
Theorem insertBelow_adds_a_task_after_the_active_one
  (w : Taskbook.t) (m : Model) :
  Taskbook.model w = Some m ->
  Taskbook.hasActiveTask (Taskbook.ui w) = true ->
  Layout.settled m (Taskbook.ui w) ->
  uuid (uuids m) ∉ OrderedStore.items (_taskOrder m) ->
  let a := TaskbookActions.active w in
  let w' := TaskbookActions.insertBelow w in
  let e0 := TaskModel.Build (uuid (uuids m)) Dataintegration "" false [] None []
                            false in
  exists m',
    Taskbook.model w' = Some m'
    /\ OrderedStore.items (_taskOrder m')
       = insert_at (Z.to_nat (a + 1)) (uuid (uuids m))
                   (OrderedStore.items (_taskOrder m))
    /\ heap m' = heap m ++ [e0]
    /\ Examples.entity (a + 1) m' = Some e0
    /\ TaskbookActions.active w' = a + 1
    /\ Layout.settled m' (Taskbook.ui w')
    /\ Forall (fun c => Task.selected c = false)
              (Taskbook.widgets (Taskbook.ui w')).
Proof.
  intros Hm Hact Hset Hfresh a w' e0.
  destruct w as [wm s]. cbn [Taskbook.model Taskbook.ui] in *. subst wm.
  pose proof Hset as (_ & _ & Hfit).
  pose proof (fits_range m s Hfit) as [Hrange Hempty].
  assert (Ha : a = Taskbook._activeTaskIndex s).
  { subst a. unfold TaskbookActions.active. cbn [Taskbook.model Taskbook.ui].
    by apply fits_active. }
  assert (Hw' : w' = _) by (subst w'; unfold TaskbookActions.insertBelow,
    TaskbookActions.ready; cbn [Taskbook.model Taskbook.ui]; rewrite Hact;
    cbn [negb]; reflexivity).
  cbv zeta in Hw'.
  assert (Ha1 : TaskbookActions.active
                  (Taskbook.Build
                     (Some (snd (ContentFactory.createDataintegrationTask
                                   TaskbookActions.blank m))) s) = a).
  { unfold TaskbookActions.active. cbn [Taskbook.model Taskbook.ui].
    rewrite Ha. by apply fits_active. }
  rewrite Ha1 in Hw'.
  destruct (insert_blank_then_activate (a + 1) (fun x => x + 1) m s Hset Hfresh)
    as (m' & G1 & G2 & G3 & G4 & G5 & G6 & G7 & G8).
  cbv beta in G1, G5, G6, G8. rewrite <- Hw' in G1, G5, G6, G8.
  assert (Hj : clamp_index (a + 1)
                 (length (OrderedStore.items (_taskOrder m)))
               = Z.to_nat (a + 1)).
  { unfold clamp_index, TaskList.length, len in *. lia. }
  rewrite Hj in G2, G4, G7. rewrite Z2Nat.id in G4, G7 by lia.
  exists m'. split; [done |]. split; [done |]. split; [done |].
  split; [done |]. split; [| by split].
  rewrite G8, G7, <- Ha.
  unfold clamped, TaskList.length, len in *.
  destruct (Z.leb_spec (a + 1) a); [lia |].
  destruct (Z.eqb_spec (Z.of_nat (length (OrderedStore.items (_taskOrder m))) + 1) 0);
    lia.
Qed.

Lemma insertBelow_adds_a_task_after_the_active_one_witness :
  let w := Examples.abc in
  exists m',
    Taskbook.model (TaskbookActions.insertBelow w) = Some m'
    /\ OrderedStore.items (_taskOrder m') = ["uuid-0"; "uuid-3"; "uuid-1"; "uuid-2"]
    /\ TaskbookActions.active (TaskbookActions.insertBelow w) = 1.
Proof.
  intros w.
  destruct (insertBelow_adds_a_task_after_the_active_one w
              (Examples.model_of w))
    as (m' & H1 & H2 & _ & _ & H5 & _).
  - vm_compute. reflexivity.
  - vm_compute. reflexivity.
  - split; [vm_compute; reflexivity |]. split; [| vm_compute; reflexivity].
    split.
    + apply (bool_decide_unpack _). vm_compute. exact I.
    + apply (bool_decide_unpack _). vm_compute. exact I.
  - apply (bool_decide_unpack _). vm_compute. exact I.
  - exists m'. split; [exact H1 |]. split.
    + rewrite H2. vm_compute. reflexivity.
    + rewrite H5. vm_compute. reflexivity.
Defined.

(** [insertAbove] on a surface that is in step with its task list: the new
    blank executable task takes the place of the active task, which moves
    one down with the tasks after it; the new task becomes the active one;
    no child is left marked selected; and the surface is in step with the
    list again. *)
Theorem insertAbove_adds_a_task_before_the_active_one
  (w : Taskbook.t) (m : Model) :
  Taskbook.model w = Some m ->
  Taskbook.hasActiveTask (Taskbook.ui w) = true ->
  Layout.settled m (Taskbook.ui w) ->
  uuid (uuids m) ∉ OrderedStore.items (_taskOrder m) ->
  let a := Z.max 0 (TaskbookActions.active w) in
  let w' := TaskbookActions.insertAbove w in
  let e0 := TaskModel.Build (uuid (uuids m)) Dataintegration "" false [] None []
                            false in
  exists m',
    Taskbook.model w' = Some m'
    /\ OrderedStore.items (_taskOrder m')
       = insert_at (Z.to_nat a) (uuid (uuids m))
                   (OrderedStore.items (_taskOrder m))
    /\ heap m' = heap m ++ [e0]
    /\ Examples.entity a m' = Some e0
    /\ TaskbookActions.active w' = a
    /\ Layout.settled m' (Taskbook.ui w')
    /\ Forall (fun c => Task.selected c = false)
              (Taskbook.widgets (Taskbook.ui w')).
Proof.
  intros Hm Hact Hset Hfresh a w' e0.
  destruct w as [wm s]. cbn [Taskbook.model Taskbook.ui] in *. subst wm.
  pose proof Hset as (_ & _ & Hfit).
  pose proof (fits_range m s Hfit) as [Hrange Hempty].
  assert (Ha : TaskbookActions.active (Taskbook.Build (Some m) s)
               = Taskbook._activeTaskIndex s).
  { unfold TaskbookActions.active. cbn [Taskbook.model Taskbook.ui].
    by apply fits_active. }
  assert (Hw' : w' = _) by (subst w'; unfold TaskbookActions.insertAbove,
    TaskbookActions.ready; cbn [Taskbook.model Taskbook.ui]; rewrite Hact;
    cbn [negb]; reflexivity).
  cbv zeta in Hw'.
  assert (Ha1 : TaskbookActions.active
                  (Taskbook.Build
                     (Some (snd (ContentFactory.createDataintegrationTask
                                   TaskbookActions.blank m))) s)
                = Taskbook._activeTaskIndex s).
  { unfold TaskbookActions.active. cbn [Taskbook.model Taskbook.ui].
    by apply fits_active. }
  rewrite Ha1 in Hw'.
  set (a0 := Taskbook._activeTaskIndex s) in *.
  destruct (insert_blank_then_activate a0 (fun _ => a0) m s Hset Hfresh)
    as (m' & G1 & G2 & G3 & G4 & G5 & G6 & G7 & G8).
  cbv beta in G1, G5, G6, G8. rewrite <- Hw' in G1, G5, G6, G8.
  assert (Hj : clamp_index a0 (length (OrderedStore.items (_taskOrder m)))
               = Z.to_nat a).
  { subst a. rewrite Ha. unfold clamp_index, TaskList.length, len in *. lia. }
  rewrite Hj in G2, G4. rewrite Z2Nat.id in G4 by lia.
  exists m'. split; [done |]. split; [done |]. split; [done |].
  split; [done |]. split; [| by split].
  rewrite G8. subst a. rewrite Ha.
  unfold clamped, TaskList.length, len in *.
  destruct (Z.eqb_spec (Z.of_nat (length (OrderedStore.items (_taskOrder m))) + 1) 0);
    lia.
Qed.

Lemma insertAbove_adds_a_task_before_the_active_one_witness :
  let w := TaskbookActions.set_active 2 Examples.abc in
  exists m',
    Taskbook.model (TaskbookActions.insertAbove w) = Some m'
    /\ OrderedStore.items (_taskOrder m') = ["uuid-0"; "uuid-1"; "uuid-3"; "uuid-2"]
    /\ TaskbookActions.active (TaskbookActions.insertAbove w) = 2.
Proof.
  intros w.
  destruct (insertAbove_adds_a_task_before_the_active_one w
              (Examples.model_of w))
    as (m' & H1 & H2 & _ & _ & H5 & _).
  - vm_compute. reflexivity.
  - vm_compute. reflexivity.
  - split; [vm_compute; reflexivity |]. split; [| vm_compute; reflexivity].
    split.
    + apply (bool_decide_unpack _). vm_compute. exact I.
    + apply (bool_decide_unpack _). vm_compute. exact I.
  - apply (bool_decide_unpack _). vm_compute. exact I.
  - exists m'. split; [exact H1 |]. split.
    + rewrite H2. vm_compute. reflexivity.
    + rewrite H5. vm_compute. reflexivity.
Defined.

Section Select.

Import Taskbook Layout OrderedStore TaskbookActions.

Lemma set_active_has m v s :
  settled m s -> TaskList.length m <> 0 ->
  hasActiveTask (set_activeTaskIndex (Some m) v s) = true.
Proof.
  intros (Hmir & _ & _) Hn.
  pose proof (mirrors_length m s Hmir) as Hlen.
  unfold hasActiveTask, set_activeTaskIndex. cbn [_activeTask].
  destruct (Z.eqb_spec (TaskList.length m) 0) as [|_]; [done |].
  unfold TaskList.length, len in *.
  set (k := Z.min (Z.max v 0) _).
  destruct (lookup_lt_is_Some_2 (widgets s) (Z.to_nat k)) as [c Hc]; [lia |].
  assert (Hat : at_index (widgets s) k = Some c).
  { apply at_index_Some. split; [lia | done]. }
  by rewrite Hat.
Qed.

Lemma goto m s v :
  settled m s -> TaskList.length m <> 0 ->
  let s' := deselectAll (Some m) (set_activeTaskIndex (Some m) v s) in
  _activeTaskIndex s' = clamped (TaskList.length m) v
  /\ hasActiveTask s' = true
  /\ settled m s'
  /\ Forall (fun c => Task.selected c = false) (widgets s')
  /\ _mode s' = _mode s.
Proof.
  intros Hset Hn s'.
  pose proof (settled_set_active m v s Hset) as Hset1.
  split; [| split; [| split; [| split]]].
  - subst s'. rewrite deselectAll_index, (active_nonempty _ _ Hn).
    by rewrite set_activeTaskIndex_index, clamped_idem.
  - subst s'. unfold deselectAll. apply set_active_has; [| done].
    by apply settled_widgets.
  - by apply settled_deselectAll.
  - apply deselectAll_unmarks.
  - reflexivity.
Qed.

End Select.

(** [selectBelow] and [selectAbove] on a surface that is in step with its
    task list.  They never change the model or the mode.  [selectBelow]
    moves the active index one down and leaves no child marked selected,
    except on the last task, where it does nothing (no wrap-around);
    [selectAbove] moves it one up, except on the first task, where it does
    nothing; and [selectAbove] after a [selectBelow] that moved is back on
    the task one started from. *)
Theorem selectBelow_and_selectAbove_move_by_one (w : Taskbook.t) (m : Model) :
  Taskbook.model w = Some m ->
  Taskbook.hasActiveTask (Taskbook.ui w) = true ->
  Layout.settled m (Taskbook.ui w) ->
  let a := TaskbookActions.active w in
  let n := TaskList.length m in
  let down := TaskbookActions.selectBelow w in
  let up := TaskbookActions.selectAbove w in
  Taskbook.model down = Some m /\ Taskbook.model up = Some m
  /\ Taskbook._mode (Taskbook.ui down) = Taskbook._mode (Taskbook.ui w)
  /\ Taskbook._mode (Taskbook.ui up) = Taskbook._mode (Taskbook.ui w)
  /\ (a = n - 1 -> down = w)
  /\ (a = 0 -> up = w)
  /\ (a < n - 1 ->
      TaskbookActions.active down = a + 1
      /\ Forall (fun c => Task.selected c = false)
                (Taskbook.widgets (Taskbook.ui down))
      /\ TaskbookActions.active (TaskbookActions.selectAbove down) = a)
  /\ (0 < a ->
      TaskbookActions.active up = a - 1
      /\ Forall (fun c => Task.selected c = false)
                (Taskbook.widgets (Taskbook.ui up))
      /\ TaskbookActions.active (TaskbookActions.selectBelow up) = a).
Proof.
  intros Hm Hact Hset a n down up.
  destruct w as [wm s]. cbn [Taskbook.model Taskbook.ui] in *. subst wm.
  pose proof Hset as (Hmir & _ & Hfit).
  pose proof (mirrors_length m s Hmir) as Hlen.
  pose proof (fits_range m s Hfit) as [Hrange Hempty].
  assert (Ha : a = Taskbook._activeTaskIndex s).
  { subst a. unfold TaskbookActions.active. cbn [Taskbook.model Taskbook.ui].
    by apply fits_active. }
  assert (Hlen' : len (Taskbook.widgets s) = n).
  { subst n. unfold TaskList.length, len. by rewrite Hlen. }
  assert (Hdown : down = if a =? n - 1 then Taskbook.Build (Some m) s
                         else Taskbook.Build (Some m)
                                (Taskbook.deselectAll (Some m)
                                   (Taskbook.set_activeTaskIndex (Some m) (a + 1) s))).
  { subst down. unfold TaskbookActions.selectBelow, TaskbookActions.ready.
    cbn [Taskbook.model Taskbook.ui]. rewrite Hact. cbn [negb].
    fold a. rewrite Hlen'. reflexivity. }
  assert (Hup : up = if a =? 0 then Taskbook.Build (Some m) s
                     else Taskbook.Build (Some m)
                            (Taskbook.deselectAll (Some m)
                               (Taskbook.set_activeTaskIndex (Some m) (a - 1) s))).
  { subst up. unfold TaskbookActions.selectAbove, TaskbookActions.ready.
    cbn [Taskbook.model Taskbook.ui]. rewrite Hact. cbn [negb].
    fold a. reflexivity. }
  split; [rewrite Hdown; by destruct (a =? n - 1) |].
  split; [rewrite Hup; by destruct (a =? 0) |].
  split; [rewrite Hdown; by destruct (a =? n - 1) |].
  split; [rewrite Hup; by destruct (a =? 0) |].
  split; [intros E; rewrite Hdown; by destruct (Z.eqb_spec a (n - 1)) |].
  split; [intros E; rewrite Hup; by destruct (Z.eqb_spec a 0) |].
  assert (Hn : 0 <= a -> TaskList.length m <> 0) by (fold n; lia).
  split.
  - intros Hlt. rewrite Hdown.
    destruct (Z.eqb_spec a (n - 1)) as [|_]; [lia |].
    assert (Hn0 : TaskList.length m <> 0) by (fold n; lia).
    destruct (goto m s (a + 1) Hset Hn0) as (G1 & G2 & G3 & G4 & G5).
    set (s' := Taskbook.deselectAll (Some m)
                 (Taskbook.set_activeTaskIndex (Some m) (a + 1) s)) in *.
    assert (Hc : clamped (TaskList.length m) (a + 1) = a + 1).
    { apply clamped_in_range. fold n. lia. }
    rewrite Hc in G1.
    assert (Ha' : TaskbookActions.active (Taskbook.Build (Some m) s') = a + 1).
    { unfold TaskbookActions.active. cbn [Taskbook.model Taskbook.ui].
      by rewrite (active_nonempty _ _ Hn0). }
    split; [exact Ha' |]. split; [exact G4 |].
    unfold TaskbookActions.selectAbove, TaskbookActions.ready.
    cbn [Taskbook.model Taskbook.ui]. rewrite G2. cbn [negb]. rewrite Ha'.
    destruct (Z.eqb_spec (a + 1) 0) as [|_]; [lia |].
    destruct (goto m s' (a + 1 - 1) G3 Hn0) as (K1 & _).
    unfold TaskbookActions.active, TaskbookActions.set_active, Taskbook.on_ui.
    cbn [Taskbook.model Taskbook.ui].
    rewrite (active_nonempty _ _ Hn0), K1.
    rewrite clamped_in_range by (fold n; lia). lia.
  - intros Hlt. rewrite Hup.
    destruct (Z.eqb_spec a 0) as [|_]; [lia |].
    assert (Hn0 : TaskList.length m <> 0) by (fold n; lia).
    destruct (goto m s (a - 1) Hset Hn0) as (G1 & G2 & G3 & G4 & G5).
    set (s' := Taskbook.deselectAll (Some m)
                 (Taskbook.set_activeTaskIndex (Some m) (a - 1) s)) in *.
    assert (Hc : clamped (TaskList.length m) (a - 1) = a - 1).
    { apply clamped_in_range. fold n. lia. }
    rewrite Hc in G1.
    assert (Ha' : TaskbookActions.active (Taskbook.Build (Some m) s') = a - 1).
    { unfold TaskbookActions.active. cbn [Taskbook.model Taskbook.ui].
      by rewrite (active_nonempty _ _ Hn0). }
    split; [exact Ha' |]. split; [exact G4 |].
    unfold TaskbookActions.selectBelow, TaskbookActions.ready.
    cbn [Taskbook.model Taskbook.ui]. rewrite G2. cbn [negb]. rewrite Ha'.
    assert (Hlen2 : len (Taskbook.widgets s') = n).
    { destruct G3 as (Hmir' & _). subst n. unfold TaskList.length, len.
      by rewrite (mirrors_length m s' Hmir'). }
    rewrite Hlen2.
    destruct (Z.eqb_spec (a - 1) (n - 1)) as [|_]; [lia |].
    destruct (goto m s' (a - 1 + 1) G3 Hn0) as (K1 & _).
    unfold TaskbookActions.active, TaskbookActions.set_active, Taskbook.on_ui.
    cbn [Taskbook.model Taskbook.ui].
    rewrite (active_nonempty _ _ Hn0), K1.
    rewrite clamped_in_range by (fold n; lia). lia.
Qed.

Lemma selectBelow_and_selectAbove_move_by_one_witness :
  TaskbookActions.active (TaskbookActions.selectBelow Examples.abc) = 1
  /\ TaskbookActions.selectAbove Examples.abc = Examples.abc.
Proof.
  destruct (selectBelow_and_selectAbove_move_by_one Examples.abc
              (Examples.model_of Examples.abc))
    as (_ & _ & _ & _ & _ & H6 & H7 & _).
  - vm_compute. reflexivity.
  - vm_compute. reflexivity.
  - split; [vm_compute; reflexivity |]. split; [| vm_compute; reflexivity].
    split.
    + apply (bool_decide_unpack _). vm_compute. exact I.
    + apply (bool_decide_unpack _). vm_compute. exact I.
  - split.
    + destruct H7 as [H7 _]; [vm_compute; reflexivity |].
      rewrite H7. vm_compute. reflexivity.
    + apply H6. vm_compute. reflexivity.
Defined.

Section Marks.

Import Taskbook Layout Selection OrderedStore TaskbookActions.

Lemma wid_index s i j c d :
  distinct s ->
  at_index (widgets s) i = Some c -> at_index (widgets s) j = Some d ->
  Task.wid c = Task.wid d -> i = j.
Proof.
  intros [Hnd _] Hc Hd Hw.
  apply at_index_Some in Hc as [Hi Hc]. apply at_index_Some in Hd as [Hj Hd].
  assert (Z.to_nat i = Z.to_nat j); [| lia].
  eapply (NoDup_lookup _ _ _ (Task.wid c) Hnd).
  - by rewrite list_lookup_fmap, Hc.
  - by rewrite list_lookup_fmap, Hd, Hw.
Qed.

Lemma isSelected_index s i c :
  distinct s -> pointed s ->
  at_index (widgets s) i = Some c ->
  isSelected s c = (i =? _activeTaskIndex s) || Task.selected c.
Proof.
  intros Hdis Hp Hc. unfold isSelected, is_active. rewrite Hp.
  destruct (at_index (widgets s) (_activeTaskIndex s)) as [ca|] eqn:Hca; simpl.
  - destruct (Z.eqb_spec i (_activeTaskIndex s)) as [->|Hne].
    + rewrite Hc in Hca. injection Hca as ->. by rewrite Nat.eqb_refl.
    + destruct (Nat.eqb_spec (Task.wid ca) (Task.wid c)) as [Hw|]; [| done].
      exfalso. apply Hne. symmetry. by eapply wid_index.
  - destruct (Z.eqb_spec i (_activeTaskIndex s)) as [->|Hne]; [congruence | done].
Qed.

Lemma update_widget_at s j cj (f : Task.t -> Task.t) i :
  distinct s ->
  at_index (widgets s) j = Some cj ->
  at_index (widgets (update_widget (Task.wid cj) f s)) i
  = (fun c => if i =? j then f c else c) <$> at_index (widgets s) i.
Proof.
  intros Hdis Hj. unfold update_widget. cbn [with_widgets widgets].
  unfold at_index. destruct (i <? 0) eqn:Hi; [done |].
  rewrite list_lookup_fmap.
  destruct (widgets s !! Z.to_nat i) as [c|] eqn:Hc; [| done]. simpl.
  assert (Hat : at_index (widgets s) i = Some c).
  { apply at_index_Some. split; [lia | done]. }
  destruct (Nat.eqb_spec (Task.wid c) (Task.wid cj)) as [Hw|Hw].
  - rewrite (wid_index s i j c cj Hdis Hat Hj Hw). by rewrite Z.eqb_refl.
  - destruct (Z.eqb_spec i j) as [->|]; [| done].
    rewrite Hj in Hat. injection Hat as ->. done.
Qed.

Lemma marked_isSelected m a sel q i c :
  marked m a sel q -> at_index (widgets q) i = Some c ->
  isSelected q c = (i =? a) || sel i.
Proof.
  intros ((_ & Hdis & _) & Hp & Ha & Hsel) Hc.
  rewrite (isSelected_index q i c Hdis Hp Hc), Ha. by rewrite (Hsel i c Hc).
Qed.

Lemma marked_mark m a sel q j cj b :
  marked m a sel q -> at_index (widgets q) j = Some cj ->
  marked m a (fun i => if i =? j then b else sel i)
         (update_widget (Task.wid cj) (Task.with_selected b) q).
Proof.
  intros (Hset & Hp & Ha & Hsel) Hj.
  pose proof Hset as (_ & Hdis & _).
  split; [by apply settled_update_widget |].
  split; [| split; [done |]].
  - unfold pointed. rewrite (update_widget_at q j cj _ _ Hdis Hj).
    change (_activeTask (update_widget _ _ q)) with (_activeTask q).
    change (_activeTaskIndex (update_widget _ _ q)) with (_activeTaskIndex q).
    rewrite Hp. destruct (at_index (widgets q) (_activeTaskIndex q)); [| done].
    simpl. by destruct (_ =? _).
  - intros i c Hc. rewrite (update_widget_at q j cj _ _ Hdis Hj) in Hc.
    destruct (at_index (widgets q) i) as [c0|] eqn:Hc0; [| done].
    simpl in Hc. injection Hc as <-.
    destruct (i =? j); [done | by apply Hsel].
Qed.

Lemma marked_set_active m a sel q v :
  marked m a sel q ->
  marked m (clamped (TaskList.length m) v) sel
         (set_activeTaskIndex (Some m) v q).
Proof.
  intros (Hset & Hp & Ha & Hsel).
  split; [by apply settled_set_active |].
  split; [| split].
  - unfold pointed. rewrite set_activeTaskIndex_widgets.
    rewrite set_activeTaskIndex_index. unfold set_activeTaskIndex, clamped.
    cbn [_activeTask]. reflexivity.
  - apply set_activeTaskIndex_index.
  - intros i c Hc. rewrite set_activeTaskIndex_widgets in Hc. by apply Hsel.
Qed.

Lemma marked_set_mode m a sel q :
  marked m a sel q -> marked m a sel (set_mode command q).
Proof.
  intros (Hset & Hp & Ha & Hsel).
  destruct (set_mode_command_widgets q) as (Hw & Hact & _).
  assert (Hidx : _activeTaskIndex (set_mode command q) = _activeTaskIndex q).
  { unfold set_mode. destruct (hasActiveTask q); simpl;
      destruct (_mode q) eqn:Hm; simpl; rewrite ?Hm; done. }
  split; [by apply settled_set_mode |].
  split; [| split].
  - unfold pointed. by rewrite Hw, Hact, Hidx.
  - by rewrite Hidx.
  - intros i c Hc. rewrite Hw in Hc. by apply Hsel.
Qed.

Lemma marked_between m a sel q h :
  marked m a sel q ->
  (forall i, 0 <= i < TaskList.length m ->
             (i =? a) || sel i = (Z.min h a <=? i) && (i <=? Z.max h a)) ->
  between h a q.
Proof.
  intros Hmk Hall i c Hc. rewrite (marked_isSelected m a sel q i c Hmk Hc).
  apply Hall. destruct Hmk as ((Hmir & _) & _).
  pose proof (mirrors_length m q Hmir) as Hlen.
  apply at_index_Some in Hc as [Hi Hc]. apply lookup_lt_Some in Hc.
  unfold TaskList.length, len. lia.
Qed.

Lemma between_marked m a sel q h :
  marked m a sel q -> between h a q ->
  forall i, 0 <= i < TaskList.length m ->
            (i =? a) || sel i = (Z.min h a <=? i) && (i <=? Z.max h a).
Proof.
  intros Hmk Hb i Hi. pose proof Hmk as ((Hmir & _) & _).
  pose proof (mirrors_length m q Hmir) as Hlen.
  destruct (lookup_lt_is_Some_2 (widgets q) (Z.to_nat i)) as [c Hc].
  { unfold TaskList.length, len in Hi. lia. }
  assert (Hat : at_index (widgets q) i = Some c).
  { apply at_index_Some. split; [lia | done]. }
  rewrite <- (marked_isSelected m a sel q i c Hmk Hat). by apply Hb.
Qed.

Lemma marked_child m a sel q i :
  marked m a sel q -> 0 <= i < TaskList.length m ->
  exists c, at_index (widgets q) i = Some c.
Proof.
  intros ((Hmir & _) & _) Hi.
  pose proof (mirrors_length m q Hmir) as Hlen.
  destruct (lookup_lt_is_Some_2 (widgets q) (Z.to_nat i)) as [c Hc].
  { unfold TaskList.length, len in Hi. lia. }
  exists c. apply at_index_Some. split; [lia | done].
Qed.

Lemma marked_exists m q :
  settled m q -> pointed q ->
  exists sel, marked m (_activeTaskIndex q) sel q.
Proof.
  intros Hset Hp.
  exists (fun i => match at_index (widgets q) i with
                   | Some c => Task.selected c
                   | None => false
                   end).
  split; [done |]. split; [done |]. split; [done |].
  intros i c Hc. by rewrite Hc.
Qed.

End Marks.

Section Extend.

Import Taskbook Layout Selection OrderedStore TaskbookActions.

Ltac cases :=
  repeat (match goal with
          | H : context [?x =? ?y] |- _ => destruct (Z.eqb_spec x y)
          | |- context [?x =? ?y] => destruct (Z.eqb_spec x y)
          | H : context [?x <=? ?y] |- _ => destruct (Z.leb_spec x y)
          | |- context [?x <=? ?y] => destruct (Z.leb_spec x y)
          | H : context [?x <? ?y] |- _ => destruct (Z.ltb_spec x y)
          | |- context [?x <? ?y] => destruct (Z.ltb_spec x y)
          end;
          cbn [orb andb negb] in *; try lia; try congruence).

Lemma extendSelectionAbove_marked m s h a sel :
  marked m a sel s -> between h a s -> 0 < a ->
  let w' := extendSelectionAbove (Build (Some m) s) in
  model w' = Some m
  /\ (exists sel', marked m (a - 1) sel' (ui w'))
  /\ between h (a - 1) (ui w')
  /\ _mode (ui w') = command.
Proof.
  intros Hmk Hb Ha0 w'.
  pose proof (between_marked m a sel s h Hmk Hb) as Hall.
  pose proof Hmk as ((Hmir & Hdis & Hfit) & Hp & Hidx & Hsel).
  pose proof (fits_range m s Hfit) as [Hrange _]. rewrite Hidx in Hrange.
  set (n := TaskList.length m) in *.
  assert (Hn0 : TaskList.length m <> 0) by (fold n; lia).
  destruct (marked_child m a sel s a Hmk) as [ca Hca]; [fold n; lia |].
  assert (Hact : _activeTask s = Some (Task.wid ca)).
  { rewrite Hp, Hidx, Hca. reflexivity. }
  pose proof (marked_set_mode m a sel s Hmk) as Hmk1.
  destruct (set_mode_command_widgets s) as (Hw1 & Hact1 & Hmode1).
  set (s1 := set_mode command s) in *.
  destruct (marked_child m a sel s1 (a - 1) Hmk1) as [cp Hcp]; [fold n; lia |].
  assert (Hca1 : at_index (widgets s1) a = Some ca) by (by rewrite Hw1).
  assert (Hactive : forall q sel0, marked m a sel0 q ->
            active (Build (Some m) q) = a).
  { intros q sel0 (_ & _ & Hq & _). unfold active. cbn [model ui].
    by rewrite (active_nonempty _ _ Hn0). }
  assert (Hmodeq : forall q v, _mode q = command ->
            _mode (set_activeTaskIndex (Some m) v q) = command) by done.
  assert (Hfinal : forall q sel0, marked m a sel0 q -> _mode q = command ->
            (forall i, 0 <= i < n ->
               (i =? a - 1) || sel0 i
               = (Z.min h (a - 1) <=? i) && (i <=? Z.max h (a - 1))) ->
            let r := set_active (active (Build (Some m) q) - 1)
                                (Build (Some m) q) in
            model r = Some m
            /\ (exists sel', marked m (a - 1) sel' (ui r))
            /\ between h (a - 1) (ui r)
            /\ _mode (ui r) = command).
  { intros q sel0 Hq Hmq Hi r. subst r. rewrite (Hactive q sel0 Hq).
    unfold set_active, on_ui. cbn [model ui].
    pose proof (marked_set_active m a sel0 q (a - 1) Hq) as Hr.
    rewrite clamped_in_range in Hr by (fold n; lia).
    split; [done |]. split; [by exists sel0 |].
    split; [| by apply Hmodeq].
    eapply marked_between; [exact Hr | exact Hi]. }
  assert (Hw' : w' = _) by (subst w'; unfold extendSelectionAbove, ready;
    cbn [model ui]; unfold hasActiveTask; rewrite Hact; cbn [negb];
    rewrite (Hactive s sel Hmk); reflexivity).
  destruct (Z.eqb_spec a 0) as [|_] in Hw'; [lia |].
  cbv zeta in Hw'.
  change (on_ui (fun _ => set_mode command) (Build (Some m) s))
    with (Build (Some m) s1) in Hw'.
  cbn [model ui] in Hw'. rewrite Hact1, Hact in Hw'.
  rewrite (Hactive s1 sel Hmk1), Hcp in Hw'.
  rewrite (marked_isSelected m a sel s1 (a - 1) cp Hmk1 Hcp) in Hw'.
  destruct (Z.eqb_spec (a - 1) a) as [|_] in Hw'; [lia |].
  cbn [orb] in Hw'.
  pose proof (Hall (a - 1) ltac:(fold n; lia)) as Hprev.
  destruct (sel (a - 1)) eqn:Hsp.
  all: assert (Hh : if sel (a - 1) then h <= a - 1 else a <= h)
    by (rewrite Hsp; clear - Hprev Ha0; cases).
  all: rewrite Hsp in Hh; clear Hprev.
  - (* the task above is selected: the selection shrinks *)
    pose proof (marked_mark m a sel s1 a ca false Hmk1 Hca1) as Hmk2.
    set (sel2 := fun i => if i =? a then false else sel i) in *.
    change (mark false (Task.wid ca) (Build (Some m) s1))
      with (Build (Some m) (update_widget (Task.wid ca)
                              (Task.with_selected false) s1)) in Hw'.
    set (s2 := update_widget (Task.wid ca) (Task.with_selected false) s1) in *.
    assert (Hm2 : _mode s2 = command) by done.
    rewrite (Hactive s2 sel2 Hmk2) in Hw'.
    destruct (Z.ltb_spec 1 a) as [H1a|H1a] in Hw'.
    + destruct (marked_child m a sel2 s2 (a - 2) Hmk2) as [cpp Hcpp];
        [fold n; lia |].
      cbn [ui] in Hw'. rewrite Hcpp in Hw'.
      rewrite (marked_isSelected m a sel2 s2 (a - 2) cpp Hmk2 Hcpp) in Hw'.
      pose proof (Hall (a - 2) ltac:(fold n; lia)) as Hpp.
      assert (Hh2 : if (a - 2 =? a) || sel2 (a - 2) then h <= a - 2
                    else h = a - 1).
      { unfold sel2. clear - Hpp Hh H1a. destruct (sel (a - 2)); cases. }
      clear Hpp.
      assert (Hcp2 : at_index (widgets s2) (a - 1) = Some cp).
      { subst s2. destruct Hmk1 as ((_ & Hdis1 & _) & _).
        rewrite (update_widget_at s1 a ca _ _ Hdis1 Hca1), Hcp. simpl.
        destruct (Z.eqb_spec (a - 1) a); [lia | done]. }
      destruct (negb ((a - 2 =? a) || sel2 (a - 2))) eqn:Hneg.
      * pose proof (marked_mark m a sel2 s2 (a - 1) cp false Hmk2 Hcp2) as Hmk3.
        change (mark false (Task.wid cp) (Build (Some m) s2))
          with (Build (Some m) (update_widget (Task.wid cp)
                                  (Task.with_selected false) s2)) in Hw'.
        rewrite Hw'. eapply Hfinal; [exact Hmk3 | done |].
        intros i Hi. pose proof (Hall i Hi) as Hii.
        destruct ((a - 2 =? a) || sel2 (a - 2)); [done |].
        unfold sel2.
        clear - Hii Hh Hh2 Hi Ha0 Hrange H1a.
        destruct (sel i) eqn:Hsi; cases.
      * rewrite Hw'. eapply Hfinal; [exact Hmk2 | done |].
        intros i Hi. pose proof (Hall i Hi) as Hii.
        destruct ((a - 2 =? a) || sel2 (a - 2)); [| done].
        unfold sel2.
        clear - Hii Hh Hh2 Hi Ha0 Hrange H1a.
        destruct (sel i) eqn:Hsi; cases.
    + rewrite <- (Hactive s2 sel2 Hmk2) in Hw' at 1.
      rewrite Hw'. eapply Hfinal; [exact Hmk2 | done |].
      intros i Hi. pose proof (Hall i Hi) as Hii.
      unfold sel2.
      clear - Hii Hh Hi Ha0 Hrange H1a.
      destruct (sel i) eqn:Hsi; cases.
  - (* the task above is not selected: the selection grows *)
    pose proof (marked_mark m a sel s1 a ca true Hmk1 Hca1) as Hmk2.
    set (sel2 := fun i => if i =? a then true else sel i) in *.
    change (mark true (Task.wid ca) (Build (Some m) s1))
      with (Build (Some m) (update_widget (Task.wid ca)
                              (Task.with_selected true) s1)) in Hw'.
    set (s2 := update_widget (Task.wid ca) (Task.with_selected true) s1) in *.
    rewrite (Hactive s2 sel2 Hmk2) in Hw'.
    rewrite <- (Hactive s2 sel2 Hmk2) in Hw' at 1.
    rewrite Hw'. eapply Hfinal; [exact Hmk2 | done |].
    intros i Hi. pose proof (Hall i Hi) as Hii.
    unfold sel2.
    clear - Hii Hh Hi Ha0 Hrange.
    destruct (sel i) eqn:Hsi; cases.
Qed.

End Extend.

Section ExtendBelow.

Import Taskbook Layout Selection OrderedStore TaskbookActions.

Ltac cases :=
  repeat (match goal with
          | H : context [?x =? ?y] |- _ => destruct (Z.eqb_spec x y)
          | |- context [?x =? ?y] => destruct (Z.eqb_spec x y)
          | H : context [?x <=? ?y] |- _ => destruct (Z.leb_spec x y)
          | |- context [?x <=? ?y] => destruct (Z.leb_spec x y)
          | H : context [?x <? ?y] |- _ => destruct (Z.ltb_spec x y)
          | |- context [?x <? ?y] => destruct (Z.ltb_spec x y)
          end;
          cbn [orb andb negb] in *; try lia; try congruence).

Lemma extendSelectionBelow_marked m s h a sel :
  marked m a sel s -> between h a s -> 0 <= a < TaskList.length m - 1 ->
  let w' := extendSelectionBelow (Build (Some m) s) in
  model w' = Some m
  /\ (exists sel', marked m (a + 1) sel' (ui w'))
  /\ between h (a + 1) (ui w')
  /\ _mode (ui w') = command.
Proof.
  intros Hmk Hb Ha0 w'.
  pose proof (between_marked m a sel s h Hmk Hb) as Hall.
  pose proof Hmk as ((Hmir & Hdis & Hfit) & Hp & Hidx & Hsel).
  pose proof (mirrors_length m s Hmir) as Hlen.
  set (n := TaskList.length m) in *.
  assert (Hn0 : TaskList.length m <> 0) by (fold n; lia).
  assert (Hlenw : len (widgets s) = n).
  { subst n. unfold TaskList.length, len. by rewrite Hlen. }
  destruct (marked_child m a sel s a Hmk) as [ca Hca]; [fold n; lia |].
  assert (Hact : _activeTask s = Some (Task.wid ca)).
  { rewrite Hp, Hidx, Hca. reflexivity. }
  pose proof (marked_set_mode m a sel s Hmk) as Hmk1.
  destruct (set_mode_command_widgets s) as (Hw1 & Hact1 & Hmode1).
  set (s1 := set_mode command s) in *.
  destruct (marked_child m a sel s1 (a + 1) Hmk1) as [cp Hcp]; [fold n; lia |].
  assert (Hca1 : at_index (widgets s1) a = Some ca) by (by rewrite Hw1).
  assert (Hactive : forall q sel0, marked m a sel0 q ->
            active (Build (Some m) q) = a).
  { intros q sel0 (_ & _ & Hq & _). unfold active. cbn [model ui].
    by rewrite (active_nonempty _ _ Hn0). }
  assert (Hmodeq : forall q v, _mode q = command ->
            _mode (set_activeTaskIndex (Some m) v q) = command) by done.
  assert (Hfinal : forall q sel0, marked m a sel0 q -> _mode q = command ->
            (forall i, 0 <= i < n ->
               (i =? a + 1) || sel0 i
               = (Z.min h (a + 1) <=? i) && (i <=? Z.max h (a + 1))) ->
            let r := set_active (active (Build (Some m) q) + 1)
                                (Build (Some m) q) in
            model r = Some m
            /\ (exists sel', marked m (a + 1) sel' (ui r))
            /\ between h (a + 1) (ui r)
            /\ _mode (ui r) = command).
  { intros q sel0 Hq Hmq Hi r. subst r. rewrite (Hactive q sel0 Hq).
    unfold set_active, on_ui. cbn [model ui].
    pose proof (marked_set_active m a sel0 q (a + 1) Hq) as Hr.
    rewrite clamped_in_range in Hr by (fold n; lia).
    split; [done |]. split; [by exists sel0 |].
    split; [| by apply Hmodeq].
    eapply marked_between; [exact Hr | exact Hi]. }
  assert (Hw' : w' = _) by (subst w'; unfold extendSelectionBelow, ready;
    cbn [model ui]; unfold hasActiveTask; rewrite Hact; cbn [negb];
    rewrite (Hactive s sel Hmk), Hlenw; reflexivity).
  destruct (Z.eqb_spec a (n - 1)) as [|_] in Hw'; [lia |].
  cbv zeta in Hw'.
  change (on_ui (fun _ => set_mode command) (Build (Some m) s))
    with (Build (Some m) s1) in Hw'.
  cbn [model ui] in Hw'. rewrite Hact1, Hact in Hw'.
  rewrite (Hactive s1 sel Hmk1), Hcp in Hw'.
  rewrite (marked_isSelected m a sel s1 (a + 1) cp Hmk1 Hcp) in Hw'.
  destruct (Z.eqb_spec (a + 1) a) as [|_] in Hw'; [lia |].
  cbn [orb] in Hw'.
  pose proof (Hall (a + 1) ltac:(fold n; lia)) as Hprev.
  destruct (sel (a + 1)) eqn:Hsp.
  all: assert (Hh : if sel (a + 1) then a + 1 <= h else h <= a)
    by (rewrite Hsp; clear - Hprev Ha0; cases).
  all: rewrite Hsp in Hh; clear Hprev.
  - (* the task below is selected: the selection shrinks *)
    pose proof (marked_mark m a sel s1 a ca false Hmk1 Hca1) as Hmk2.
    set (sel2 := fun i => if i =? a then false else sel i) in *.
    change (mark false (Task.wid ca) (Build (Some m) s1))
      with (Build (Some m) (update_widget (Task.wid ca)
                              (Task.with_selected false) s1)) in Hw'.
    set (s2 := update_widget (Task.wid ca) (Task.with_selected false) s1) in *.
    assert (Hm2 : _mode s2 = command) by done.
    rewrite (Hactive s2 sel2 Hmk2) in Hw'. fold n in Hw'.
    destruct (Z.ltb_spec a (n - 2)) as [H1a|H1a] in Hw'.
    + destruct (marked_child m a sel2 s2 (a + 2) Hmk2) as [cpp Hcpp];
        [fold n; lia |].
      cbn [ui] in Hw'. rewrite Hcpp in Hw'.
      rewrite (marked_isSelected m a sel2 s2 (a + 2) cpp Hmk2 Hcpp) in Hw'.
      pose proof (Hall (a + 2) ltac:(fold n; lia)) as Hpp.
      assert (Hh2 : if (a + 2 =? a) || sel2 (a + 2) then a + 2 <= h
                    else h = a + 1).
      { unfold sel2. clear - Hpp Hh H1a Ha0. destruct (sel (a + 2)); cases. }
      clear Hpp.
      assert (Hcp2 : at_index (widgets s2) (a + 1) = Some cp).
      { subst s2. destruct Hmk1 as ((_ & Hdis1 & _) & _).
        rewrite (update_widget_at s1 a ca _ _ Hdis1 Hca1), Hcp. simpl.
        destruct (Z.eqb_spec (a + 1) a); [lia | done]. }
      destruct (negb ((a + 2 =? a) || sel2 (a + 2))) eqn:Hneg.
      * pose proof (marked_mark m a sel2 s2 (a + 1) cp false Hmk2 Hcp2) as Hmk3.
        change (mark false (Task.wid cp) (Build (Some m) s2))
          with (Build (Some m) (update_widget (Task.wid cp)
                                  (Task.with_selected false) s2)) in Hw'.
        rewrite Hw'. eapply Hfinal; [exact Hmk3 | done |].
        intros i Hi. pose proof (Hall i Hi) as Hii.
        destruct ((a + 2 =? a) || sel2 (a + 2)); [done |].
        unfold sel2.
        clear - Hii Hh Hh2 Hi Ha0 H1a.
        destruct (sel i) eqn:Hsi; cases.
      * rewrite Hw'. eapply Hfinal; [exact Hmk2 | done |].
        intros i Hi. pose proof (Hall i Hi) as Hii.
        destruct ((a + 2 =? a) || sel2 (a + 2)); [| done].
        unfold sel2.
        clear - Hii Hh Hh2 Hi Ha0 H1a.
        destruct (sel i) eqn:Hsi; cases.
    + rewrite <- (Hactive s2 sel2 Hmk2) in Hw' at 1.
      rewrite Hw'. eapply Hfinal; [exact Hmk2 | done |].
      intros i Hi. pose proof (Hall i Hi) as Hii.
      unfold sel2.
      clear - Hii Hh Hi Ha0 H1a.
      destruct (sel i) eqn:Hsi; cases.
  - (* the task below is not selected: the selection grows *)
    pose proof (marked_mark m a sel s1 a ca true Hmk1 Hca1) as Hmk2.
    set (sel2 := fun i => if i =? a then true else sel i) in *.
    change (mark true (Task.wid ca) (Build (Some m) s1))
      with (Build (Some m) (update_widget (Task.wid ca)
                              (Task.with_selected true) s1)) in Hw'.
    set (s2 := update_widget (Task.wid ca) (Task.with_selected true) s1) in *.
    rewrite (Hactive s2 sel2 Hmk2) in Hw'.
    rewrite <- (Hactive s2 sel2 Hmk2) in Hw' at 1.
    rewrite Hw'. eapply Hfinal; [exact Hmk2 | done |].
    intros i Hi. pose proof (Hall i Hi) as Hii.
    unfold sel2.
    clear - Hii Hh Hi Ha0.
    destruct (sel i) eqn:Hsi; cases.
Qed.

End ExtendBelow.

(** [extendSelectionAbove] on a surface that is in step with its list,
    whose active widget is the child at the active index [a], and whose
    selection is the run of children between an index [h] and [a]: the
    active index becomes [a - 1] and the selection is the run between [h]
    and [a - 1].  So the selection grows by the task above when the active
    task is its upper end, and it loses the active task when that is its
    lower end; it stays one run, and the model is not touched. *)
Theorem extendSelectionAbove_moves_the_active_end
  (w : Taskbook.t) (m : Model) (h : Z) :
  Taskbook.model w = Some m ->
  Layout.settled m (Taskbook.ui w) ->
  Selection.pointed (Taskbook.ui w) ->
  let a := Taskbook._activeTaskIndex (Taskbook.ui w) in
  Selection.between h a (Taskbook.ui w) ->
  0 < a ->
  let w' := TaskbookActions.extendSelectionAbove w in
  Taskbook.model w' = Some m
  /\ Taskbook._activeTaskIndex (Taskbook.ui w') = a - 1
  /\ Selection.between h (a - 1) (Taskbook.ui w')
  /\ Selection.pointed (Taskbook.ui w')
  /\ Layout.settled m (Taskbook.ui w')
  /\ Taskbook._mode (Taskbook.ui w') = command.
Proof.
  intros Hm Hset Hp a Hb Ha w'. destruct w as [wm s].
  cbn [Taskbook.model Taskbook.ui] in *. subst wm.
  destruct (marked_exists m s Hset Hp) as [sel Hmk]. fold a in Hmk.
  destruct (extendSelectionAbove_marked m s h a sel Hmk Hb Ha)
    as (H1 & (sel' & Hs' & Hp' & Hi' & _) & H3 & H4).
  fold w' in H1, Hs', Hp', Hi', H3, H4. done.
Qed.

Lemma extendSelectionAbove_moves_the_active_end_witness :
  let w := TaskbookActions.set_active 1 Examples.abc in
  Selection.between 1 0 (Taskbook.ui (TaskbookActions.extendSelectionAbove w))
  /\ (Taskbook.isSelected (Taskbook.ui (TaskbookActions.extendSelectionAbove w))
      <$> Taskbook.widgets (Taskbook.ui (TaskbookActions.extendSelectionAbove w)))
     = [true; true; false].
Proof.
  intros w.
  destruct (extendSelectionAbove_moves_the_active_end w
              (Examples.model_of w) 1) as (_ & _ & H3 & _).
  - vm_compute. reflexivity.
  - split; [vm_compute; reflexivity |]. split; [| vm_compute; reflexivity].
    split; apply (bool_decide_unpack _); vm_compute; exact I.
  - vm_compute. reflexivity.
  - intros i c Hc. apply at_index_Some in Hc as [Hi Hc].
    pose proof (lookup_lt_Some _ _ _ Hc) as Hlt.
    change (length (Taskbook.widgets (Taskbook.ui w))) with 3%nat in Hlt.
    assert (Hcases : i = 0 \/ i = 1 \/ i = 2) by lia.
    destruct Hcases as [-> | [-> | ->]]; vm_compute in Hc;
      injection Hc as <-; vm_compute; reflexivity.
  - vm_compute. reflexivity.
  - split; [exact H3 | vm_compute; reflexivity].
Defined.

(** [extendSelectionBelow], likewise: the active index becomes [a + 1] and
    the selection is the run between [h] and [a + 1]. *)
Theorem extendSelectionBelow_moves_the_active_end
  (w : Taskbook.t) (m : Model) (h : Z) :
  Taskbook.model w = Some m ->
  Layout.settled m (Taskbook.ui w) ->
  Selection.pointed (Taskbook.ui w) ->
  let a := Taskbook._activeTaskIndex (Taskbook.ui w) in
  Selection.between h a (Taskbook.ui w) ->
  0 <= a < TaskList.length m - 1 ->
  let w' := TaskbookActions.extendSelectionBelow w in
  Taskbook.model w' = Some m
  /\ Taskbook._activeTaskIndex (Taskbook.ui w') = a + 1
  /\ Selection.between h (a + 1) (Taskbook.ui w')
  /\ Selection.pointed (Taskbook.ui w')
  /\ Layout.settled m (Taskbook.ui w')
  /\ Taskbook._mode (Taskbook.ui w') = command.
Proof.
  intros Hm Hset Hp a Hb Ha w'. destruct w as [wm s].
  cbn [Taskbook.model Taskbook.ui] in *. subst wm.
  destruct (marked_exists m s Hset Hp) as [sel Hmk]. fold a in Hmk.
  destruct (extendSelectionBelow_marked m s h a sel Hmk Hb Ha)
    as (H1 & (sel' & Hs' & Hp' & Hi' & _) & H3 & H4).
  fold w' in H1, Hs', Hp', Hi', H3, H4. done.
Qed.

Lemma extendSelectionBelow_moves_the_active_end_witness :
  let w := TaskbookActions.extendSelectionAbove
             (TaskbookActions.set_active 1 Examples.abc) in
  let w' := TaskbookActions.extendSelectionBelow w in
  Selection.between 1 1 (Taskbook.ui w')
  /\ (Taskbook.isSelected (Taskbook.ui w') <$> Taskbook.widgets (Taskbook.ui w'))
     = [false; true; false].
Proof.
  intros w w'.
  destruct (extendSelectionBelow_moves_the_active_end w
              (Examples.model_of w) 1) as (_ & _ & H3 & _).
  - vm_compute. reflexivity.
  - split; [vm_compute; reflexivity |]. split; [| vm_compute; reflexivity].
    split; apply (bool_decide_unpack _); vm_compute; exact I.
  - vm_compute. reflexivity.
  - intros i c Hc. apply at_index_Some in Hc as [Hi Hc].
    pose proof (lookup_lt_Some _ _ _ Hc) as Hlt.
    change (length (Taskbook.widgets (Taskbook.ui w))) with 3%nat in Hlt.
    assert (Hcases : i = 0 \/ i = 1 \/ i = 2) by lia.
    destruct Hcases as [-> | [-> | ->]]; vm_compute in Hc;
      injection Hc as <-; vm_compute; reflexivity.
  - vm_compute. split; [discriminate | reflexivity].
  - split; [exact H3 | vm_compute; reflexivity].
Defined.

Section Trust.

Import Taskbook TaskbookActions.

Lemma trust_each_spec (vs : list (option loc)) (m : Model) :
  Forall (fun v => exists l e, v = Some l /\ heap m !! l = Some e) vs ->
  exists m',
    trust_each vs m = Some m'
    /\ _taskOrder m' = _taskOrder m
    /\ _taskMap m' = _taskMap m
    /\ modelDB m' = modelDB m
    /\ uuids m' = uuids m
    /\ (forall l, Some l ∈ vs ->
          heap m' !! l = TaskModel.with_trusted true <$> heap m !! l)
    /\ (forall l, Some l ∉ vs -> heap m' !! l = heap m !! l).
Proof.
  revert m. induction vs as [|v vs IH]; intros m Hvs.
  - exists m. repeat split; try done. intros l Hl. by apply elem_of_nil in Hl.
  - apply Forall_cons in Hvs as [(l & e & -> & He) Hvs]. cbn [trust_each].
    set (m1 := update l (TaskModel.with_trusted true) m).
    assert (Hh1 : forall k, heap m1 !! k
                  = if decide (k = l) then TaskModel.with_trusted true <$> heap m !! k
                    else heap m !! k).
    { intros k. subst m1. unfold update. cbn [with_heap heap].
      destruct (decide (k = l)) as [->|Hne].
      - by rewrite list_lookup_alter_eq.
      - by rewrite list_lookup_alter_ne. }
    destruct (IH m1) as (m' & Ht & Ho & Hm & Hdb & Hu & Hin & Hout).
    { eapply Forall_impl; [exact Hvs |]. intros v (k & ek & -> & Hk).
      exists k. rewrite Hh1. destruct (decide (k = l)); rewrite Hk; eauto. }
    exists m'. split; [exact Ht |]. split; [done |]. split; [done |].
    split; [done |]. split; [done |]. split.
    + intros k Hk. destruct (decide (Some k ∈ vs)) as [Hkin|Hkout].
      * rewrite (Hin k Hkin), Hh1.
        destruct (decide (k = l)); [| done].
        destruct (heap m !! k); done.
      * rewrite (Hout k Hkout), Hh1.
        apply elem_of_cons in Hk as [[= ->]|Hk]; [| done].
        by rewrite decide_True.
    + intros k Hk. rewrite (Hout k), Hh1.
      * rewrite decide_False; [done |]. intros ->. apply Hk. left.
      * intros Hin'. apply Hk. by right.
Qed.

Lemma trusted_flags_spec (vs : list (option loc)) (h : list TaskModel.t) :
  Forall (fun v => exists l e, v = Some l /\ h !! l = Some e) vs ->
  exists flags,
    mapM (fun v => match v with
                   | Some l => TaskModel.trusted <$> h !! l
                   | None => None
                   end) vs = Some flags
    /\ (forallb id flags = true <->
        forall l e, Some l ∈ vs -> h !! l = Some e -> TaskModel.trusted e = true).
Proof.
  induction vs as [|v vs IH]; intros Hvs.
  - exists []. split; [done |]. split; [| done].
    intros _ l e Hl. by apply elem_of_nil in Hl.
  - apply Forall_cons in Hvs as [(l & e & -> & He) Hvs].
    destruct (IH Hvs) as (flags & Hf & Hiff).
    exists (TaskModel.trusted e :: flags). split.
    + cbn [mapM]. rewrite He. simpl. rewrite Hf. reflexivity.
    + cbn [forallb id]. rewrite andb_true_iff, Hiff. split.
      * intros [Ht Hall] k ek Hk Hek.
        apply elem_of_cons in Hk as [[= ->]|Hk]; [congruence | by eapply Hall].
      * intros Hall. split; [apply (Hall l e); [left | done] |].
        intros k ek Hk Hek. apply (Hall k ek); [by right | done].
Qed.

End Trust.

(** [trust] on a list whose tasks are all defined.  The dialog is the
    notice that the taskbook is already trusted exactly when every task of
    the list is trusted, and the confirmation otherwise.  Declining the
    confirmation changes nothing.  Accepting it sets the trust flag of
    every task of the list and changes nothing else: the order, the
    surface, the other fields of the tasks, and the entities that are not
    in the list stay as they are; a second call then finds the taskbook
    already trusted. *)
Theorem trust_trusts_every_task_of_the_list (w : Taskbook.t) (m : Model) :
  Taskbook.model w = Some m ->
  Forall (fun v => exists l e, v = Some l /\ heap m !! l = Some e)
         (TaskList.iter m) ->
  (exists d, TaskbookActions.trust_dialog w = Some d
             /\ (d = TaskbookActions.AlreadyTrusted \/ d = TaskbookActions.Confirm)
             /\ (d = TaskbookActions.AlreadyTrusted <->
                 forall l e, Some l ∈ TaskList.iter m -> heap m !! l = Some e ->
                             TaskModel.trusted e = true))
  /\ TaskbookActions.trust_answer false w = Some w
  /\ exists m',
       TaskbookActions.trust_answer true w
       = Some (Taskbook.Build (Some m') (Taskbook.ui w))
       /\ _taskOrder m' = _taskOrder m
       /\ _taskMap m' = _taskMap m
       /\ (forall l, Some l ∈ TaskList.iter m ->
             heap m' !! l = TaskModel.with_trusted true <$> heap m !! l)
       /\ (forall l, Some l ∉ TaskList.iter m -> heap m' !! l = heap m !! l)
       /\ TaskbookActions.trust_dialog (Taskbook.Build (Some m') (Taskbook.ui w))
          = Some TaskbookActions.AlreadyTrusted.
Proof.
  intros Hm Hdef. split; [| split].
  - unfold TaskbookActions.trust_dialog, TaskbookActions.trusted_flags.
    rewrite Hm.
    destruct (trusted_flags_spec (TaskList.iter m) (heap m) Hdef)
      as (flags & -> & Hiff).
    eexists. split; [reflexivity |].
    destruct (forallb id flags) eqn:Hall.
    + split; [by left |]. split; [intros _; by apply Hiff | done].
    + split; [by right |]. split; [done |].
      intros H. apply Hiff in H. congruence.
  - unfold TaskbookActions.trust_answer. by rewrite Hm.
  - destruct (trust_each_spec (TaskList.iter m) m Hdef)
      as (m' & Ht & Ho & Hmap & _ & _ & Hin & Hout).
    exists m'. split.
    { unfold TaskbookActions.trust_answer. by rewrite Hm, Ht. }
    split; [done |]. split; [done |]. split; [done |]. split; [done |].
    unfold TaskbookActions.trust_dialog, TaskbookActions.trusted_flags.
    cbn [Taskbook.model].
    assert (Hiter : TaskList.iter m' = TaskList.iter m).
    { unfold TaskList.iter, TaskList.map_get. by rewrite Ho, Hmap. }
    rewrite Hiter.
    destruct (trusted_flags_spec (TaskList.iter m) (heap m')) as (flags & -> & Hiff).
    { apply Forall_forall. intros v Hv.
      rewrite Forall_forall in Hdef. destruct (Hdef v Hv) as (l & e & -> & He).
      exists l, (TaskModel.with_trusted true e). split; [done |].
      by rewrite (Hin l Hv), He. }
    assert (Hall : forallb id flags = true).
    { apply Hiff. intros l e Hl He. rewrite (Hin l Hl) in He.
      destruct (heap m !! l); [| done]. simpl in He. by injection He as <-. }
    by rewrite Hall.
Qed.

Lemma trust_trusts_every_task_of_the_list_witness :
  TaskbookActions.trust_dialog Examples.abc = Some TaskbookActions.Confirm
  /\ exists m',
       TaskbookActions.trust_answer true Examples.abc
       = Some (Taskbook.Build (Some m') (Taskbook.ui Examples.abc))
       /\ TaskbookActions.trust_dialog
            (Taskbook.Build (Some m') (Taskbook.ui Examples.abc))
          = Some TaskbookActions.AlreadyTrusted.
Proof.
  destruct (trust_trusts_every_task_of_the_list Examples.abc
              (Examples.model_of Examples.abc))
    as (_ & _ & m' & H1 & _ & _ & _ & _ & H6).
  - vm_compute. reflexivity.
  - let x := eval vm_compute in (TaskList.iter (Examples.model_of Examples.abc)) in
    change (TaskList.iter (Examples.model_of Examples.abc)) with x.
    repeat apply Forall_cons_2; [| | | apply Forall_nil_2];
      eexists _, _; (split; [reflexivity | vm_compute; reflexivity]).
  - split; [vm_compute; reflexivity |].
    exists m'. split; [exact H1 | exact H6].
Defined.

Section Payload.

Import Taskbook Layout OrderedStore TaskbookActions.

Lemma push_new (l : loc) (e : TaskModel.t) m s :
  settled m s ->
  heap m !! l = Some e ->
  TaskModel.id e ∉ items (_taskOrder m) ->
  let st := Tasks.push l (m, s) in
  items (_taskOrder (fst st)) = items (_taskOrder m) ++ [TaskModel.id e]
  /\ heap (fst st) = heap m
  /\ _taskMap (fst st) = <[TaskModel.id e := Some l]> (_taskMap m)
  /\ settled (fst st) (snd st).
Proof.
  intros Hset He Hfresh st. subst st. unfold Tasks.push.
  rewrite (push_cached _ l e m s He). cbn [fst snd _taskOrder heap _taskMap].
  split; [by rewrite record_items |]. split; [done |]. split; [done |].
  set (mc := with_map (<[TaskModel.id e := Some l]> (_taskMap m)) m).
  assert (Hmc : settled mc s).
  { eapply settled_agree; [| | exact Hset]; [done |].
    intros k Hk. cbn [mc with_map _taskMap].
    apply lookup_insert_ne. by intros <-. }
  unfold _onTasksChanged. cbn [type newIndex newValues insertTasks].
  unfold len.
  eapply (slot_insert _ (TaskModel.id e) l mc); try done.
  - unfold TaskList.map_get. cbn [mc with_map _taskMap].
    by rewrite lookup_insert_eq.
  - cbn [_taskOrder mc with_map]. by rewrite record_items, insert_at_end.
Qed.

Lemma findFirstIndex_from_none {A} (f : A -> bool) (l : list A) (i : Z) :
  (forall y, y ∈ l -> f y = false) -> findFirstIndex_from f i l = -1.
Proof.
  revert i. induction l as [|y l IH]; intros i Hall; [done |]. simpl.
  rewrite (Hall y) by left. apply IH. intros z Hz. apply Hall. by right.
Qed.

End Payload.

(** [handlePayload] on a surface that is in step with its list.  Without
    a [set_next_input] entry nothing changes.  With one that asks to
    replace, the text of the task that ran becomes the payload's text and
    nothing else changes.  Otherwise a new executable task with the
    payload's text and the factory's next id goes into the list right
    after the first place of the task that ran, or at the end when that
    task is not in the list; the surface is in step with the list
    again. *)
Theorem handlePayload_sets_the_next_input
  (payload : list TaskbookActions.Payload.t) (child : Task.t)
  (w : Taskbook.t) (m : Model) :
  Taskbook.model w = Some m ->
  Layout.settled m (Taskbook.ui w) ->
  uuid (uuids m) ∉ OrderedStore.items (_taskOrder m) ->
  let w' := TaskbookActions.handlePayload payload child w in
  match List.find (fun p => String.eqb (TaskbookActions.Payload.source p)
                                       "set_next_input") payload with
  | None => w' = w
  | Some p =>
      let t := TaskbookActions.Payload.text p in
      if TaskbookActions.Payload.replace p then
        w' = Taskbook.Build
               (Some (update (Task.model child) (TaskModel.with_text t) m))
               (Taskbook.ui w)
      else
        let e0 := TaskModel.Build (uuid (uuids m)) Dataintegration t false []
                                  None [] false in
        exists m',
          Taskbook.model w' = Some m'
          /\ heap m' = heap m ++ [e0]
          /\ Layout.settled m' (Taskbook.ui w')
          /\ (forall k : nat,
                TaskList.iter m !! k = Some (Some (Task.model child)) ->
                (forall j, (j < k)%nat ->
                   TaskList.iter m !! j <> Some (Some (Task.model child))) ->
                OrderedStore.items (_taskOrder m')
                = insert_at (S k) (uuid (uuids m))
                            (OrderedStore.items (_taskOrder m))
                /\ Examples.entity (Z.of_nat k + 1) m' = Some e0)
          /\ (Some (Task.model child) ∉ TaskList.iter m ->
                OrderedStore.items (_taskOrder m')
                = OrderedStore.items (_taskOrder m) ++ [uuid (uuids m)]
                /\ Examples.entity (TaskList.length m) m' = Some e0)
  end.
Proof.
  intros Hm Hset Hfresh w'. subst w'. unfold TaskbookActions.handlePayload.
  destruct (List.find _ payload) as [p|]; [| done].
  cbv zeta. destruct (TaskbookActions.Payload.replace p).
  { unfold Taskbook.on_model. by rewrite Hm. }
  rewrite Hm. destruct w as [wm s]. cbn [Taskbook.model Taskbook.ui] in *.
  subst wm.
  set (t := TaskbookActions.Payload.text p).
  set (e0 := TaskModel.Build (uuid (uuids m)) Dataintegration t false [] None []
                             false).
  set (r := ContentFactory.createDataintegrationTask TaskbookActions.blank m).
  assert (Hr : r = (length (heap m),
                    MkModel (_taskOrder m) (_taskMap m)
                      (heap m ++ [TaskModel.with_text "" e0])
                      (<[type_key (uuid (uuids m)) := type_name Dataintegration]>
                         (modelDB m))
                      (S (uuids m)))) by reflexivity.
  set (m1 := update (fst r) (TaskModel.with_text t) (snd r)).
  assert (Hh1 : heap m1 = heap m ++ [e0]).
  { subst m1. rewrite Hr. unfold update. cbn [fst snd with_heap heap].
    apply list_eq. intros j.
    destruct (decide (j = length (heap m))) as [->|Hne].
    - rewrite list_lookup_alter_eq, !lookup_app_r by lia.
      by rewrite Nat.sub_diag.
    - rewrite list_lookup_alter_ne by done.
      destruct (decide (j < length (heap m))%nat).
      + by rewrite !lookup_app_l by lia.
      + rewrite !lookup_app_r by lia.
        destruct (j - length (heap m))%nat as [|x] eqn:Hx; [lia | done]. }
  assert (Ho1 : _taskOrder m1 = _taskOrder m) by (subst m1; by rewrite Hr).
  assert (Hmap1 : _taskMap m1 = _taskMap m) by (subst m1; by rewrite Hr).
  assert (Hset1 : Layout.settled m1 s).
  { eapply settled_same; [| | exact Hset]; [by rewrite Ho1 | done]. }
  assert (He1 : heap m1 !! fst r = Some e0).
  { rewrite Hh1, Hr. cbn [fst]. rewrite lookup_app_r by lia.
    by rewrite Nat.sub_diag. }
  assert (Hfresh1 : TaskModel.id e0 ∉ OrderedStore.items (_taskOrder m1))
    by (by rewrite Ho1).
  assert (Hiter : TaskList.iter m1 = TaskList.iter m).
  { unfold TaskList.iter, TaskList.map_get. by rewrite Ho1, Hmap1. }
  rewrite Hiter.
  set (f := fun v : option loc => match v with
                                  | Some l => Nat.eqb l (Task.model child)
                                  | None => false
                                  end).
  destruct (decide (Some (Task.model child) ∈ TaskList.iter m)) as [Hin|Hout].
  - (* the task that ran is in the list *)
    assert (Hfirst : exists k : nat,
               TaskList.iter m !! k = Some (Some (Task.model child))
               /\ forall j, (j < k)%nat ->
                    TaskList.iter m !! j <> Some (Some (Task.model child))).
    { clear -Hin. induction (TaskList.iter m) as [|v vs IH].
      - by apply elem_of_nil in Hin.
      - destruct (decide (v = Some (Task.model child))) as [->|Hne].
        + exists 0%nat. split; [done |]. intros j Hj. lia.
        + apply elem_of_cons in Hin as [Heq|Hin]; [congruence |].
          destruct (IH Hin) as (k & Hk & Hb). exists (S k). split; [done |].
          intros [|j] Hj; simpl; [congruence | apply Hb; lia]. }
    destruct Hfirst as (k0 & Hk0 & Hb0).
    assert (Hidx : findFirstIndex f (TaskList.iter m) = Z.of_nat k0).
    { unfold findFirstIndex.
      rewrite (findFirstIndex_from_found f _ k0 _ 0 Hk0); [lia | |].
      - simpl. apply Nat.eqb_refl.
      - intros j y Hj Hy. specialize (Hb0 j Hj). destruct y as [l|]; [| done].
        simpl. destruct (Nat.eqb_spec l (Task.model child)) as [->|]; done. }
    rewrite Hidx.
    destruct (Z.eqb_spec (Z.of_nat k0) (-1)) as [|_]; [lia |].
    unfold Taskbook.on_tasks. cbn [Taskbook.model Taskbook.ui].
    destruct (insert_new (Z.of_nat k0 + 1) (fst r) e0 m1 s Hset1 He1 Hfresh1)
      as (H1 & H2 & H3 & H4 & H5 & _).
    set (st := Tasks.insert (Z.of_nat k0 + 1) (fst r) (m1, s)) in *.
    assert (Hlt : (k0 < length (OrderedStore.items (_taskOrder m)))%nat).
    { apply lookup_lt_Some in Hk0. unfold TaskList.iter in Hk0.
      by rewrite length_fmap in Hk0. }
    assert (Hj : clamp_index (Z.of_nat k0 + 1)
                   (length (OrderedStore.items (_taskOrder m1))) = S k0).
    { rewrite Ho1. unfold clamp_index. lia. }
    rewrite Hj, Ho1 in H1. change (TaskModel.id e0) with (uuid (uuids m)) in H1, H3.
    exists (fst st). split; [done |]. split; [by rewrite H2 |].
    split; [exact H5 |]. split.
    + intros k Hk Hb.
      assert (k = k0).
      { destruct (Nat.lt_trichotomy k k0) as [Hlt'|[->|Hgt]]; [| done |].
        - by specialize (Hb0 k Hlt').
        - by specialize (Hb k0 Hgt). }
      subst k. split; [exact H1 |].
      unfold Examples.entity, TaskList.get. rewrite H1.
      assert (Hat : at_index (insert_at (S k0) (uuid (uuids m))
                                (OrderedStore.items (_taskOrder m)))
                      (Z.of_nat k0 + 1) = Some (uuid (uuids m))).
      { replace (Z.of_nat k0 + 1) with (Z.of_nat (S k0)) by lia.
        rewrite at_index_nat. apply lookup_insert_at_eq. lia. }
      rewrite Hat. unfold TaskList.map_get. rewrite H3, lookup_insert_eq, H2.
      exact He1.
    + intros Hout. by destruct Hout.
  - (* the task that ran is not in the list *)
    assert (Hidx : findFirstIndex f (TaskList.iter m) = -1).
    { apply findFirstIndex_from_none. intros y Hy. destruct y as [l|]; [| done].
      simpl. destruct (Nat.eqb_spec l (Task.model child)) as [->|]; done. }
    rewrite Hidx. cbn [Z.eqb].
    unfold Taskbook.on_tasks. cbn [Taskbook.model Taskbook.ui].
    destruct (push_new (fst r) e0 m1 s Hset1 He1 Hfresh1) as (H1 & H2 & H3 & H5).
    set (st := Tasks.push (fst r) (m1, s)) in *.
    rewrite Ho1 in H1. change (TaskModel.id e0) with (uuid (uuids m)) in H1, H3.
    exists (fst st). split; [done |]. split; [by rewrite H2 |].
    split; [exact H5 |]. split.
    + intros k Hk _. exfalso. apply Hout. by eapply list_elem_of_lookup_2.
    + intros _. split; [exact H1 |].
      unfold Examples.entity, TaskList.get. rewrite H1.
      assert (Hat : at_index (OrderedStore.items (_taskOrder m) ++ [uuid (uuids m)])
                      (TaskList.length m) = Some (uuid (uuids m))).
      { unfold TaskList.length, len. rewrite at_index_nat.
        rewrite lookup_app_r by lia. by rewrite Nat.sub_diag. }
      rewrite Hat. unfold TaskList.map_get. rewrite H3, lookup_insert_eq, H2.
      exact He1.
Qed.

Lemma handlePayload_sets_the_next_input_witness :
  let w' := TaskbookActions.handlePayload
              [TaskbookActions.Payload.Build "set_next_input" "d=4" false]
              (Task.create 0 0) Examples.abc in
  exists m',
    Taskbook.model w' = Some m'
    /\ OrderedStore.items (_taskOrder m') = ["uuid-0"; "uuid-3"; "uuid-1"; "uuid-2"]
    /\ Examples.entity 1 m'
       = Some (TaskModel.Build "uuid-3" Dataintegration "d=4" false [] None []
                               false).
Proof.
  intros w'.
  pose proof (handlePayload_sets_the_next_input
                [TaskbookActions.Payload.Build "set_next_input" "d=4" false]
                (Task.create 0 0) Examples.abc
                (Examples.model_of Examples.abc)) as H.
  cbv zeta in H.
  destruct H as (m' & H1 & _ & _ & H4 & _).
  - vm_compute. reflexivity.
  - split; [vm_compute; reflexivity |]. split; [| vm_compute; reflexivity].
    split; apply (bool_decide_unpack _); vm_compute; exact I.
  - apply (bool_decide_unpack _). vm_compute. exact I.
  - destruct (H4 0%nat) as [H5 H6].
    + vm_compute. reflexivity.
    + intros j Hj. lia.
    + exists m'. split; [exact H1 |]. split.
      * rewrite H5. vm_compute. reflexivity.
      * change (Z.of_nat 0 + 1) with 1 in H6. rewrite H6.
        vm_compute. reflexivity.
Defined.

Section BlockMoves.

Import Taskbook Layout OrderedStore.

Lemma delete_middle {A} (pre post : list A) (b : A) :
  delete (length pre) (pre ++ b :: post) = pre ++ post.
Proof. induction pre as [|x pre IH]; simpl; [done | by rewrite IH]. Qed.

Lemma move_to_middle {A} (pre post : list A) (b : A) (j : nat) :
  move_to (length pre) j (pre ++ b :: post) = insert_at j b (pre ++ post).
Proof.
  unfold move_to. rewrite lookup_app_r by lia. rewrite Nat.sub_diag. simpl.
  by rewrite delete_middle.
Qed.

Lemma insert_at_app {A} (l1 l2 : list A) (b : A) :
  insert_at (length l1) b (l1 ++ l2) = l1 ++ b :: l2.
Proof. unfold insert_at. by rewrite take_app_length, drop_app_length. Qed.

(** One [move] inside a compound operation that records. *)
Lemma move_in_compound (f t : nat) (v : string) (us0 : list (list Change))
  (m : Model) (s : Surface) :
  settled m s ->
  items (_taskOrder m) !! f = Some v ->
  (t < length (items (_taskOrder m)))%nat -> f <> t ->
  depth (_taskOrder m) = 1%nat ->
  isUndoable (_taskOrder m) = true ->
  (madeCompoundChange (_taskOrder m) = false /\ undoStack (_taskOrder m) = us0
   \/ madeCompoundChange (_taskOrder m) = true
      /\ exists step, undoStack (_taskOrder m) = step :: us0) ->
  let st' := Tasks.move (Z.of_nat f) (Z.of_nat t) (m, s) in
  items (_taskOrder (fst st')) = move_to f t (items (_taskOrder m))
  /\ settled (fst st') (snd st')
  /\ _taskMap (fst st') = _taskMap m
  /\ heap (fst st') = heap m
  /\ depth (_taskOrder (fst st')) = 1%nat
  /\ isUndoable (_taskOrder (fst st')) = true
  /\ madeCompoundChange (_taskOrder (fst st')) = true
  /\ exists step, undoStack (_taskOrder (fst st')) = step :: us0.
Proof.
  intros Hset Hv Ht Hft Hd Hu Hstack st'.
  assert (Hsettled : settled (fst st') (snd st')).
  { subst st'. apply (edit_settled (MoveTo (Z.of_nat f) (Z.of_nat t)) m s);
      [| done]. simpl. by intros k Hk%elem_of_nil. }
  subst st'. unfold Tasks.move in *.
  assert (Ha1 : at_index (items (_taskOrder m)) (Z.of_nat f) = Some v)
    by (by rewrite at_index_nat).
  assert (Ha2 : 0 <= Z.of_nat t < len (items (_taskOrder m)))
    by (unfold len; lia).
  assert (Ha3 : Z.of_nat f <> Z.of_nat t) by lia.
  pose proof (move_at _onTasksChanged (Z.of_nat f) (Z.of_nat t) v m s
                Ha1 Ha2 Ha3) as Hmv.
  cbv zeta in Hmv. rewrite Hmv in *.
  clear Hmv. cbn [fst snd] in *. rewrite !Nat2Z.id in *.
  split; [cbn [with_order _taskOrder]; by rewrite record_items |].
  split; [exact Hsettled |]. split; [done |]. split; [done |].
  cbn [with_order _taskOrder].
  destruct (_taskOrder m) as [its us rs d un mc].
  cbn [depth isUndoable madeCompoundChange undoStack items] in *. subst d un.
  unfold record. cbn.
  destruct Hstack as [[-> ->]|[-> [step ->]]]; cbn; eauto 10.
Qed.

Lemma moveLater_spec (B : list string) :
  forall (A C D : list string) (us0 : list (list Change)) (m : Model)
         (s : Surface),
    settled m s ->
    items (_taskOrder m) = A ++ B ++ C ++ D ->
    C <> [] -> B <> [] ->
    depth (_taskOrder m) = 1%nat ->
    isUndoable (_taskOrder m) = true ->
    (madeCompoundChange (_taskOrder m) = false /\ undoStack (_taskOrder m) = us0
     \/ madeCompoundChange (_taskOrder m) = true
        /\ exists step, undoStack (_taskOrder m) = step :: us0) ->
    let st' := TaskbookEvents.moveLater (length B) (len A)
                 (len (A ++ B ++ C) - 1) (m, s) in
    items (_taskOrder (fst st')) = A ++ C ++ B ++ D
    /\ settled (fst st') (snd st')
    /\ _taskMap (fst st') = _taskMap m
    /\ heap (fst st') = heap m
    /\ depth (_taskOrder (fst st')) = 1%nat
    /\ exists step, undoStack (_taskOrder (fst st')) = step :: us0.
Proof.
  induction B as [|b B IH]; intros A C D us0 m s Hset Hits HC HB Hd Hu Hstack;
    [done |].
  cbn [length TaskbookEvents.moveLater]. cbv zeta.
  set (t := (length A + length B + length C)%nat).
  assert (Ht : len (A ++ (b :: B) ++ C) - 1 = Z.of_nat t).
  { unfold len, t. rewrite !length_app. simpl. lia. }
  rewrite Ht. change (len A) with (Z.of_nat (length A)).
  assert (HlenC : (0 < length C)%nat) by (destruct C; [done | simpl; lia]).
  destruct (move_in_compound (length A) t b us0 m s Hset)
    as (H1 & H2 & H3 & H4 & H5 & H6 & H7 & H8); try done.
  { rewrite Hits. rewrite lookup_app_r by lia. by rewrite Nat.sub_diag. }
  { rewrite Hits. repeat (rewrite length_app || rewrite length_cons).
    unfold t. lia. }
  { unfold t. lia. }
  set (st1 := Tasks.move (Z.of_nat (length A)) (Z.of_nat t) (m, s)) in *.
  assert (Hits1 : items (_taskOrder (fst st1)) = A ++ B ++ (C ++ [b]) ++ D).
  { rewrite H1, Hits. simpl. rewrite move_to_middle.
    replace (A ++ B ++ C ++ D) with ((A ++ B ++ C) ++ D)
      by (by rewrite <- !app_assoc).
    replace t with (length (A ++ B ++ C)) by (rewrite !length_app; unfold t; lia).
    rewrite insert_at_app. by rewrite <- !app_assoc. }
  destruct (decide (B = [])) as [->|HBne].
  { cbn [length TaskbookEvents.moveLater]. cbv zeta.
    split; [rewrite Hits1; simpl; by rewrite <- !app_assoc |].
    split; [done |]. split; [done |]. split; [done |].
    split; [done |]. done. }
  destruct st1 as [m1 s1]. cbn [fst snd] in *.
  destruct (IH A (C ++ [b]) D us0 m1 s1 H2 Hits1) as (G1 & G2 & G3 & G4 & G5 & G6);
    try done.
  { by destruct C. }
  { by right. }
  assert (Ht' : len (A ++ B ++ C ++ [b]) - 1 = Z.of_nat t).
  { unfold len, t. rewrite !length_app. simpl. lia. }
  rewrite Ht' in G1, G2, G3, G4, G5, G6.
  change (len A) with (Z.of_nat (length A)) in G1, G2, G3, G4, G5, G6.
  split; [rewrite G1; by rewrite <- !app_assoc |].
  split; [done |]. split; [by rewrite G3 |]. split; [by rewrite G4 |].
  split; done.
Qed.

Lemma moveEarlier_spec (B : list string) :
  forall (A C D : list string) (us0 : list (list Change)) (m : Model)
         (s : Surface),
    settled m s ->
    items (_taskOrder m) = A ++ C ++ B ++ D ->
    C <> [] -> B <> [] ->
    depth (_taskOrder m) = 1%nat ->
    isUndoable (_taskOrder m) = true ->
    (madeCompoundChange (_taskOrder m) = false /\ undoStack (_taskOrder m) = us0
     \/ madeCompoundChange (_taskOrder m) = true
        /\ exists step, undoStack (_taskOrder m) = step :: us0) ->
    let st' := TaskbookEvents.moveEarlier (length B) (len (A ++ C)) (len A)
                 (m, s) in
    items (_taskOrder (fst st')) = A ++ B ++ C ++ D
    /\ settled (fst st') (snd st')
    /\ _taskMap (fst st') = _taskMap m
    /\ heap (fst st') = heap m
    /\ depth (_taskOrder (fst st')) = 1%nat
    /\ exists step, undoStack (_taskOrder (fst st')) = step :: us0.
Proof.
  induction B as [|b B IH]; intros A C D us0 m s Hset Hits HC HB Hd Hu Hstack;
    [done |].
  cbn [length TaskbookEvents.moveEarlier]. cbv zeta.
  assert (HlenC : (0 < length C)%nat) by (destruct C; [done | simpl; lia]).
  change (len (A ++ C)) with (Z.of_nat (length (A ++ C))).
  change (len A) with (Z.of_nat (length A)).
  destruct (move_in_compound (length (A ++ C)) (length A) b us0 m s Hset)
    as (H1 & H2 & H3 & H4 & H5 & H6 & H7 & H8); try done.
  { rewrite Hits, app_assoc. rewrite lookup_app_r by lia.
    by rewrite Nat.sub_diag. }
  { rewrite Hits. repeat (rewrite length_app || rewrite length_cons). lia. }
  { rewrite length_app. lia. }
  set (st1 := Tasks.move (Z.of_nat (length (A ++ C))) (Z.of_nat (length A))
                (m, s)) in *.
  assert (Hits1 : items (_taskOrder (fst st1)) = (A ++ [b]) ++ C ++ B ++ D).
  { rewrite H1, Hits. change ((b :: B) ++ D) with (b :: (B ++ D)).
    rewrite (app_assoc A C), move_to_middle.
    rewrite <- app_assoc, insert_at_app. by rewrite <- app_assoc. }
  assert (Hf : Z.of_nat (length (A ++ C)) + 1 = len ((A ++ [b]) ++ C)).
  { unfold len. repeat (rewrite length_app || rewrite length_cons). simpl. lia. }
  assert (Ht : Z.of_nat (length A) + 1 = len (A ++ [b])).
  { unfold len. rewrite length_app. simpl. lia. }
  rewrite Hf, Ht.
  destruct (decide (B = [])) as [->|HBne].
  { cbn [length TaskbookEvents.moveEarlier].
    split; [rewrite Hits1; simpl; by rewrite <- !app_assoc |].
    split; [done |]. split; [done |]. split; [done |].
    split; [done |]. done. }
  destruct st1 as [m1 s1]. cbn [fst snd] in *.
  destruct (IH (A ++ [b]) C D us0 m1 s1 H2 Hits1)
    as (G1 & G2 & G3 & G4 & G5 & G6); try done.
  { by right. }
  split; [rewrite G1; by rewrite <- !app_assoc |].
  split; [done |]. split; [by rewrite G3 |]. split; [by rewrite G4 |].
  split; done.
Qed.

End BlockMoves.

Section Drop.

Import Taskbook Layout OrderedStore.

Lemma begin_facts m s :
  depth (_taskOrder m) = 0%nat ->
  let st := Tasks.beginCompoundOperation true (m, s) in
  snd st = s
  /\ items (_taskOrder (fst st)) = items (_taskOrder m)
  /\ _taskMap (fst st) = _taskMap m
  /\ heap (fst st) = heap m
  /\ depth (_taskOrder (fst st)) = 1%nat
  /\ isUndoable (_taskOrder (fst st)) = true
  /\ madeCompoundChange (_taskOrder (fst st)) = false
  /\ undoStack (_taskOrder (fst st)) = undoStack (_taskOrder m)
  /\ uuids (fst st) = uuids m.
Proof.
  intros Hd st. subst st.
  unfold Tasks.beginCompoundOperation, TaskList.beginCompoundOperation.
  cbn [fst snd with_order _taskOrder _taskMap heap].
  unfold OrderedStore.beginCompoundOperation. rewrite Hd. done.
Qed.

Lemma end_facts m s :
  depth (_taskOrder m) = 1%nat ->
  let st := Tasks.endCompoundOperation (m, s) in
  snd st = s
  /\ items (_taskOrder (fst st)) = items (_taskOrder m)
  /\ _taskMap (fst st) = _taskMap m
  /\ heap (fst st) = heap m
  /\ depth (_taskOrder (fst st)) = 0%nat
  /\ undoStack (_taskOrder (fst st)) = undoStack (_taskOrder m)
  /\ uuids (fst st) = uuids m.
Proof.
  intros Hd st. subst st.
  unfold Tasks.endCompoundOperation, TaskList.endCompoundOperation.
  cbn [fst snd with_order _taskOrder _taskMap heap].
  unfold OrderedStore.endCompoundOperation. rewrite Hd. done.
Qed.

(** A block of tasks moved inside one compound operation: [B] goes from
    between [A] and [C] to between [C] and [D], or the other way. *)
Lemma block_later (A B C D : list string) m s :
  settled m s ->
  depth (_taskOrder m) = 0%nat ->
  items (_taskOrder m) = A ++ B ++ C ++ D ->
  C <> [] -> B <> [] ->
  let st' := Tasks.endCompoundOperation
               (TaskbookEvents.moveLater (length B) (len A)
                  (len (A ++ B ++ C) - 1)
                  (Tasks.beginCompoundOperation true (m, s))) in
  items (_taskOrder (fst st')) = A ++ C ++ B ++ D
  /\ settled (fst st') (snd st')
  /\ _taskMap (fst st') = _taskMap m
  /\ heap (fst st') = heap m
  /\ depth (_taskOrder (fst st')) = 0%nat
  /\ exists step, undoStack (_taskOrder (fst st'))
                  = step :: undoStack (_taskOrder m).
Proof.
  intros Hset Hd Hits HC HB.
  destruct (begin_facts m s Hd)
    as (Hs0 & Hi0 & Hm0 & Hh0 & Hd0 & Hu0 & Hc0 & Hk0 & _).
  destruct (Tasks.beginCompoundOperation true (m, s)) as [m0 s0].
  cbn [fst snd] in *. subst s0.
  assert (Hset0 : settled m0 s).
  { eapply settled_same; [| | exact Hset]; done. }
  destruct (moveLater_spec B A C D (undoStack (_taskOrder m)) m0 s Hset0)
    as (G1 & G2 & G3 & G4 & G5 & step & G6); try done.
  { by rewrite Hi0. }
  { by left. }
  destruct (TaskbookEvents.moveLater _ _ _ _) as [m1 s1]. cbn [fst snd] in *.
  destruct (end_facts m1 s1 G5) as (Es & Ei & Em & Eh & Ed & Ek & _).
  cbv zeta.
  destruct (Tasks.endCompoundOperation (m1, s1)) as [m2 s2].
  cbn [fst snd] in *. subst s2.
  split; [by rewrite Ei |].
  split; [eapply settled_same; [| | exact G2]; done |].
  split; [by rewrite Em, G3 |]. split; [by rewrite Eh, G4 |].
  split; [done |]. exists step. by rewrite Ek.
Qed.

Lemma block_earlier (A B C D : list string) m s :
  settled m s ->
  depth (_taskOrder m) = 0%nat ->
  items (_taskOrder m) = A ++ C ++ B ++ D ->
  C <> [] -> B <> [] ->
  let st' := Tasks.endCompoundOperation
               (TaskbookEvents.moveEarlier (length B) (len (A ++ C)) (len A)
                  (Tasks.beginCompoundOperation true (m, s))) in
  items (_taskOrder (fst st')) = A ++ B ++ C ++ D
  /\ settled (fst st') (snd st')
  /\ _taskMap (fst st') = _taskMap m
  /\ heap (fst st') = heap m
  /\ depth (_taskOrder (fst st')) = 0%nat
  /\ exists step, undoStack (_taskOrder (fst st'))
                  = step :: undoStack (_taskOrder m).
Proof.
  intros Hset Hd Hits HC HB.
  destruct (begin_facts m s Hd)
    as (Hs0 & Hi0 & Hm0 & Hh0 & Hd0 & Hu0 & Hc0 & Hk0 & _).
  destruct (Tasks.beginCompoundOperation true (m, s)) as [m0 s0].
  cbn [fst snd] in *. subst s0.
  assert (Hset0 : settled m0 s).
  { eapply settled_same; [| | exact Hset]; done. }
  destruct (moveEarlier_spec B A C D (undoStack (_taskOrder m)) m0 s Hset0)
    as (G1 & G2 & G3 & G4 & G5 & step & G6); try done.
  { by rewrite Hi0. }
  { by left. }
  destruct (TaskbookEvents.moveEarlier _ _ _ _) as [m1 s1]. cbn [fst snd] in *.
  destruct (end_facts m1 s1 G5) as (Es & Ei & Em & Eh & Ed & Ek & _).
  cbv zeta.
  destruct (Tasks.endCompoundOperation (m1, s1)) as [m2 s2].
  cbn [fst snd] in *. subst s2.
  split; [by rewrite Ei |].
  split; [eapply settled_same; [| | exact G2]; done |].
  split; [by rewrite Em, G3 |]. split; [by rewrite Eh, G4 |].
  split; [done |]. exists step. by rewrite Ek.
Qed.

Lemma first_widget_index s (f : nat) (c0 : Task.t) :
  distinct s -> widgets s !! f = Some c0 ->
  findFirstIndex (fun x => Nat.eqb (Task.wid x) (Task.wid c0)) (widgets s)
  = Z.of_nat f.
Proof.
  intros [Hnd _] Hf. unfold findFirstIndex.
  rewrite (findFirstIndex_from_found _ _ f c0 0 Hf); [lia | apply Nat.eqb_refl |].
  intros j y Hj Hy. apply Nat.eqb_neq. intros Hw.
  assert (j = f); [| lia].
  eapply (NoDup_lookup _ _ _ (Task.wid y) Hnd).
  - by rewrite list_lookup_fmap, Hy.
  - by rewrite list_lookup_fmap, Hf, Hw.
Qed.

End Drop.

(** A drop of dragged children on the surface they came from.  [toMove]
    are the [c] consecutive children from index [f] on, and [found] is the
    index of the child the drop landed on ([-1] for none), which is not
    inside the block.  Afterwards the dragged tasks sit together, in their
    order, immediately before the task they were dropped on (at the end
    for [-1]), and all other tasks keep their relative order; the surface
    is in step with the list; the entities are untouched; and either
    nothing moved and nothing changed at all, or the whole move is one
    undo step. *)
Theorem drop_moves_the_block_before_the_target
  (w : Taskbook.t) (m : Model) (toMove : list Task.t) (found : Z) (f c : nat) :
  Taskbook.model w = Some m ->
  Layout.settled m (Taskbook.ui w) ->
  OrderedStore.depth (_taskOrder m) = 0%nat ->
  (0 < c)%nat ->
  (f + c <= length (Taskbook.widgets (Taskbook.ui w)))%nat ->
  toMove = take c (drop f (Taskbook.widgets (Taskbook.ui w))) ->
  (found = -1 \/ 0 <= found <= Z.of_nat f
   \/ Z.of_nat (f + c) <= found < len (Taskbook.widgets (Taskbook.ui w))) ->
  let its := OrderedStore.items (_taskOrder m) in
  let block := take c (drop f its) in
  let rest := take f its ++ drop (f + c) its in
  let p := if found =? -1 then length rest
           else if found <=? Z.of_nat f then Z.to_nat found
           else (Z.to_nat found - c)%nat in
  let w' := TaskbookEvents.dropMove toMove found w in
  exists m',
    Taskbook.model w' = Some m'
    /\ OrderedStore.items (_taskOrder m') = take p rest ++ block ++ drop p rest
    /\ Layout.settled m' (Taskbook.ui w')
    /\ _taskMap m' = _taskMap m
    /\ heap m' = heap m
    /\ (w' = w
        \/ exists step, OrderedStore.undoStack (_taskOrder m')
                        = step :: OrderedStore.undoStack (_taskOrder m)).
Proof.
  intros Hm Hset Hd Hc Hfc Hmove Hfound its block rest p w'.
  destruct w as [wm s]. cbn [Taskbook.model Taskbook.ui] in *. subst wm.
  pose proof Hset as (Hmir & Hdis & _).
  pose proof (mirrors_length m s Hmir) as Hlen. fold its in Hlen.
  set (ws := Taskbook.widgets s) in *.
  (* the block and what is around it *)
  set (A := take f its). set (R := drop (f + c) its).
  assert (Hits : its = A ++ block ++ R).
  { subst A block R. rewrite <- (take_drop f its) at 1. f_equal.
    rewrite <- (take_drop c (drop f its)) at 1. f_equal.
    by rewrite drop_drop. }
  assert (HlenA : length A = f) by (subst A; rewrite length_take; lia).
  assert (HlenB : length block = c).
  { subst block. rewrite length_take, length_drop. lia. }
  assert (HlenR : length R = (length its - (f + c))%nat).
  { subst R. by rewrite length_drop. }
  assert (HB : block <> []) by (intros E; rewrite E in HlenB; simpl in HlenB; lia).
  assert (Hrest : rest = A ++ R) by reflexivity.
  (* the first dragged child is the child at [f] *)
  destruct (lookup_lt_is_Some_2 ws f) as [c0 Hc0]; [lia |].
  assert (Hhead : exists tl, toMove = c0 :: tl).
  { rewrite Hmove. destruct c as [|c']; [lia |].
    rewrite (drop_S _ _ _ Hc0). simpl. eauto. }
  destruct Hhead as [tl Htl].
  assert (HlenM : length toMove = c).
  { rewrite Hmove, length_take, length_drop. lia. }
  assert (Hfrom : findFirstIndex (fun x => Nat.eqb (Task.wid x) (Task.wid c0)) ws
                  = Z.of_nat f) by (by apply first_widget_index).
  assert (Hw' : w' = _) by (subst w'; unfold TaskbookEvents.dropMove;
    cbn [Taskbook.model Taskbook.ui]; fold ws; rewrite Htl, Hfrom, <- Htl;
    unfold len; rewrite HlenM; reflexivity).
  cbv zeta in Hw'.
  unfold Taskbook.on_tasks in Hw'. cbn [Taskbook.model Taskbook.ui] in Hw'.
  unfold TaskbookEvents.moves in Hw'. rewrite Hlen in Hw'.
  assert (Hnoop : forall q, q = its -> w' = Taskbook.Build (Some m) s ->
            exists m', Taskbook.model w' = Some m'
              /\ OrderedStore.items (_taskOrder m') = q
              /\ Layout.settled m' (Taskbook.ui w')
              /\ _taskMap m' = _taskMap m /\ heap m' = heap m
              /\ (w' = Taskbook.Build (Some m) s
                  \/ exists step, OrderedStore.undoStack (_taskOrder m')
                                  = step :: OrderedStore.undoStack (_taskOrder m))).
  { intros q -> E. exists m. rewrite E. split; [done |]. split; [done |].
    split; [exact Hset |]. split; [done |]. split; [done |]. by left. }
  assert (Hmoved : forall q st, w' = Taskbook.Build (Some (fst st)) (snd st) ->
            OrderedStore.items (_taskOrder (fst st)) = q
            /\ Layout.settled (fst st) (snd st)
            /\ _taskMap (fst st) = _taskMap m
            /\ heap (fst st) = heap m
            /\ OrderedStore.depth (_taskOrder (fst st)) = 0%nat
            /\ (exists step, OrderedStore.undoStack (_taskOrder (fst st))
                             = step :: OrderedStore.undoStack (_taskOrder m)) ->
            exists m', Taskbook.model w' = Some m'
              /\ OrderedStore.items (_taskOrder m') = q
              /\ Layout.settled m' (Taskbook.ui w')
              /\ _taskMap m' = _taskMap m /\ heap m' = heap m
              /\ (w' = Taskbook.Build (Some m) s
                  \/ exists step, OrderedStore.undoStack (_taskOrder m')
                                  = step :: OrderedStore.undoStack (_taskOrder m))).
  { intros q st E (G1 & G2 & G3 & G4 & _ & G6). exists (fst st). rewrite E.
    cbn [Taskbook.model Taskbook.ui]. split; [done |]. split; [done |].
    split; [exact G2 |]. split; [done |]. split; [done |]. by right. }
  destruct Hfound as [-> | [Hfound | Hfound]].
  - (* dropped past the tasks *)
    rewrite !Z.eqb_refl in Hw'. cbn [negb andb] in Hw'.
    subst p. rewrite Z.eqb_refl.
    rewrite Hrest, take_ge, drop_ge by lia. rewrite app_nil_r.
    destruct (decide (R = [])) as [HR|HR].
    + apply Hnoop; [by rewrite Hits, HR, !app_nil_r |].
      rewrite HR in HlenR. simpl in HlenR.
      rewrite Hw'.
      destruct (Z.leb_spec (Z.of_nat f) (Z.of_nat (length its) - 1)); [| lia].
      destruct (Z.ltb_spec (Z.of_nat (length its) - 1) (Z.of_nat f + Z.of_nat c));
        [done | lia].
    + assert (HlenR' : (0 < length R)%nat) by (destruct R; [done | simpl; lia]).
      destruct (Z.leb_spec (Z.of_nat f) (Z.of_nat (length its) - 1)) as [_|] in Hw';
        [| lia].
      destruct (Z.ltb_spec (Z.of_nat (length its) - 1) (Z.of_nat f + Z.of_nat c))
        as [|_] in Hw'; [lia |].
      cbn [andb] in Hw'.
      destruct (Z.ltb_spec (Z.of_nat f) (Z.of_nat (length its) - 1)) as [_|] in Hw';
        [| lia].
      pose proof (block_later A block R [] m s Hset Hd) as G.
      rewrite app_nil_r in G. specialize (G Hits HR HB). cbv zeta in G.
      rewrite HlenB in G. unfold len in G. rewrite HlenA in G.
      replace (Z.of_nat (length (A ++ block ++ R)) - 1)
        with (Z.of_nat (length its) - 1) in G by (by rewrite <- Hits).
      rewrite app_nil_r in G. rewrite <- app_assoc.
      eapply Hmoved; [exact Hw' | exact G].
  - (* dropped on a task before the block *)
    destruct (Z.eqb_spec found (-1)) as [|_] in Hw'; [lia |].
    destruct (Z.ltb_spec (Z.of_nat f) found) as [|_] in Hw'; [lia |].
    cbn [negb andb] in Hw'. subst p.
    destruct (Z.eqb_spec found (-1)) as [|_]; [lia |].
    destruct (Z.leb_spec found (Z.of_nat f)) as [_|]; [| lia].
    set (k := Z.to_nat found).
    assert (Hk : found = Z.of_nat k) by lia. clearbody k. subst found.
    assert (Hkf : (k <= f)%nat) by lia.
    destruct (decide (k = f)) as [->|Hne].
    + rewrite Hrest, <- HlenA, take_app_length, drop_app_length.
      apply Hnoop; [done |]. rewrite Hw'.
      destruct (Z.leb_spec (Z.of_nat f) (Z.of_nat f)); [| lia].
      destruct (Z.ltb_spec (Z.of_nat f) (Z.of_nat f + Z.of_nat c)); [done | lia].
    + set (A1 := take k A). set (C := drop k A).
      assert (HA : A = A1 ++ C) by (subst A1 C; by rewrite take_drop).
      assert (HlenA1 : length A1 = k) by (subst A1; rewrite length_take; lia).
      assert (HC : C <> []).
      { intros E. apply (f_equal length) in HA.
        rewrite length_app, E in HA. simpl in HA. lia. }
      destruct (Z.leb_spec (Z.of_nat f) (Z.of_nat k)) as [|_] in Hw'; [lia |].
      cbn [andb] in Hw'.
      destruct (Z.ltb_spec (Z.of_nat f) (Z.of_nat k)) as [|_] in Hw'; [lia |].
      destruct (Z.ltb_spec (Z.of_nat k) (Z.of_nat f)) as [_|] in Hw'; [| lia].
      pose proof (block_earlier A1 block C R m s Hset Hd) as G.
      assert (Hits' : OrderedStore.items (_taskOrder m) = A1 ++ C ++ block ++ R).
      { fold its. by rewrite Hits, HA, <- app_assoc. }
      specialize (G Hits' HC HB). cbv zeta in G.
      rewrite HlenB, <- HA in G. unfold len in G. rewrite HlenA, HlenA1 in G.
      rewrite Hrest, HA, <- app_assoc, <- HlenA1, take_app_length,
        drop_app_length.
      eapply Hmoved; [exact Hw' | exact G].
  - (* dropped on a task after the block *)
    unfold len in Hfound. rewrite Hlen in Hfound.
    destruct (Z.eqb_spec found (-1)) as [|_] in Hw'; [lia |].
    destruct (Z.ltb_spec (Z.of_nat f) found) as [_|] in Hw'; [| lia].
    cbn [negb andb] in Hw'. subst p.
    destruct (Z.eqb_spec found (-1)) as [|_]; [lia |].
    destruct (Z.leb_spec found (Z.of_nat f)) as [|_]; [lia |].
    set (k := (Z.to_nat found - (f + c))%nat).
    assert (Hk : found = Z.of_nat (f + c + k)) by lia.
    assert (Hp : (Z.to_nat found - c)%nat = (length A + k)%nat) by lia.
    rewrite Hp. clearbody k. subst found. clear Hp.
    destruct (decide (k = 0%nat)) as [->|Hne].
    + rewrite Hrest, Nat.add_0_r, take_app_length, drop_app_length.
      apply Hnoop; [done |]. rewrite Hw'.
      destruct (Z.leb_spec (Z.of_nat f) (Z.of_nat (f + c + 0) - 1)); [| lia].
      destruct (Z.ltb_spec (Z.of_nat (f + c + 0) - 1) (Z.of_nat f + Z.of_nat c));
        [done | lia].
    + set (C := take k R). set (D := drop k R).
      assert (HR : R = C ++ D) by (subst C D; by rewrite take_drop).
      assert (HlenC : length C = k) by (subst C; rewrite length_take; lia).
      assert (HC : C <> []).
      { intros E. rewrite E in HlenC. simpl in HlenC. lia. }
      destruct (Z.leb_spec (Z.of_nat f) (Z.of_nat (f + c + k) - 1)) as [_|] in Hw';
        [| lia].
      destruct (Z.ltb_spec (Z.of_nat (f + c + k) - 1) (Z.of_nat f + Z.of_nat c))
        as [|_] in Hw'; [lia |].
      cbn [andb] in Hw'.
      destruct (Z.ltb_spec (Z.of_nat f) (Z.of_nat (f + c + k) - 1)) as [_|] in Hw';
        [| lia].
      pose proof (block_later A block C D m s Hset Hd) as G.
      assert (Hits' : OrderedStore.items (_taskOrder m) = A ++ block ++ C ++ D).
      { fold its. by rewrite Hits, HR. }
      specialize (G Hits' HC HB). cbv zeta in G.
      rewrite HlenB in G. unfold len in G. rewrite HlenA in G.
      replace (Z.of_nat (length (A ++ block ++ C)) - 1)
        with (Z.of_nat (f + c + k) - 1) in G
        by (rewrite !length_app, HlenA, HlenB, HlenC; lia).
      rewrite Hrest, HR, (app_assoc A C D).
      replace (length A + k)%nat with (length (A ++ C))
        by (rewrite length_app; lia).
      rewrite take_app_length, drop_app_length, <- (app_assoc A C).
      eapply Hmoved; [exact Hw' | exact G].
Qed.

Lemma drop_moves_the_block_before_the_target_witness :
  let w := Examples.abc in
  let dragged := take 1 (Taskbook.widgets (Taskbook.ui w)) in
  exists m',
    Taskbook.model (TaskbookEvents.dropMove dragged 2 w) = Some m'
    /\ OrderedStore.items (_taskOrder m') = ["uuid-1"; "uuid-0"; "uuid-2"].
Proof.
  intros w dragged.
  destruct (drop_moves_the_block_before_the_target w (Examples.model_of w)
              dragged 2 0 1) as (m' & H1 & H2 & _).
  - vm_compute. reflexivity.
  - split; [vm_compute; reflexivity |]. split; [| vm_compute; reflexivity].
    split; apply (bool_decide_unpack _); vm_compute; exact I.
  - vm_compute. reflexivity.
  - lia.
  - vm_compute. lia.
  - vm_compute. reflexivity.
  - right. right. vm_compute. split; [discriminate | reflexivity].
  - exists m'. split; [exact H1 |]. rewrite H2. vm_compute. reflexivity.
Defined.

Section Deletion.

Import Taskbook Layout OrderedStore TaskbookActions.

Lemma indices_where_app (g : Task.t -> bool) (i : Z) (ws : list Task.t)
  (x : Task.t) :
  indices_where g i (ws ++ [x])
  = indices_where g i ws ++ (if g x then [i + len ws] else []).
Proof.
  revert i. induction ws as [|c ws IH]; intros i; simpl.
  - unfold len. simpl. rewrite Z.add_0_r. by destruct (g x).
  - rewrite IH.
    replace (i + 1 + len ws) with (i + len (c :: ws)) by (unfold len; simpl; lia).
    by destruct (g c).
Qed.

Lemma indices_where_nonneg (g : Task.t -> bool) (i : Z) (ws : list Task.t) :
  0 <= i -> Forall (fun k => 0 <= k) (indices_where g i ws).
Proof.
  revert i. induction ws as [|c ws IH]; intros i Hi; simpl; [done |].
  destruct (g c); [constructor; [done |] |]; apply IH; lia.
Qed.

Lemma indices_where_bound (g : Task.t -> bool) (i : Z) (ws : list Task.t) :
  Forall (fun k => k < i + len ws) (indices_where g i ws).
Proof.
  revert i. induction ws as [|c ws IH]; intros i; simpl; [done |].
  assert (H : Forall (fun k => k < i + len (c :: ws))
                     (indices_where g (i + 1) ws)).
  { eapply Forall_impl; [apply IH |]. intros k Hk. unfold len in *. simpl. lia. }
  destruct (g c); [constructor; [unfold len; simpl; lia | done] | done].
Qed.

Lemma delete_marked {A} (g : Task.t -> bool) (ws : list Task.t) :
  forall (l extra : list A),
    length l = length ws ->
    foldl (fun a i => delete (Z.to_nat i) a) (l ++ extra)
          (reverse (indices_where g 0 ws))
    = (fst <$> List.filter (fun p => negb (g (snd p))) (zip l ws)) ++ extra.
Proof.
  induction ws as [|x ws IH] using rev_ind; intros l extra Hlen.
  - by destruct l.
  - destruct l as [|y l _] using rev_ind; [rewrite length_app in Hlen; simpl in Hlen; lia |].
    rewrite !length_app in Hlen. simpl in Hlen.
    assert (Hl : length l = length ws) by lia.
    rewrite indices_where_app, reverse_app, zip_with_app by done.
    rewrite List.filter_app, fmap_app. simpl.
    destruct (g x) eqn:Hg; simpl.
    + rewrite ?reverse_singleton. simpl.
      replace (Z.to_nat (0 + len ws)) with (length l) by (unfold len; lia).
      rewrite <- app_assoc. simpl. rewrite delete_middle.
      rewrite app_nil_r. by apply IH.
    + rewrite <- !app_assoc. simpl. by apply IH.
Qed.

Lemma delete_beyond {A} (l : list A) (i : nat) :
  (length l <= i)%nat -> delete i l = l.
Proof.
  revert i. induction l as [|x l IH]; intros i Hi; [by destruct i |].
  destruct i as [|i]; simpl in *; [lia |]. rewrite IH; [done | lia].
Qed.

Lemma length_delete_fold {A} (rs : list Z) (l : list A) :
  (length (foldl (fun a i => delete (Z.to_nat i) a) l rs) <= length l)%nat.
Proof.
  revert l. induction rs as [|i rs IH]; intros l; simpl; [done |].
  etrans; [apply IH |].
  destruct (decide (Z.to_nat i < length l)%nat) as [Hi|Hi].
  - rewrite length_delete; [lia | by apply lookup_lt_is_Some_2].
  - rewrite delete_beyond; lia.
Qed.

Lemma remove_in_compound (i : Z) (us0 : list (list Change)) (m : Model)
  (s : Surface) :
  settled m s -> 0 <= i ->
  depth (_taskOrder m) = 1%nat ->
  isUndoable (_taskOrder m) = true ->
  (madeCompoundChange (_taskOrder m) = false /\ undoStack (_taskOrder m) = us0
   \/ madeCompoundChange (_taskOrder m) = true
      /\ exists step, undoStack (_taskOrder m) = step :: us0) ->
  let st' := Tasks.remove i (m, s) in
  items (_taskOrder (fst st')) = delete (Z.to_nat i) (items (_taskOrder m))
  /\ settled (fst st') (snd st')
  /\ _taskMap (fst st') = _taskMap m
  /\ heap (fst st') = heap m
  /\ uuids (fst st') = uuids m
  /\ depth (_taskOrder (fst st')) = 1%nat
  /\ isUndoable (_taskOrder (fst st')) = true
  /\ (madeCompoundChange (_taskOrder (fst st')) = false
      /\ undoStack (_taskOrder (fst st')) = us0
      \/ madeCompoundChange (_taskOrder (fst st')) = true
         /\ exists step, undoStack (_taskOrder (fst st')) = step :: us0)
  /\ (madeCompoundChange (_taskOrder m) = true \/ i < len (items (_taskOrder m)) ->
      madeCompoundChange (_taskOrder (fst st')) = true).
Proof.
  intros Hset Hi Hd Hu Hstack st'.
  assert (Hsettled : settled (fst st') (snd st')).
  { subst st'. apply (edit_settled (RemoveAt i) m s); [| done].
    simpl. by intros k Hk%elem_of_nil. }
  subst st'. unfold Tasks.remove in *.
  destruct (at_index (items (_taskOrder m)) i) as [old|] eqn:Hold.
  - rewrite (remove_at _onTasksChanged i old m s Hold) in *.
    cbn [fst snd] in *.
    split; [cbn [with_order _taskOrder]; by rewrite record_items |].
    split; [exact Hsettled |]. split; [done |]. split; [done |].
    split; [done |].
    cbn [with_order _taskOrder].
    destruct (_taskOrder m) as [its us rs d un mc].
    cbn [depth isUndoable madeCompoundChange undoStack items] in *. subst d un.
    unfold record. cbn.
    destruct Hstack as [[-> ->]|[-> [step ->]]]; cbn; eauto 10.
  - assert (Hsame : TaskList.remove _onTasksChanged i (m, s) = (m, s)).
    { unfold TaskList.remove, TaskList.edit. cbn [fst snd apply].
      by rewrite Hold. }
    rewrite Hsame in *. cbn [fst snd].
    assert (Hge : (length (items (_taskOrder m)) <= Z.to_nat i)%nat).
    { unfold at_index in Hold. destruct (Z.ltb_spec i 0); [lia |].
      by apply lookup_ge_None. }
    split; [by rewrite delete_beyond |].
    split; [done |]. split; [done |]. split; [done |]. split; [done |].
    split; [done |]. split; [done |]. split; [done |].
    intros [H|H]; [done |]. unfold len in H. lia.
Qed.

Lemma remove_fold (rs : list Z) :
  forall (us0 : list (list Change)) (m : Model) (s : Surface),
    settled m s -> Forall (fun i => 0 <= i) rs ->
    depth (_taskOrder m) = 1%nat ->
    isUndoable (_taskOrder m) = true ->
    (madeCompoundChange (_taskOrder m) = false /\ undoStack (_taskOrder m) = us0
     \/ madeCompoundChange (_taskOrder m) = true
        /\ exists step, undoStack (_taskOrder m) = step :: us0) ->
    exists m' s',
      foldl (fun a i => on_tasks (Tasks.remove i) a) (Build (Some m) s) rs
      = Build (Some m') s'
      /\ items (_taskOrder m')
         = foldl (fun l i => delete (Z.to_nat i) l) (items (_taskOrder m)) rs
      /\ settled m' s'
      /\ _taskMap m' = _taskMap m
      /\ heap m' = heap m
      /\ uuids m' = uuids m
      /\ depth (_taskOrder m') = 1%nat
      /\ isUndoable (_taskOrder m') = true
      /\ (madeCompoundChange (_taskOrder m') = false
          /\ undoStack (_taskOrder m') = us0
          \/ madeCompoundChange (_taskOrder m') = true
             /\ exists step, undoStack (_taskOrder m') = step :: us0)
      /\ (madeCompoundChange (_taskOrder m) = true
          \/ (exists i tl, rs = i :: tl /\ i < len (items (_taskOrder m))) ->
          madeCompoundChange (_taskOrder m') = true).
Proof.
  induction rs as [|i rs IH]; intros us0 m s Hset Hrs Hd Hu Hstack.
  - exists m, s. repeat (split; [done |]).
    intros [H|(i & tl & H & _)]; done.
  - apply Forall_cons in Hrs as [Hi Hrs]. cbn [foldl].
    destruct (remove_in_compound i us0 m s Hset Hi Hd Hu Hstack)
      as (H1 & H2 & H3 & H4 & H5 & H6 & H7 & H8 & H9).
    unfold on_tasks at 2. cbn [model ui].
    destruct (Tasks.remove i (m, s)) as [m1 s1]. cbn [fst snd] in *.
    destruct (IH us0 m1 s1 H2 Hrs H6 H7 H8)
      as (m' & s' & G0 & G1 & G2 & G3 & G4 & G5 & G6 & G7 & G8 & G9).
    exists m', s'. split; [exact G0 |]. split; [by rewrite G1, H1 |].
    split; [done |]. split; [by rewrite G3 |]. split; [by rewrite G4 |].
    split; [by rewrite G5 |]. split; [done |]. split; [done |].
    split; [done |].
    intros H. apply G9. left. apply H9.
    destruct H as [H|(i' & tl & [= <- <-] & H)]; [by left | by right].
Qed.

Lemma push_in_compound (l : loc) (e : TaskModel.t) (us0 : list (list Change))
  (m : Model) (s : Surface) :
  settled m s ->
  heap m !! l = Some e ->
  TaskModel.id e ∉ items (_taskOrder m) ->
  depth (_taskOrder m) = 1%nat ->
  isUndoable (_taskOrder m) = true ->
  madeCompoundChange (_taskOrder m) = true ->
  (exists step, undoStack (_taskOrder m) = step :: us0) ->
  let st' := Tasks.push l (m, s) in
  depth (_taskOrder (fst st')) = 1%nat
  /\ exists step, undoStack (_taskOrder (fst st')) = step :: us0.
Proof.
  intros Hset He Hfresh Hd Hu Hmade [step Hstep] st'. subst st'.
  unfold Tasks.push. rewrite (push_cached _ l e m s He).
  cbn [fst snd _taskOrder].
  destruct (_taskOrder m) as [its us rs d un mc].
  cbn [depth isUndoable madeCompoundChange undoStack items] in *.
  subst d un mc us. unfold record. cbn. eauto.
Qed.

End Deletion.

(** [deleteTasks] on a surface with an active task that is in step with its
    list, outside a compound operation.  The tasks that remain are exactly
    those whose child was not selected or is marked as not deletable, in
    their order; when none would remain the list gets one new blank
    executable task instead, so the list is never left empty.  No entity is
    changed, no child stays marked selected, the surface is in step with
    the list again, and whatever was deleted can be taken back by one
    undo. *)
Theorem deleteTasks_removes_the_selected_deletable_tasks
  (w : Taskbook.t) (m : Model) :
  Taskbook.model w = Some m ->
  Taskbook.hasActiveTask (Taskbook.ui w) = true ->
  Layout.settled m (Taskbook.ui w) ->
  OrderedStore.depth (_taskOrder m) = 0%nat ->
  let its := OrderedStore.items (_taskOrder m) in
  let doomed := fun c => Taskbook.isSelected (Taskbook.ui w) c
                         && TaskbookActions.deletable m c in
  let kept := fst <$> List.filter (fun p => negb (doomed (snd p)))
                        (zip its (Taskbook.widgets (Taskbook.ui w))) in
  let e0 := TaskModel.Build (uuid (uuids m)) Dataintegration "" false [] None []
                            false in
  let w' := TaskbookActions.deleteTasks w in
  exists m',
    Taskbook.model w' = Some m'
    /\ (kept <> [] \/ its = [] ->
        OrderedStore.items (_taskOrder m') = kept /\ heap m' = heap m)
    /\ (kept = [] -> its <> [] ->
        OrderedStore.items (_taskOrder m') = [uuid (uuids m)]
        /\ heap m' = heap m ++ [e0]
        /\ Examples.entity 0 m' = Some e0)
    /\ Layout.settled m' (Taskbook.ui w')
    /\ Forall (fun c => Task.selected c = false)
              (Taskbook.widgets (Taskbook.ui w'))
    /\ OrderedStore.depth (_taskOrder m') = 0%nat
    /\ (kept <> its ->
        exists step, OrderedStore.undoStack (_taskOrder m')
                     = step :: OrderedStore.undoStack (_taskOrder m)).
Proof.
  intros Hm Hact Hset Hd its doomed kept e0 w'.
  destruct w as [wm s]. cbn [Taskbook.model Taskbook.ui] in *. subst wm.
  pose proof Hset as (Hmir & Hdis & _).
  pose proof (mirrors_length m s Hmir) as Hlen. fold its in Hlen.
  destruct (set_mode_command_widgets s) as (Hw0 & Hact0 & _).
  pose proof (settled_set_mode m command s Hset) as Hset0.
  set (s0 := Taskbook.set_mode command s) in *.
  assert (Hsel0 : forall c, Taskbook.isSelected s0 c = Taskbook.isSelected s c).
  { intros c. unfold Taskbook.isSelected, Taskbook.is_active. by rewrite Hact0. }
  set (toDelete := TaskbookActions.indices_where doomed 0 (Taskbook.widgets s)).
  assert (Hw' : w' = _) by (subst w'; unfold TaskbookActions.deleteTasks,
    TaskbookActions.ready; cbn [Taskbook.model Taskbook.ui]; rewrite Hact;
    cbn [negb]; unfold TaskbookActions.Private_deleteTasks;
    cbn [Taskbook.model]; reflexivity).
  cbv zeta in Hw'.
  change (Taskbook.on_ui (fun _ => Taskbook.set_mode command)
            (Taskbook.Build (Some m) s))
    with (Taskbook.Build (Some m) s0) in Hw'.
  cbn [Taskbook.ui] in Hw'. rewrite Hw0 in Hw'.
  assert (Hidx : TaskbookActions.indices_where
                   (fun c => Taskbook.isSelected s0 c
                             && TaskbookActions.deletable m c) 0
                   (Taskbook.widgets s) = toDelete).
  { subst toDelete doomed. clear -Hsel0.
    generalize 0. induction (Taskbook.widgets s) as [|c ws IH]; intros z; [done |].
    simpl. rewrite Hsel0, IH. reflexivity. }
  rewrite Hidx in Hw'.
  pose proof (delete_marked doomed (Taskbook.widgets s) its [] (eq_sym Hlen))
    as Hkept.
  rewrite !app_nil_r in Hkept. fold toDelete kept in Hkept.
  destruct (reverse toDelete) as [|first tl] eqn:Hrev.
  - (* nothing to delete *)
    simpl in Hkept.
    exists m. rewrite Hw'. cbn [Taskbook.on_ui Taskbook.model Taskbook.ui].
    split; [done |]. split; [by intros _ |].
    split; [intros Hk Hi; rewrite <- Hkept in Hk; done |].
    split; [by apply settled_deselectAll |].
    split; [apply deselectAll_unmarks |]. split; [done |].
    intros Hne. by rewrite <- Hkept in Hne.
  - (* the deletions, in one compound operation *)
    assert (Hnn : Forall (fun i => 0 <= i) (first :: tl)).
    { rewrite <- Hrev. apply Forall_reverse.
      by apply indices_where_nonneg. }
    assert (Hfirst : first < len its).
    { assert (Hin : first ∈ toDelete).
      { apply elem_of_reverse. rewrite Hrev. left. }
      pose proof (indices_where_bound doomed 0 (Taskbook.widgets s)) as Hb.
      rewrite Forall_forall in Hb. specialize (Hb first Hin).
      unfold len in *. lia. }
    destruct (begin_facts m s0 Hd)
      as (Hs1 & Hi1 & Hm1 & Hh1 & Hd1 & Hu1 & Hc1 & Hk1 & Hq1).
    change (Taskbook.on_tasks (Tasks.beginCompoundOperation true)
              (Taskbook.Build (Some m) s0))
      with (Taskbook.Build
              (Some (fst (Tasks.beginCompoundOperation true (m, s0))))
              (snd (Tasks.beginCompoundOperation true (m, s0)))) in Hw'.
    destruct (Tasks.beginCompoundOperation true (m, s0)) as [m1 s1].
    cbn [fst snd] in *. subst s1.
    assert (Hset1 : Layout.settled m1 s0).
    { eapply settled_same; [| | exact Hset0]; done. }
    destruct (remove_fold (first :: tl) (OrderedStore.undoStack (_taskOrder m))
                m1 s0 Hset1 Hnn Hd1 Hu1)
      as (m3 & s3 & F0 & F1 & F2 & F3 & F4 & F5 & F6 & F7 & F8 & F9).
    { left. by rewrite Hk1. }
    rewrite F0 in Hw'. cbn [Taskbook.model] in Hw'.
    rewrite Hi1 in F1. fold its in F1. rewrite Hkept in F1.
    assert (Hmade : OrderedStore.madeCompoundChange (_taskOrder m3) = true).
    { apply F9. right. exists first, tl. split; [done |]. by rewrite Hi1. }
    destruct F8 as [[F8 _]|[_ [step Hstep]]]; [congruence |].
    assert (Hnonempty : its <> []).
    { intros E. rewrite E in Hfirst. unfold len in Hfirst. simpl in Hfirst.
      rewrite Forall_cons in Hnn. lia. }
    assert (Hshorter : (length kept < length its)%nat).
    { rewrite <- Hkept. cbn [foldl].
      eapply Nat.le_lt_trans; [apply length_delete_fold |].
      rewrite length_delete; [destruct its; [done | simpl; lia] |].
      apply lookup_lt_is_Some_2. rewrite Forall_cons in Hnn.
      unfold len in Hfirst. lia. }
    assert (Hlen3 : TaskList.length m3 = len kept).
    { unfold TaskList.length. by rewrite F1. }
    rewrite Hlen3 in Hw'.
    destruct (Z.eqb_spec (len kept) 0) as [Hz|Hz] in Hw'.
    + (* everything was deleted: a new task *)
      assert (Hk0 : kept = []).
      { destruct kept; [done | unfold len in Hz; simpl in Hz; lia]. }
      set (r := ContentFactory.createDataintegrationTask TaskbookActions.blank m3)
        in *.
      assert (Hr : r = (length (heap m3),
                        MkModel (_taskOrder m3) (_taskMap m3)
                          (heap m3 ++ [e0])
                          (<[type_key (uuid (uuids m3)) := type_name Dataintegration]>
                             (modelDB m3))
                          (S (uuids m3)))).
      { subst e0. rewrite <- Hq1, <- F5. reflexivity. }
      pose proof (settled_create Dataintegration TaskbookActions.blank m3 s3 F2)
        as Hsetc.
      fold ContentFactory.createDataintegrationTask in Hsetc. fold r in Hsetc.
      assert (Hec : heap (snd r) !! fst r = Some e0).
      { rewrite Hr. cbn [fst snd heap]. rewrite lookup_app_r by lia.
        by rewrite Nat.sub_diag. }
      assert (Hoc : _taskOrder (snd r) = _taskOrder m3) by (by rewrite Hr).
      assert (Hfresh : TaskModel.id e0 ∉ OrderedStore.items (_taskOrder (snd r))).
      { rewrite Hoc, F1, Hk0. apply not_elem_of_nil. }
      destruct (push_new (fst r) e0 (snd r) s3 Hsetc Hec Hfresh)
        as (P1 & P2 & P3 & P4).
      destruct (push_in_compound (fst r) e0
                  (OrderedStore.undoStack (_taskOrder m)) (snd r) s3 Hsetc Hec
                  Hfresh) as (P5 & step' & P6); try (by rewrite Hoc).
      { exists step. by rewrite Hoc. }
      change (Taskbook.on_tasks (Tasks.push (fst r))
                (Taskbook.Build (Some (snd r)) (Taskbook.ui (Taskbook.Build (Some m3) s3))))
        with (Taskbook.Build (Some (fst (Tasks.push (fst r) (snd r, s3))))
                (snd (Tasks.push (fst r) (snd r, s3)))) in Hw'.
      set (st4 := Tasks.push (fst r) (snd r, s3)) in *.
      destruct (end_facts (fst st4) (snd st4) P5)
        as (Es & Ei & Em & Eh & Ed & Ek & _).
      change (Taskbook.on_tasks Tasks.endCompoundOperation
                (Taskbook.Build (Some (fst st4)) (snd st4)))
        with (Taskbook.Build
                (Some (fst (Tasks.endCompoundOperation (fst st4, snd st4))))
                (snd (Tasks.endCompoundOperation (fst st4, snd st4)))) in Hw'.
      destruct (Tasks.endCompoundOperation (fst st4, snd st4)) as [m5 s5].
      cbn [fst snd] in *. subst s5.
      assert (Hset5 : Layout.settled m5 (snd st4)).
      { eapply settled_same; [| | exact P4]; done. }
      exists m5. rewrite Hw'.
      cbn [TaskbookActions.set_active Taskbook.on_ui Taskbook.model Taskbook.ui].
      split; [done |].
      assert (Hi5 : OrderedStore.items (_taskOrder m5) = [uuid (uuids m)]).
      { rewrite Ei, P1, Hoc, F1, Hk0. reflexivity. }
      assert (Hh5 : heap m5 = heap m ++ [e0]).
      { rewrite Eh, P2, Hr. cbn [snd heap]. by rewrite F4, Hh1. }
      split; [intros [Hk|Hk]; done |].
      split.
      { intros _ _. split; [done |]. split; [done |].
        unfold Examples.entity, TaskList.get. rewrite Hi5.
        change (at_index [uuid (uuids m)] 0) with (Some (uuid (uuids m))).
        unfold TaskList.map_get. rewrite Em, P3.
        change (TaskModel.id e0) with (uuid (uuids m)).
        rewrite lookup_insert_eq, Hh5, Hr. cbn [fst].
        rewrite F4, Hh1, lookup_app_r by lia. by rewrite Nat.sub_diag. }
      split; [by apply settled_deselectAll, settled_set_active |].
      split; [apply deselectAll_unmarks |]. split; [done |].
      intros _. exists step'. by rewrite Ek.
    + (* some tasks remain *)
      destruct (end_facts m3 s3 F6) as (Es & Ei & Em & Eh & Ed & Ek & _).
      change (Taskbook.on_tasks Tasks.endCompoundOperation
                (Taskbook.Build (Some m3) s3))
        with (Taskbook.Build
                (Some (fst (Tasks.endCompoundOperation (m3, s3))))
                (snd (Tasks.endCompoundOperation (m3, s3)))) in Hw'.
      destruct (Tasks.endCompoundOperation (m3, s3)) as [m5 s5].
      cbn [fst snd] in *. subst s5.
      assert (Hset5 : Layout.settled m5 s3).
      { eapply settled_same; [| | exact F2]; done. }
      exists m5. rewrite Hw'.
      cbn [TaskbookActions.set_active Taskbook.on_ui Taskbook.model Taskbook.ui].
      split; [done |].
      split; [intros _; split; [by rewrite Ei | by rewrite Eh, F4] |].
      split.
      { intros Hk. rewrite Hk in Hz. done. }
      split; [by apply settled_deselectAll, settled_set_active |].
      split; [apply deselectAll_unmarks |]. split; [done |].
      intros _. exists step. by rewrite Ek.
Qed.

Lemma deleteTasks_removes_the_selected_deletable_tasks_witness :
  let w := TaskbookActions.set_active 1
             (Examples.select 0 (Examples.document ["a"; "b"; "c"; "d"])) in
  exists m',
    Taskbook.model (TaskbookActions.deleteTasks w) = Some m'
    /\ OrderedStore.items (_taskOrder m') = ["uuid-2"; "uuid-3"].
Proof.
  intros w.
  destruct (deleteTasks_removes_the_selected_deletable_tasks w
              (Examples.model_of w)) as (m' & H1 & H2 & _).
  - vm_compute. reflexivity.
  - vm_compute. reflexivity.
  - split; [vm_compute; reflexivity |]. split; [| vm_compute; reflexivity].
    split; apply (bool_decide_unpack _); vm_compute; exact I.
  - vm_compute. reflexivity.
  - exists m'. split; [exact H1 |].
    destruct H2 as [H2 _]; [left; vm_compute; discriminate |].
    rewrite H2. vm_compute. reflexivity.
Defined.

Section Document.

Import TaskbookModel.

Lemma obj_get_None (k : string) (o : list (string * JSONValue)) :
  obj_get k o = None <-> k ∉ (fst <$> o).
Proof.
  induction o as [|[k' v] o IH]; simpl.
  - split; [intros _; apply not_elem_of_nil | done].
  - destruct (String.eqb_spec k k') as [->|Hne].
    + split; [done |]. intros H. exfalso. apply H. left.
    + rewrite IH, not_elem_of_cons.
      split; [by intros H; split | by intros [_ H]].
Qed.

Lemma obj_set_fresh (k : string) (v : JSONValue) (o : list (string * JSONValue)) :
  obj_get k o = None -> obj_set k v o = o ++ [(k, v)].
Proof.
  induction o as [|[k' v'] o IH]; simpl; [done |].
  destruct (String.eqb_spec k k'); [done |]. intros H. by rewrite IH.
Qed.

Lemma load_metadata_same (l acc : list (string * JSONValue)) :
  NoDup (fst <$> l) ->
  obj_get "orig_nbformat" l = None ->
  (forall k, k ∈ (fst <$> l) -> obj_get k acc = None) ->
  foldl (fun acc kv => if String.eqb (fst kv) "orig_nbformat" then acc
                       else obj_set (fst kv) (snd kv) acc) acc l
  = acc ++ l.
Proof.
  revert acc. induction l as [|[k v] l IH]; intros acc Hnd Horig Hacc; simpl.
  - by rewrite app_nil_r.
  - rewrite fmap_cons in Hnd. cbn [fst] in Hnd.
    apply NoDup_cons in Hnd as [Hk Hnd]. cbn [obj_get] in Horig.
    cbn [fst snd].
    destruct (String.eqb_spec "orig_nbformat" k) as [<-|Hne]; [done |].
    destruct (String.eqb_spec k "orig_nbformat") as [->|_]; [done |].
    rewrite obj_set_fresh by (apply Hacc; left).
    rewrite IH; [by rewrite <- app_assoc | done | done |].
    intros k' Hk'. apply obj_get_None. rewrite fmap_app. simpl.
    rewrite elem_of_app, list_elem_of_singleton.
    intros [Hin| ->]; [| done].
    apply obj_get_None in Hin; [done |]. apply Hacc. by right.
Qed.

Lemma ensureMetadata_idem md :
  _ensureMetadata (_ensureMetadata md) = _ensureMetadata md.
Proof.
  destruct (ensureMetadata_has md) as [H1 H2].
  unfold _ensureMetadata at 1. by rewrite H1, H2.
Qed.

Lemma obj_set_keys_fresh (k : string) (v : JSONValue)
  (o : list (string * JSONValue)) :
  has_key k o = false -> fst <$> obj_set k v o = (fst <$> o) ++ [k].
Proof.
  unfold has_key. intros H. rewrite obj_set_fresh.
  - by rewrite fmap_app.
  - by destruct (obj_get k o).
Qed.

Lemma ensureMetadata_NoDup md :
  NoDup (fst <$> md) -> NoDup (fst <$> _ensureMetadata md).
Proof.
  intros Hnd. unfold _ensureMetadata.
  assert (Hstep : forall k v o, NoDup (fst <$> o) ->
            NoDup (fst <$> (if has_key k o then o else obj_set k v o))).
  { intros k v o Ho. destruct (has_key k o) eqn:Hk; [done |].
    rewrite obj_set_keys_fresh by done.
    apply NoDup_app. split; [done |]. split; [| apply NoDup_singleton].
    intros x Hx ->%list_elem_of_singleton.
    unfold has_key in Hk. destruct (obj_get k o) eqn:Hg; [done |].
    by apply obj_get_None in Hg. }
  apply Hstep. by apply Hstep.
Qed.

End Document.

(** Saving a document and loading what was saved.  [toJSON] completes the
    metadata with the two defaults and writes it with the format version;
    [fromJSON] of that content, into any model, ends with the same
    metadata, the same major version, and the saved minor version unless
    the library's is larger.  Saving marks the document dirty only when a
    default had to be added; loading always does.  The metadata must have
    no repeated key and no [orig_nbformat] entry, which [fromJSON] never
    stores. *)
Theorem toJSON_then_fromJSON_keeps_metadata_and_version
  (MAJOR_VERSION MINOR_VERSION : Z)
  (st st2 : Model * TaskbookModel.Rest)
  (content : TaskbookModel.Content.t) (d1 : TaskbookModel.Rest) :
  TaskbookModel.toJSON st = Some (content, d1) ->
  NoDup (fst <$> TaskbookModel.metadata (snd st)) ->
  obj_get "orig_nbformat" (TaskbookModel.metadata (snd st)) = None ->
  let d2 := snd (TaskbookModel.fromJSON_value MAJOR_VERSION MINOR_VERSION
                   content st2) in
  TaskbookModel.metadata d1
  = TaskbookModel._ensureMetadata (TaskbookModel.metadata (snd st))
  /\ TaskbookModel.Content.metadata content = TaskbookModel.metadata d1
  /\ TaskbookModel.metadata d2 = TaskbookModel.metadata d1
  /\ TaskbookModel._nbformat d2 = TaskbookModel._nbformat (snd st)
  /\ TaskbookModel._nbformatMinor d2
     = Z.max MINOR_VERSION (TaskbookModel._nbformatMinor (snd st))
  /\ TaskbookModel.dirty d1
     = TaskbookModel.dirty (snd st)
       || negb (TaskbookModel.has_key "language_info"
                  (TaskbookModel.metadata (snd st))
                && TaskbookModel.has_key "kernelspec"
                     (TaskbookModel.metadata (snd st)))
  /\ TaskbookModel.dirty d2 = true.
Proof.
  intros Hsave Hnd Horig d2. unfold TaskbookModel.toJSON in Hsave.
  destruct (TaskbookModel.toJSON_tasks (fst st)) as [ts|]; [| done].
  assert (Hd1 : d1 = (if TaskbookModel.has_key "language_info"
                           (TaskbookModel.metadata (snd st))
                         && TaskbookModel.has_key "kernelspec"
                              (TaskbookModel.metadata (snd st))
                      then TaskbookModel.with_metadata
                             (TaskbookModel._ensureMetadata
                                (TaskbookModel.metadata (snd st))) (snd st)
                      else TaskbookModel.triggerContentChange
                             (TaskbookModel.with_metadata
                                (TaskbookModel._ensureMetadata
                                   (TaskbookModel.metadata (snd st)))
                                (snd st))))
    by (cbv zeta in Hsave; congruence).
  assert (Hc : content
               = TaskbookModel.Content.Build (TaskbookModel.metadata d1)
                   (TaskbookModel._nbformatMinor d1)
                   (TaskbookModel._nbformat d1) ts)
    by (cbv zeta in Hsave; congruence).
  clear Hsave.
  assert (Hmd : TaskbookModel.metadata d1
                = TaskbookModel._ensureMetadata
                    (TaskbookModel.metadata (snd st))
                /\ TaskbookModel._nbformat d1 = TaskbookModel._nbformat (snd st)
                /\ TaskbookModel._nbformatMinor d1
                   = TaskbookModel._nbformatMinor (snd st)
                /\ TaskbookModel.dirty d1
                   = TaskbookModel.dirty (snd st)
                     || negb (TaskbookModel.has_key "language_info"
                                (TaskbookModel.metadata (snd st))
                              && TaskbookModel.has_key "kernelspec"
                                   (TaskbookModel.metadata (snd st)))).
  { rewrite Hd1.
    destruct (TaskbookModel.has_key "language_info" _
              && TaskbookModel.has_key "kernelspec" _);
      cbn [TaskbookModel.metadata TaskbookModel.with_metadata
           TaskbookModel.triggerContentChange TaskbookModel._nbformat
           TaskbookModel._nbformatMinor TaskbookModel.dirty negb];
      rewrite ?orb_false_r, ?orb_true_r; done. }
  destruct Hmd as (Hm1 & Hv1 & Hv2 & Hdirty). clear Hd1.
  subst d2 content.
  unfold TaskbookModel.fromJSON_value.
  cbn [snd TaskbookModel.metadata TaskbookModel.with_metadata
       TaskbookModel.Content.metadata TaskbookModel.Content.nbformat
       TaskbookModel.Content.nbformat_minor TaskbookModel._nbformat
       TaskbookModel._nbformatMinor TaskbookModel.dirty].
  rewrite Hm1, Hv1, Hv2.
  split; [done |]. split; [done |]. split.
  - unfold TaskbookModel.load_metadata.
    rewrite load_metadata_same.
    + simpl. apply ensureMetadata_idem.
    + by apply ensureMetadata_NoDup.
    + by rewrite ensureMetadata_absent.
    + done.
  - split; [| split; [| split; [exact Hdirty | done]]].
    + destruct (Z.eqb_spec (TaskbookModel._nbformat (snd st)) MAJOR_VERSION); done.
    + destruct (Z.ltb_spec MINOR_VERSION (TaskbookModel._nbformatMinor (snd st)));
        lia.
Qed.

Lemma toJSON_then_fromJSON_keeps_metadata_and_version_witness :
  let d := TaskbookModel.create 4 2 "python" in
  let st := (Examples.model_of Examples.abc, d) in
  exists content d1,
    TaskbookModel.toJSON st = Some (content, d1)
    /\ TaskbookModel.metadata
         (snd (TaskbookModel.fromJSON_value 4 2 content (empty_model, d)))
       = TaskbookModel.metadata d.
Proof.
  intros d st.
  destruct (TaskbookModel.toJSON st) as [[content d1]|] eqn:Hsave;
    [| vm_compute in Hsave; discriminate].
  destruct (toJSON_then_fromJSON_keeps_metadata_and_version 4 2 st
              (empty_model, d) content d1 Hsave) as (H1 & _ & H3 & _).
  - apply (bool_decide_unpack _). vm_compute. exact I.
  - vm_compute. reflexivity.
  - exists content, d1. split; [reflexivity |].
    rewrite H3, H1. vm_compute. reflexivity.
Defined.
